(** * PAI-OpenCode: sentiment and outcome capture handlers

    A shallow embedding of
    - [.opencode/plugins/handlers/implicit-sentiment.ts] and
    - [.opencode/plugins/handlers/response-capture.ts],
    with the JavaScript primitives they rely on (UTF-16 strings, regular
    expressions, [String.prototype.replace], promises raced against a timer)
    and the properties of the capture pipeline proved over it. *)

From Stdlib Require Import Ascii String DecimalString QArith.
From stdpp Require Import base option list gmap.

#[local] Open Scope nat_scope.
#[local] Open Scope list_scope.

(** ** JavaScript strings

    A JavaScript string is a sequence of UTF-16 code units; [length],
    [slice], [substring], regular expressions without the [u] flag and
    [includes] all work on code units. *)

Definition char := N.
Bind Scope N_scope with char.
Abbreviation jsstring := (list N).

Definition chr (a : ascii) : char := N_of_ascii a.

(** An ASCII literal as a JavaScript string. *)
Definition str (s : string) : jsstring := map chr (list_ascii_of_string s).

Definition char_eqb (a b : char) : bool := N.eqb a b.

Fixpoint jsstring_eqb (a b : jsstring) : bool :=
  match a, b with
  | [], [] => true
  | x :: a', y :: b' => char_eqb x y && jsstring_eqb a' b'
  | _, _ => false
  end.

Definition in_range (lo hi c : char) : bool := N.leb lo c && N.leb c hi.

(** ECMAScript [LineTerminator]: LF, CR, LS, PS. *)
Definition isLineTerminator (c : char) : bool :=
  char_eqb c 10 || char_eqb c 13 || char_eqb c 8232 || char_eqb c 8233.

(** ECMAScript [WhiteSpace] and [LineTerminator], the set behind [\s] and
    [trim]. *)
Definition isWhiteSpace (c : char) : bool :=
  in_range 9 13 c || char_eqb c 32 || char_eqb c 160 || char_eqb c 5760
  || in_range 8192 8202 c || char_eqb c 8232 || char_eqb c 8233
  || char_eqb c 8239 || char_eqb c 8287 || char_eqb c 12288
  || char_eqb c 65279.

Definition isDigit (c : char) : bool := in_range 48 57 c.

(** [\w]: the 63 basic word characters. *)
Definition isWordChar (c : char) : bool :=
  in_range 97 122 c || in_range 65 90 c || isDigit c || char_eqb c 95.

(** [Canonicalize] of a regular expression with the [i] flag and without
    [u]: the upper-case form when it is a single code unit, except that a
    non-ASCII unit never folds to an ASCII one.  The table covers ASCII and
    Latin-1, the two blocks in which the patterns of the handlers have
    letters; elsewhere a unit is taken as its own canonical form. *)
Definition canonicalize (c : char) : char :=
  if in_range 97 122 c then c - 32
  else if in_range 224 254 c && negb (char_eqb c 247) then c - 32
  else c.

Fixpoint startsWith (p s : jsstring) : bool :=
  match p, s with
  | [], _ => true
  | x :: p', y :: s' => char_eqb x y && startsWith p' s'
  | _ :: _, [] => false
  end.

(** [s.includes(p)] *)
Fixpoint includes (p s : jsstring) : bool :=
  startsWith p s ||
  match s with
  | [] => false
  | _ :: s' => includes p s'
  end.

Fixpoint trimStart (s : jsstring) : jsstring :=
  match s with
  | c :: s' => if isWhiteSpace c then trimStart s' else s
  | [] => []
  end.

Definition trimEnd (s : jsstring) : jsstring := rev (trimStart (rev s)).

(** [s.trim()] *)
Definition trim (s : jsstring) : jsstring := trimEnd (trimStart s).

(** [s.slice(0, n)] and [s.substring(0, n)] for a literal [n >= 0]. *)
Definition slice0 (n : nat) (s : jsstring) : jsstring := take n s.

(** [l.join(sep)] *)
Definition joinWith (sep : jsstring) (l : list jsstring) : jsstring :=
  match l with
  | [] => []
  | x :: l' => x ++ concat (map (fun y => sep ++ y) l')
  end.

(** The line feed. *)
Definition nl : jsstring := [10%N].

(** A string is truthy when it is not empty. *)
Definition truthy (s : jsstring) : bool :=
  match s with [] => false | _ => true end.

(** The two halves of a surrogate pair. *)
Definition isHighSurrogate (c : char) : bool := in_range 55296 56319 c.
Definition isLowSurrogate (c : char) : bool := in_range 56320 57343 c.

(** What is left of a string that is written to a file as UTF-8 and read
    back: a surrogate without its other half cannot be encoded and comes
    back as U+FFFD.  This is [s.toWellFormed()]. *)
Fixpoint toWellFormed (s : jsstring) : jsstring :=
  match s with
  | [] => []
  | c :: s' =>
      if isHighSurrogate c then
        match s' with
        | d :: s'' =>
            if isLowSurrogate d then c :: d :: toWellFormed s''
            else 65533%N :: toWellFormed s'
        | [] => [65533%N]
        end
      else if isLowSurrogate c then 65533%N :: toWellFormed s'
      else c :: toWellFormed s'
  end.

(** ** Regular expressions

    A backtracking matcher in continuation-passing style, following the
    ECMAScript semantics of patterns: alternatives are tried left to right,
    quantifiers are greedy or lazy, an iteration of a quantifier that
    consumes nothing is rejected, and [exec] tries the start positions from
    left to right. *)

Record flags := Flags { ignoreCase : bool; multiline : bool; dotAll : bool }.

Inductive regex :=
| Empty
| Lit (c : char)
| Class (p : char -> bool)
| Dot
| Seq (r1 r2 : regex)
| Alt (r1 r2 : regex)
| Star (greedy : bool) (r : regex)
| Group (i : nat) (r : regex)
| Bol
| Eol
| WordBoundary.

(** The matcher's state: the code units before the current position (most
    recent first), those from it on, and the captures made so far. *)
Record mstate := MState {
  seen : jsstring;
  rest : jsstring;
  caps : list (nat * jsstring)
}.

Definition orElse {A} (a b : option A) : option A :=
  match a with Some _ => a | None => b end.

Definition step (st : mstate) (ok : char -> bool) (k : mstate -> option mstate)
  : option mstate :=
  match rest st with
  | c :: r => if ok c then k (MState (c :: seen st) r (caps st)) else None
  | [] => None
  end.

Definition atBol (fl : flags) (st : mstate) : bool :=
  match seen st with
  | [] => true
  | c :: _ => multiline fl && isLineTerminator c
  end.

Definition atEol (fl : flags) (st : mstate) : bool :=
  match rest st with
  | [] => true
  | c :: _ => multiline fl && isLineTerminator c
  end.

Definition atWordBoundary (st : mstate) : bool :=
  let a := match seen st with c :: _ => isWordChar c | [] => false end in
  let b := match rest st with c :: _ => isWordChar c | [] => false end in
  xorb a b.

Definition litMatches (fl : flags) (c x : char) : bool :=
  if ignoreCase fl then char_eqb (canonicalize c) (canonicalize x)
  else char_eqb c x.

Definition dotMatches (fl : flags) (x : char) : bool :=
  dotAll fl || negb (isLineTerminator x).

(** The iterations of a quantified atom [inner]: [fuel] bounds their
    number, and an iteration must consume something. *)
Fixpoint starLoop (inner : (mstate -> option mstate) -> mstate -> option mstate)
  (greedy : bool) (k : mstate -> option mstate) (fuel : nat) (st : mstate)
  : option mstate :=
  match fuel with
  | O => k st
  | S fuel' =>
      let again :=
        inner (fun st' =>
                 if length (rest st') <? length (rest st)
                 then starLoop inner greedy k fuel' st' else None) st in
      if greedy then orElse again (k st) else orElse (k st) again
  end.

Fixpoint rmatch (fl : flags) (r : regex) (k : mstate -> option mstate)
  (st : mstate) {struct r} : option mstate :=
  match r with
  | Empty => k st
  | Lit c => step st (litMatches fl c) k
  | Class p => step st p k
  | Dot => step st (dotMatches fl) k
  | Seq r1 r2 => rmatch fl r1 (rmatch fl r2 k) st
  | Alt r1 r2 => orElse (rmatch fl r1 k st) (rmatch fl r2 k st)
  | Star greedy r' =>
      starLoop (rmatch fl r') greedy k (length (rest st)) st
  | Group i r' =>
      rmatch fl r'
        (fun st' =>
           k (MState (seen st') (rest st')
                ((i, take (length (rest st) - length (rest st')) (rest st))
                   :: caps st'))) st
  | Bol => if atBol fl st then k st else None
  | Eol => if atEol fl st then k st else None
  | WordBoundary => if atWordBoundary st then k st else None
  end.

(** The result of a successful [exec]: [m.index], [m[0]] and the groups. *)
Record mresult := MResult {
  index : nat;
  matched : jsstring;
  groups : list (nat * jsstring)
}.

(** [m[i]] for [i >= 1]; [None] is [undefined]. *)
Fixpoint capture (i : nat) (g : list (nat * jsstring)) : option jsstring :=
  match g with
  | [] => None
  | (j, s) :: g' => if Nat.eqb i j then Some s else capture i g'
  end.

Definition group (m : mresult) (i : nat) : jsstring :=
  default [] (capture i (groups m)).

Fixpoint execFrom (fl : flags) (r : regex) (before after : jsstring)
  : option mresult :=
  match rmatch fl r Some (MState before after []) with
  | Some st =>
      Some (MResult (length before)
              (take (length after - length (rest st)) after) (caps st))
  | None =>
      match after with
      | [] => None
      | c :: after' => execFrom fl r (c :: before) after'
      end
  end.

(** [s.match(re)] and [re.exec(s)] for a pattern without the [g] flag. *)
Definition exec (fl : flags) (r : regex) (s : jsstring) : option mresult :=
  execFrom fl r [] s.

(** [re.test(s)] *)
Definition test (fl : flags) (r : regex) (s : jsstring) : bool :=
  bool_decide (is_Some (exec fl r s)).

(** *** Pattern syntax

    Where a source pattern is quoted in a comment, a star that is followed
    by a closing parenthesis is written with a space between the two. *)

Definition noFlags : flags := Flags false false false.
Definition flag_i : flags := Flags true false false.
Definition flag_m : flags := Flags false true false.
Definition flag_is : flags := Flags true false true.

Fixpoint lits (s : jsstring) : regex :=
  match s with
  | [] => Empty
  | c :: s' => Seq (Lit c) (lits s')
  end.

Definition lit (s : string) : regex := lits (str s).

Fixpoint seqs (rs : list regex) : regex :=
  match rs with
  | [] => Empty
  | [r] => r
  | r :: rs' => Seq r (seqs rs')
  end.

Fixpoint alts (rs : list regex) : regex :=
  match rs with
  | [] => Empty
  | [r] => r
  | r :: rs' => Alt r (alts rs')
  end.

Definition star (r : regex) : regex := Star true r.
Definition plus (r : regex) : regex := Seq r (Star true r).
Definition lazyStar (r : regex) : regex := Star false r.
Definition lazyPlus (r : regex) : regex := Seq r (Star false r).
Definition opt (r : regex) : regex := Alt r Empty.
Definition ws : regex := Class isWhiteSpace.
Definition digit : regex := Class isDigit.
Definition word : regex := Class isWordChar.
Definition oneOf (s : string) : regex :=
  Class (fun c => existsb (char_eqb c) (str s)).
Definition range (lo hi : ascii) : regex := Class (in_range (chr lo) (chr hi)).

(** [String.prototype.replace] expands dollar patterns of the replacement
    text ([GetSubstitution]): a doubled dollar is one dollar, dollar-ampersand
    the match, dollar-backtick and dollar-quote the text before and after
    it, and dollar followed by one or two digits a capture.  [ngroups] is
    the number of capturing groups of the pattern. *)
Definition digitValue (c : char) : nat := N.to_nat (c - 48).

Definition captureRef (ngroups : nat) (m : mresult) (ds : jsstring)
  : option jsstring :=
  let n := fold_left (fun acc d => 10 * acc + digitValue d) ds 0 in
  if (1 <=? n) && (n <=? ngroups) then Some (group m n) else None.

Fixpoint getSubstitution (ngroups : nat) (m : mresult) (input tmpl : jsstring)
  : jsstring :=
  match tmpl with
  | [] => []
  | c :: t =>
      if negb (char_eqb c 36) then c :: getSubstitution ngroups m input t
      else
        match t with
        | [] => [c]
        | d :: t' =>
            if char_eqb d 36 then 36%N :: getSubstitution ngroups m input t'
            else if char_eqb d 38 then
              matched m ++ getSubstitution ngroups m input t'
            else if char_eqb d 96 then
              take (index m) input ++ getSubstitution ngroups m input t'
            else if char_eqb d 39 then
              drop (index m + length (matched m)) input
                ++ getSubstitution ngroups m input t'
            else if isDigit d then
              let one :=
                match captureRef ngroups m [d] with
                | Some g => g ++ getSubstitution ngroups m input t'
                | None => c :: getSubstitution ngroups m input t
                end in
              match t' with
              | d2 :: t'' =>
                  if isDigit d2
                  then match captureRef ngroups m [d; d2] with
                       | Some g => g ++ getSubstitution ngroups m input t''
                       | None => one
                       end
                  else one
              | [] => one
              end
            else c :: getSubstitution ngroups m input t
        end
  end.

(** [s.replace(re, tmpl)] for a pattern without the [g] flag. *)
Definition replace (fl : flags) (r : regex) (ngroups : nat)
  (tmpl s : jsstring) : jsstring :=
  match exec fl r s with
  | None => s
  | Some m =>
      take (index m) s ++ getSubstitution ngroups m s tmpl
        ++ drop (index m + length (matched m)) s
  end.

(** [s.replace(re, tmpl)] for a pattern with the [g] flag: the matches are
    found from left to right, each search starting where the previous match
    ended (one unit further after an empty match).  [before] holds what has
    been passed, most recent first. *)
Fixpoint replaceAllFrom (fuel : nat) (fl : flags) (r : regex) (ngroups : nat)
  (tmpl input before after : jsstring) : jsstring :=
  match fuel with
  | O => after
  | S fuel' =>
      match execFrom fl r before after with
      | None => after
      | Some m =>
          let off := index m - length before in
          let len := length (matched m) in
          let repl := getSubstitution ngroups m input tmpl in
          if len =? 0 then
            match drop off after with
            | [] => take off after ++ repl
            | c :: after' =>
                take off after ++ repl ++ [c]
                  ++ replaceAllFrom fuel' fl r ngroups tmpl input
                       (c :: rev (take off after) ++ before) after'
            end
          else
            take off after ++ repl
              ++ replaceAllFrom fuel' fl r ngroups tmpl input
                   (rev (take (off + len) after) ++ before)
                   (drop (off + len) after)
      end
  end.

Definition replaceAll (fl : flags) (r : regex) (ngroups : nat)
  (tmpl s : jsstring) : jsstring :=
  replaceAllFrom (S (length s)) fl r ngroups tmpl s [] s.

(** [s.replace(/c/g, by)] for a single code unit [c] and a replacement
    without dollar patterns. *)
Definition replaceAllChar (c : char) (by_ : jsstring) (s : jsstring)
  : jsstring :=
  concat (map (fun x => if char_eqb x c then by_ else [x]) s).

(** ** Numbers

    A JavaScript number is a double.  The finite doubles are kept as the
    rationals they are, with [-0] and [0] as one number, which is how [===]
    and [JSON.stringify] have them; the two infinities stand apart.  [NaN]
    is no value of a parsed document: where a conversion gives it, it is
    [None]. *)
Inductive number :=
| Finite (q : Q)
| PlusInfinity
| MinusInfinity.

(** [a === b] on numbers. *)
Definition numberEq (a b : number) : bool :=
  match a, b with
  | Finite x, Finite y => Qeq_bool x y
  | PlusInfinity, PlusInfinity => true
  | MinusInfinity, MinusInfinity => true
  | _, _ => false
  end.

(** [a < b] on numbers. *)
Definition numberLt (a b : number) : bool :=
  match a, b with
  | Finite x, Finite y => negb (Qle_bool y x)
  | Finite _, PlusInfinity => true
  | MinusInfinity, Finite _ => true
  | MinusInfinity, PlusInfinity => true
  | _, _ => false
  end.

Definition ofN (n : N) : number := Finite (inject_Z (Z.of_N n)).

(** The integer a run of decimal digits stands for. *)
Definition digitsValue (s : jsstring) : N :=
  fold_left (fun acc c => (acc * 10 + (c - 48))%N) s 0%N.

(** The double nearest to an integer: up to 53 bits the integer itself,
    beyond that its leading 53 bits, rounded to nearest with ties to even;
    what rounds to 2^1024 is [Infinity]. *)
Definition roundToDouble (n : N) : number :=
  let bits := N.size n in
  if (bits <=? 53)%N then ofN n
  else
    let e := (bits - 53)%N in
    let m := N.shiftr n e in
    let r := N.land n (N.ones e) in
    let half := N.shiftl 1 (e - 1) in
    let m' :=
      if (half <? r)%N || ((r =? half)%N && N.odd m) then (m + 1)%N else m in
    if (971 <? e)%N || ((e =? 971)%N && (m' =? 2 ^ 53)%N) then PlusInfinity
    else ofN (N.shiftl m' e).

(** [parseInt(s, 10)] on a run of decimal digits: a double, exact up to
    2^53 and rounded beyond, as V8 and JavaScriptCore compute it. *)
Definition parseInt (s : jsstring) : number := roundToDouble (digitsValue s).

(** [toUpperCase] on a string of ASCII letters. *)
Definition toUpperCase (s : jsstring) : jsstring :=
  map (fun c => if in_range 97 122 c then (c - 32)%N else c) s.

(** ** JSON values

    An object keeps its properties in insertion order, as [JSON.stringify]
    prints them. *)

#[warnings="-register-all"]
Inductive json :=
| JNull
| JBool (b : bool)
| JNum (x : number)
| JStr (s : jsstring)
| JArr (items : list json)
| JObj (props : list (jsstring * json)).

Fixpoint getProp (k : jsstring) (props : list (jsstring * json))
  : option json :=
  match props with
  | [] => None
  | (k', v) :: props' =>
      if jsstring_eqb k k' then Some v else getProp k props'
  end.

(** Assignment [o.k = v] on the properties of an object: an existing
    property keeps its place, a new one goes last. *)
Fixpoint setProp (k : jsstring) (v : json) (props : list (jsstring * json))
  : list (jsstring * json) :=
  match props with
  | [] => [(k, v)]
  | (k', v') :: props' =>
      if jsstring_eqb k k' then (k, v) :: props'
      else (k', v') :: setProp k v props'
  end.

Definition num (n : N) : json := JNum (ofN n).

(** [a === b] on two numbers. *)
Definition numStrictEq (a b : option json) : bool :=
  match a, b with
  | Some (JNum x), Some (JNum y) => numberEq x y
  | _, _ => false
  end.

(** What [JSON.parse] reads from the text that [JSON.stringify] prints for
    a parsed value: the value itself, but for the numbers that are not
    finite, which are printed as [null].  (A number too large for a double,
    such as [1e999], parses to [Infinity].) *)
Fixpoint stringified (v : json) : json :=
  match v with
  | JNum (Finite q) => JNum (Finite q)
  | JNum _ => JNull
  | JArr items => JArr (map stringified items)
  | JObj props => JObj (map (fun kv => (fst kv, stringified (snd kv))) props)
  | _ => v
  end.

(** [v === null], for a value that is parsed JSON or [undefined]
    ([None]). *)
Definition isNull (v : option json) : bool :=
  match v with
  | Some JNull => true
  | _ => false
  end.

(** Whether a value is truthy. *)
Definition truthyValue (v : option json) : bool :=
  match v with
  | None | Some JNull | Some (JBool false) => false
  | Some (JNum (Finite q)) => negb (Qeq_bool q 0)
  | Some (JStr s) => truthy s
  | Some _ => true
  end.

(** ** The world of the handlers

    The handlers run against the file system, the file logger, a clock and
    the inference collaborator.  Files are kept by kind: the ISC documents
    (read through [JSON.parse], written through [JSON.stringify]), the
    markdown files (THREAD.md and the learning records), the ratings log and
    the transcripts. *)

(** The content of an [ISC.json]: a text on which [JSON.parse] throws, or
    a text it maps to [doc]. *)
Inductive isc_file :=
| Malformed (raw : jsstring)
| Parsed (doc : json).

(** The parsed answer of the inference collaborator, as the handler sees
    it: the five properties it reads.  The answer is cast to
    [SentimentResult] and not checked, so each property is whatever was
    parsed, or [undefined] ([None]) when the answer has no such property or
    is not an object. *)
Module Sent.
Record t := Make {
  rating : option json;
  sentiment : option json;
  confidence : option json;
  summary : option json;
  detailed_context : option json
}.

(** An answer that keeps to [SentimentResult]: a rating that is a finite
    number or [null] ([None]), a finite confidence, and three strings. *)
Definition typed (r : option Q) (sent : jsstring) (c : Q)
  (sum det : jsstring) : t :=
  Make (Some (match r with Some q => JNum (Finite q) | None => JNull end))
    (Some (JStr sent)) (Some (JNum (Finite c))) (Some (JStr sum))
    (Some (JStr det)).
End Sent.
Abbreviation SentimentResult := Sent.t.

(** [ImplicitRatingEntry], at run time and as a line of ratings.jsonl:
    [rating], [sentiment_summary] and [confidence] hold what the answer
    had, and [None] is [undefined], a property that [JSON.stringify]
    leaves out. *)
Module Entry.
Record t := Make {
  timestamp : jsstring;
  rating : option json;
  session_id : jsstring;
  source : jsstring;
  sentiment_summary : option json;
  confidence : option json
}.

(** The entry that [JSON.parse] reads from the line [JSON.stringify]
    prints. *)
Definition stringified (e : t) : t :=
  Make (timestamp e) (option_map stringified (rating e)) (session_id e)
    (source e) (option_map stringified (sentiment_summary e))
    (option_map stringified (confidence e)).
End Entry.
Abbreviation ImplicitRatingEntry := Entry.t.

(** A line of a transcript after [JSON.parse]. *)
Record block := Block { btype : jsstring; btext : jsstring }.

Inductive content :=
| CAbsent                       (* no [message.content], or a falsy one *)
| CText (s : jsstring)          (* a string *)
| CBlocks (bs : list block)     (* an array of content blocks *)
| COther.                       (* any other truthy value *)

Record entry := Entry { etype : jsstring; econtent : content }.

(** [None] is a line on which [JSON.parse] throws (a blank line is one). *)
Abbreviation transcript := (list (option entry)).

(** [current-work.json]: missing, a text on which [JSON.parse] throws, or
    a text it maps to [doc].  Nothing checks that [doc] is a
    [CurrentWork]. *)
Inductive current_work_file :=
| CWMissing
| CWMalformed
| CWParsed (doc : json).

Inductive level := Info | Warn | Error | Debug.

Inductive fs_event :=
| Wrote (path : jsstring)
| Appended (path : jsstring)
| MadeDir (path : jsstring).

(** The argument of a call of [inference]. *)
Record request := Request {
  systemPrompt : jsstring;
  userPrompt : jsstring;
  expectJson : bool;
  timeout : N;
  level_ : jsstring
}.

Record world := World {
  time : N;                                   (* the clock, in ms *)
  isc_files : gmap jsstring isc_file;
  md_files : gmap jsstring jsstring;
  ratings_files : gmap jsstring (list ImplicitRatingEntry);
  transcripts : gmap jsstring transcript;
  current_work : current_work_file;
  dirs : gset jsstring;
  journal : list fs_event;                    (* writes, oldest first *)
  inference_calls : list request;             (* calls, oldest first *)
  log : list (level * jsstring)
}.

Definition with_time (t : N) (w : world) : world :=
  World t (isc_files w) (md_files w) (ratings_files w) (transcripts w)
    (current_work w) (dirs w) (journal w) (inference_calls w) (log w).

Definition with_isc_files (f : gmap jsstring isc_file) (w : world) : world :=
  World (time w) f (md_files w) (ratings_files w) (transcripts w)
    (current_work w) (dirs w) (journal w) (inference_calls w) (log w).

Definition with_md_files (f : gmap jsstring jsstring) (w : world) : world :=
  World (time w) (isc_files w) f (ratings_files w) (transcripts w)
    (current_work w) (dirs w) (journal w) (inference_calls w) (log w).

Definition with_ratings_files (f : gmap jsstring (list ImplicitRatingEntry))
  (w : world) : world :=
  World (time w) (isc_files w) (md_files w) f (transcripts w)
    (current_work w) (dirs w) (journal w) (inference_calls w) (log w).

Definition with_dirs (d : gset jsstring) (w : world) : world :=
  World (time w) (isc_files w) (md_files w) (ratings_files w) (transcripts w)
    (current_work w) d (journal w) (inference_calls w) (log w).

Definition with_journal (j : list fs_event) (w : world) : world :=
  World (time w) (isc_files w) (md_files w) (ratings_files w) (transcripts w)
    (current_work w) (dirs w) j (inference_calls w) (log w).

Definition with_inference_calls (c : list request) (w : world) : world :=
  World (time w) (isc_files w) (md_files w) (ratings_files w) (transcripts w)
    (current_work w) (dirs w) (journal w) c (log w).

Definition with_log (l : list (level * jsstring)) (w : world) : world :=
  World (time w) (isc_files w) (md_files w) (ratings_files w) (transcripts w)
    (current_work w) (dirs w) (journal w) (inference_calls w) l.

(** *** Exceptions and the handler monad *)

Inductive exn :=
| SyntaxError                    (* [JSON.parse] on a malformed text *)
| TypeError                      (* a value of the wrong kind for an operation *)
| ENOENT (path : jsstring)       (* a read of a missing file *)
| Rejection (reason : jsstring). (* a rejected promise *)

Inductive outcome (A : Type) :=
| Ok (a : A)
| Throw (e : exn).
Arguments Ok {A} a.
Arguments Throw {A} e.

Definition M (A : Type) : Type := world -> outcome A * world.

Definition ret {A} (a : A) : M A := fun w => (Ok a, w).

Definition bind {A B} (m : M A) (k : A -> M B) : M B :=
  fun w =>
    match m w with
    | (Ok a, w') => k a w'
    | (Throw e, w') => (Throw e, w')
    end.

Definition throw {A} (e : exn) : M A := fun w => (Throw e, w).

(** [try { body } catch (err) { handler }] *)
Definition try_catch {A} (body : M A) (handler : exn -> M A) : M A :=
  fun w =>
    match body w with
    | (Ok a, w') => (Ok a, w')
    | (Throw e, w') => handler e w'
    end.

(** A computation without effect that may throw. *)
Definition lift {A} (o : outcome A) : M A := fun w => (o, w).

Definition get {A} (f : world -> A) : M A := fun w => (Ok (f w), w).
Definition modify (f : world -> world) : M unit := fun w => (Ok tt, f w).

Declare Scope handler_scope.
Delimit Scope handler_scope with handler.
Bind Scope handler_scope with M.

Notation "'do' x <- m ; k" := (bind m (fun x => k))
  (at level 10, x name, m at level 100, k at level 200) : handler_scope.
Notation "'run' m ; k" := (bind m (fun _ => k))
  (at level 10, m at level 100, k at level 200) : handler_scope.
#[local] Open Scope handler_scope.

(** *** The primitives of [fs], of the logger and of the clock *)

(** Modelled from the spec: [lib/file-logger] is not among the sources.
    The spec has the file logger as an external utility that the handlers
    log through before they swallow an error; [fileLog] appends a line to
    the log and returns. *)
Definition fileLog (msg : jsstring) (lv : level) : M unit :=
  modify (fun w => with_log (log w ++ [(lv, msg)]) w).

(** Modelled from the spec: [fileLogError] of [lib/file-logger], which is
    not among the sources, as a log line at the error level. *)
Definition fileLogError (msg : jsstring) (err : exn) : M unit :=
  modify (fun w => with_log (log w ++ [(Error, msg)]) w).

Definition record (e : fs_event) : M unit :=
  modify (fun w => with_journal (journal w ++ [e]) w).

Definition existsDir (path : jsstring) : M bool :=
  get (fun w => bool_decide (path ∈ dirs w)).

Definition mkdirSync (path : jsstring) : M unit :=
  run modify (fun w => with_dirs ({[path]} ∪ dirs w) w);
  record (MadeDir path).

Definition existsISC (path : jsstring) : M bool :=
  get (fun w => bool_decide (is_Some (isc_files w !! path))).

(** [JSON.parse(readFileSync(path, 'utf-8'))] on an ISC document *)
Definition readJSON (path : jsstring) : M json :=
  fun w =>
    match isc_files w !! path with
    | None => (Throw (ENOENT path), w)
    | Some (Malformed _) => (Throw SyntaxError, w)
    | Some (Parsed doc) => (Ok doc, w)
    end.

(** [writeFileSync(path, JSON.stringify(doc, null, 2), 'utf-8')]: the
    file then parses to what [JSON.stringify] printed. *)
Definition writeJSON (path : jsstring) (doc : json) : M unit :=
  run modify (fun w =>
        with_isc_files (<[path := Parsed (stringified doc)]> (isc_files w)) w);
  record (Wrote path).

Definition existsMd (path : jsstring) : M bool :=
  get (fun w => bool_decide (is_Some (md_files w !! path))).

Definition readMd (path : jsstring) : M jsstring :=
  fun w =>
    match md_files w !! path with
    | None => (Throw (ENOENT path), w)
    | Some c => (Ok c, w)
    end.

(** [writeFileSync(path, content, 'utf-8')]: the file holds the content
    as UTF-8 encodes it. *)
Definition writeMd (path content : jsstring) : M unit :=
  run modify (fun w =>
        with_md_files (<[path := toWellFormed content]> (md_files w)) w);
  record (Wrote path).

(** [appendFileSync(path, JSON.stringify(entry) + newline, 'utf-8')]: the
    log gains the entry as [JSON.stringify] prints it. *)
Definition appendRating (path : jsstring) (e : ImplicitRatingEntry) : M unit :=
  run modify (fun w =>
        with_ratings_files
          (<[path := default [] (ratings_files w !! path)
                       ++ [Entry.stringified e]]>
             (ratings_files w)) w);
  record (Appended path).

Definition existsTranscript (path : jsstring) : M bool :=
  get (fun w => bool_decide (is_Some (transcripts w !! path))).

Definition readTranscript (path : jsstring) : M transcript :=
  fun w =>
    match transcripts w !! path with
    | None => (Throw (ENOENT path), w)
    | Some t => (Ok t, w)
    end.

(** ** implicit-sentiment.ts: the explicit-rating guard *)

Module Sentiment.

(** The pattern [/^(10|[1-9])(?:\s*[-:]\s*|\s+)?(.* )$/] *)
Definition ratingPattern : regex :=
  seqs [ Bol;
         Group 1 (Alt (lit "10") (range "1" "9"));
         opt (Alt (seqs [star ws; oneOf "-:"; star ws]) (plus ws));
         Group 2 (star Dot);
         Eol ].

(** The pattern
    [/^(items?|things?|steps?|files?|lines?|bugs?|issues?|errors?|times?|minutes?|hours?|days?|seconds?|percent|%|th\b|st\b|nd\b|rd\b|of\b|in\b|at\b|to\b|the\b|a\b|an\b)/i] *)
Definition plural (w : string) : regex := Seq (lit w) (opt (lit "s")).
Definition wordb (w : string) : regex := Seq (lit w) WordBoundary.

Definition sentenceStarters : regex :=
  Seq Bol
    (Group 1
       (alts [ plural "item"; plural "thing"; plural "step"; plural "file";
               plural "line"; plural "bug"; plural "issue"; plural "error";
               plural "time"; plural "minute"; plural "hour"; plural "day";
               plural "second"; lit "percent"; lit "%";
               wordb "th"; wordb "st"; wordb "nd"; wordb "rd"; wordb "of";
               wordb "in"; wordb "at"; wordb "to"; wordb "the"; wordb "a";
               wordb "an" ])).

(** Check if prompt is an explicit rating (defer to ExplicitRatingCapture). *)
Definition isExplicitRating (prompt : jsstring) : bool :=
  let trimmed := trim prompt in
  match exec noFlags ratingPattern trimmed with
  | None => false
  | Some m =>
      let comment := trim (group m 2) in
      if truthy comment && test flag_i sentenceStarters comment
      then false
      else true
  end.

(** *** The inference collaborator and promises

    A promise either settles after a delay, with a continuation that runs
    at that time and may throw (a rejection), or never settles. *)

Inductive settle (A : Type) :=
| SettlesAfter (delay : N) (a : A)
| NeverSettles.
Arguments SettlesAfter {A} delay a.
Arguments NeverSettles {A}.

(** The value [inference] resolves to. *)
Record response := Response {
  success : bool;
  parsed : option SentimentResult;
  error : jsstring
}.

(** [Promise.race([p, timer])], awaited, where the timer resolves to
    [onTimeout] after [ms]: the promise that settles first decides, and the
    clock has advanced to that moment.  The call behind [p] is made before
    the timer is set, so a promise that settles in the millisecond of the
    timer settles first.  Nothing cancels the loser; what it does later is
    after the handler's return. *)
Definition raceTimeout {A} (p : settle (M A)) (ms : N) (onTimeout : A) : M A :=
  match p with
  | SettlesAfter d k =>
      if (d <=? ms)%N
      then run modify (fun w => with_time (time w + d)%N w); k
      else run modify (fun w => with_time (time w + ms)%N w); ret onTimeout
  | NeverSettles =>
      run modify (fun w => with_time (time w + ms)%N w); ret onTimeout
  end.

Definition Qltb (a b : Q) : bool := negb (Qle_bool b a).

Definition MIN_PROMPT_LENGTH : nat := 3.
Definition MIN_CONFIDENCE : Q := 0.5%Q.
Definition ANALYSIS_TIMEOUT : N := 25000.

Section Handler.

(** The collaborators of the module. *)
Variable inference : request -> settle (outcome response).
Variable SENTIMENT_SYSTEM_PROMPT : jsstring.
Variable join : list jsstring -> jsstring.                (* [path.join] *)
Variable getLearningDir : jsstring.
Variable getLearningCategory : jsstring -> option jsstring -> jsstring.
(** [getLearningCategory] on arguments that are not two strings, where it
    is outside its signature: the category, or what it throws. *)
Variable getLearningCategoryUntyped : json -> option json -> outcome jsstring.
Variable toISOString : N -> jsstring.      (* [new Date().toISOString()] *)
Variable yearMonth : N -> jsstring.        (* the local year and month *)
Variable numberToString : Q -> jsstring.   (* a finite number in a template *)
(** [Number(s)], the number a string converts to; [None] is [NaN]. *)
Variable stringToNumber : jsstring -> option number.

(** *** Conversions of parsed values

    [ToString] of a parsed value, as a template and [ToPrimitive] have
    it.  An array is its elements joined by a comma, with nothing for a
    [null]; an object is [[object Object]], unless it has a property
    [toString] of its own: a parsed property is no function, so that
    [ToPrimitive] finds no method that gives a primitive and throws. *)
Fixpoint toString (v : json) : outcome jsstring :=
  match v with
  | JNull => Ok (str "null")
  | JBool b => Ok (if b then str "true" else str "false")
  | JNum (Finite q) => Ok (numberToString q)
  | JNum PlusInfinity => Ok (str "Infinity")
  | JNum MinusInfinity => Ok (str "-Infinity")
  | JStr s => Ok s
  | JArr items =>
      (fix elements (first : bool) (l : list json) : outcome jsstring :=
         match l with
         | [] => Ok []
         | x :: l' =>
             match (match x with JNull => Ok [] | _ => toString x end) with
             | Throw e => Throw e
             | Ok sx =>
                 match elements false l' with
                 | Throw e => Throw e
                 | Ok rest =>
                     Ok ((if first then [] else str ",") ++ sx ++ rest)
                 end
             end
         end) true items
  | JObj props =>
      match getProp (str "toString") props with
      | Some _ => Throw TypeError
      | None => Ok (str "[object Object]")
      end
  end.

(** [`${v}`] *)
Definition toStringValue (v : option json) : outcome jsstring :=
  match v with
  | None => Ok (str "undefined")
  | Some v => toString v
  end.

(** [ToNumber]: [None] is [NaN].  An array or an object goes through
    [ToPrimitive], which gives the string of [toString] or throws. *)
Definition toNumber (v : option json) : outcome (option number) :=
  match v with
  | None => Ok None
  | Some JNull => Ok (Some (Finite 0))
  | Some (JBool b) => Ok (Some (Finite (if b then 1 else 0)))
  | Some (JNum x) => Ok (Some x)
  | Some (JStr s) => Ok (stringToNumber s)
  | Some v =>
      match toString v with
      | Ok s => Ok (stringToNumber s)
      | Throw e => Throw e
      end
  end.

(** [v < k] for a number [k]: false when [v] converts to [NaN]. *)
Definition lessThan (v : option json) (k : Q) : outcome bool :=
  match toNumber v with
  | Ok (Some x) => Ok (numberLt x (Finite k))
  | Ok None => Ok false
  | Throw e => Throw e
  end.

(** [v >= k] for a number [k]: false when [v] converts to [NaN]. *)
Definition atLeast (v : option json) (k : Q) : outcome bool :=
  match toNumber v with
  | Ok (Some x) => Ok (negb (numberLt x (Finite k)))
  | Ok None => Ok false
  | Throw e => Throw e
  end.

Definition getISOTimestamp : M jsstring :=
  get (fun w => toISOString (time w)).

Definition getYearMonth : M jsstring :=
  get (fun w => yearMonth (time w)).

Definition getFilenameTimestamp : M jsstring :=
  do now <- getISOTimestamp;
  let date := take 10 now in
  let clock := replaceAllChar 58 [] (take 8 (drop 11 now)) in
  ret (date ++ str "-" ++ clock).

(** The text of the blocks of type [text], joined by a space. *)
Definition blocksText (bs : list block) : jsstring :=
  joinWith (str " ")
    (map btext (filter (fun c => jsstring_eqb (btype c) (str "text") = true) bs)).

(** The pattern [/SUMMARY:\s*([^\n]+)/i] *)
Definition summaryPattern : regex :=
  seqs [ lit "SUMMARY:"; star ws;
         Group 1 (plus (Class (fun c => negb (char_eqb c 10)))) ].

(** One iteration of the loop of [getRecentContext]. *)
Definition contextTurn (line : option entry) : list (jsstring * jsstring) :=
  match line with
  | None => []
  | Some e =>
      (if jsstring_eqb (etype e) (str "user") then
         match econtent e with
         | CAbsent => []
         | c =>
             let text := match c with
                         | CText t => t
                         | CBlocks bs => blocksText bs
                         | _ => []
                         end in
             if truthy (trim text) then [(str "User", take 200 text)] else []
         end
       else [])
      ++
      (if jsstring_eqb (etype e) (str "assistant") then
         match econtent e with
         | CAbsent => []
         | c =>
             let text := match c with
                         | CText t => t
                         | CBlocks bs => blocksText bs
                         | _ => []
                         end in
             if truthy text then
               let shortText :=
                 match exec flag_i summaryPattern text with
                 | Some summaryMatch => group summaryMatch 1
                 | None => take 150 text
                 end in
               [(str "Assistant", shortText)]
             else []
         end
       else [])
  end.

(** Get recent conversation context from transcript. *)
Definition getRecentContext (transcriptPath : jsstring) : M jsstring :=
  let maxTurns := 3 in
  try_catch
    (do present <- existsTranscript transcriptPath;
     if negb (truthy transcriptPath) || negb present then ret []
     else
       do lines <- readTranscript transcriptPath;
       let turns := concat (map contextTurn lines) in
       let recentTurns := drop (length turns - maxTurns) turns in
       match recentTurns with
       | [] => ret []
       | _ =>
           ret (joinWith nl
                  (map (fun t => fst t ++ str ": " ++ snd t) recentTurns))
       end)
    (fun _ => ret []).

(** Analyze sentiment using Haiku (fast tier): the call is made at once,
    the rest runs when [inference] settles. *)
Definition analyzeSentiment (prompt context : jsstring)
  : M (settle (M (option SentimentResult))) :=
  let userPrompt :=
    if truthy context
    then str "CONTEXT:" ++ nl ++ context ++ nl ++ nl
           ++ str "CURRENT MESSAGE:" ++ nl ++ prompt
    else prompt in
  let req := Request SENTIMENT_SYSTEM_PROMPT userPrompt true 20000
               (str "fast") in
  run modify (fun w => with_inference_calls (inference_calls w ++ [req]) w);
  ret match inference req with
      | NeverSettles => NeverSettles
      | SettlesAfter d (Throw e) => SettlesAfter d (throw e)
      | SettlesAfter d (Ok result) =>
          SettlesAfter d
            (match success result, parsed result with
             | true, Some p => ret (Some p)
             | _, _ =>
                 run fileLog (str "[ImplicitSentiment] Inference failed: "
                                ++ error result) Error;
                 ret None
             end)
      end.

(** Write implicit rating to ratings.jsonl. *)
Definition writeImplicitRating (entry : ImplicitRatingEntry) : M unit :=
  let signalsDir := join [getLearningDir; str "SIGNALS"] in
  let ratingsFile := join [signalsDir; str "ratings.jsonl"] in
  do present <- existsDir signalsDir;
  run (if negb present then mkdirSync signalsDir else ret tt);
  run appendRating ratingsFile entry;
  do rating <- lift (toStringValue (Entry.rating entry));
  fileLog (str "[ImplicitSentiment] Wrote implicit rating "
             ++ rating ++ str " to " ++ ratingsFile)
    Info.

(** The loop of [captureLowRatingLearning] over the transcript: the text
    of the last assistant turn that has one. *)
Definition lastAssistantText (lines : transcript) : jsstring :=
  fold_left
    (fun responseContext line =>
       match line with
       | Some e =>
           if jsstring_eqb (etype e) (str "assistant") then
             match econtent e with
             | CAbsent => responseContext
             | c =>
                 let text := match c with
                             | CText t => t
                             | CBlocks bs => blocksText bs
                             | _ => []
                             end in
                 if truthy text then text else responseContext
             end
           else responseContext
       | None => responseContext
       end)
    lines [].

Definition orDefault (s : jsstring) (d : string) : jsstring :=
  if truthy s then s else str d.

(** The content of a learning record; [rating], [sentimentSummary] and
    [detailedContext] are the texts the template has for the values. *)
Definition learningContent (now rating : jsstring)
  (sentimentSummary detailedContext responseContext : jsstring) : jsstring :=
  str "---
capture_type: LEARNING
timestamp: " ++ now ++ str "
rating: " ++ rating ++ str "
source: implicit-sentiment
auto_captured: true
tags: [sentiment-detected, implicit-rating, improvement-opportunity]
---

# Implicit Low Rating Detected: " ++ rating ++ str "/10

**Date:** " ++ take 10 now ++ str "
**Rating:** " ++ rating ++ str "/10
**Detection Method:** Sentiment Analysis
**Sentiment Summary:** " ++ sentimentSummary ++ str "

---

## Detailed Analysis (for Learning System)

" ++ detailedContext ++ str "

---

## Assistant Response Context

" ++ orDefault responseContext "No response context available" ++ str "

---

## Improvement Notes

This response triggered a " ++ rating ++ str "/10 implicit rating based on detected user sentiment.

**Quick Summary:** " ++ sentimentSummary ++ str "

**Root Cause Analysis:** Review the detailed analysis above to understand what went wrong and how to prevent similar issues.

**Action Items:**
- Review the assistant response context to identify specific failure points
- Consider whether this represents a pattern that needs systemic correction
- Update relevant skills, workflows, or constitutional principles if needed

---
".

(** The call [getLearningCategory(detailedContext, sentimentSummary)]. *)
Definition learningCategory (detailedContext : json)
  (sentimentSummary : option json) : M jsstring :=
  match detailedContext, sentimentSummary with
  | JStr d, Some (JStr s) => ret (getLearningCategory d (Some s))
  | _, _ => lift (getLearningCategoryUntyped detailedContext sentimentSummary)
  end.

(** Capture low rating as learning opportunity.  [detailedContext] is a
    truthy value or the empty string. *)
Definition captureLowRatingLearning (rating sentimentSummary : option json)
  (detailedContext : json) (transcriptPath : jsstring) : M unit :=
  do enough <- lift (atLeast rating 6);
  if enough then ret tt
  else
    do yearMonth <- getYearMonth;
    do category <- learningCategory detailedContext sentimentSummary;
    let learningsDir := join [getLearningDir; category; yearMonth] in
    do present <- existsDir learningsDir;
    run (if negb present then mkdirSync learningsDir else ret tt);
    do responseContext <-
      try_catch
        (do present <- existsTranscript transcriptPath;
         if truthy transcriptPath && present then
           do lines <- readTranscript transcriptPath;
           ret (take 500 (lastAssistantText lines))
         else ret [])
        (fun _ => ret []);
    do timestamp <- getFilenameTimestamp;
    do ratingText <- lift (toStringValue rating);
    let filename := timestamp ++ str "_LEARNING_sentiment-rating-"
                      ++ ratingText ++ str ".md" in
    let filepath := join [learningsDir; filename] in
    do now <- getISOTimestamp;
    do summaryText <- lift (toStringValue sentimentSummary);
    do detailedText <-
      lift (if truthyValue (Some detailedContext)
            then toString detailedContext
            else Ok (str "No detailed analysis available"));
    run writeMd filepath
          (learningContent now ratingText summaryText detailedText
             responseContext);
    fileLog (str "[ImplicitSentiment] Captured low rating learning to "
               ++ filepath) Info.

(** What the handler resolves to when it does not resolve to [null]: the
    rating, the sentiment and the confidence as the answer had them. *)
Record verdict := Verdict {
  v_rating : option json;
  v_sentiment : option json;
  v_confidence : option json
}.

(** Handle implicit sentiment capture for a user prompt.  [transcriptPath]
    is [None] when the argument is left out. *)
Definition handleImplicitSentiment (prompt sessionId : jsstring)
  (transcriptPath : option jsstring) : M (option verdict) :=
  try_catch
    (run fileLog (str "[ImplicitSentiment] Handler started") Info;
     if isExplicitRating prompt then
       run fileLog (str "[ImplicitSentiment] Explicit rating detected, deferring to ExplicitRatingCapture") Info;
       ret None
     else if length prompt <? MIN_PROMPT_LENGTH then
       run fileLog (str "[ImplicitSentiment] Prompt too short, exiting") Debug;
       ret None
     else
       do context <-
         match transcriptPath with
         | Some p => if truthy p then getRecentContext p else ret []
         | None => ret []
         end;
       do analysisPromise <- analyzeSentiment prompt context;
       do sentiment <- raceTimeout analysisPromise ANALYSIS_TIMEOUT None;
       match sentiment with
       | None =>
           run fileLog (str "[ImplicitSentiment] Analysis failed or timed out") Warn;
           ret None
       | Some sentiment =>
           do rating <-
             (if isNull (Sent.rating sentiment) then
                run fileLog (str "[ImplicitSentiment] Neutral sentiment, assigning baseline rating 5") Info;
                ret (Some (JNum (Finite 5)))
              else ret (Sent.rating sentiment));
           do low <- lift (lessThan (Sent.confidence sentiment) MIN_CONFIDENCE);
           if low then
             do confidence <- lift (toStringValue (Sent.confidence sentiment));
             run fileLog (str "[ImplicitSentiment] Low confidence ("
                            ++ confidence ++ str "), not logging") Info;
             ret None
           else
             do ratingText <- lift (toStringValue rating);
             do summaryText <- lift (toStringValue (Sent.summary sentiment));
             run fileLog (str "[ImplicitSentiment] Detected: "
                            ++ ratingText ++ str "/10 - " ++ summaryText) Info;
             do now <- getISOTimestamp;
             let entry :=
               Entry.Make now rating sessionId (str "implicit")
                 (Sent.summary sentiment) (Sent.confidence sentiment) in
             run writeImplicitRating entry;
             do below <- lift (lessThan rating 6);
             run match transcriptPath with
                 | Some p =>
                     if below && truthy p then
                       captureLowRatingLearning rating
                         (Sent.summary sentiment)
                         (if truthyValue (Sent.detailed_context sentiment)
                          then default (JStr [])
                                 (Sent.detailed_context sentiment)
                          else JStr [])
                         p
                     else ret tt
                 | None => ret tt
                 end;
             run fileLog (str "[ImplicitSentiment] Done") Info;
             ret (Some (Verdict rating (Sent.sentiment sentiment)
                          (Sent.confidence sentiment)))
       end)
    (fun err =>
       run fileLogError (str "[ImplicitSentiment] Error") err;
       ret None).

End Handler.

End Sentiment.


(** ** response-capture.ts: ISC extraction helpers *)

Module Capture.

(** The pattern [/level\s+(QUICK|STANDARD|THOROUGH|TRIVIAL)/i] *)
Definition effortPattern : regex :=
  seqs [ lit "level"; plus ws;
         Group 1 (alts [lit "QUICK"; lit "STANDARD"; lit "THOROUGH";
                        lit "TRIVIAL"]) ].

Definition extractEffortLevel (text : jsstring) : option jsstring :=
  match exec flag_i effortPattern text with
  | Some m => Some (toUpperCase (group m 1))
  | None => None
  end.

(** The pattern [/(\d+)\s*(?:ISC\s* )?criteria?,?\s*all\s*satisfied/i] *)
Definition allSatisfiedPattern : regex :=
  seqs [ Group 1 (plus digit); star ws;
         opt (Seq (lit "ISC") (star ws));
         lit "criteri"; opt (lit "a"); opt (lit ","); star ws;
         lit "all"; star ws; lit "satisfied" ].

(** The pattern [/(\d+)\/(\d+)\s*criteria\s*satisfied/i] *)
Definition partialPattern : regex :=
  seqs [ Group 1 (plus digit); lit "/"; Group 2 (plus digit); star ws;
         lit "criteria"; star ws; lit "satisfied" ].

(** The value of [ISCDocument['satisfaction']] the extraction builds, with
    its properties in the order of the object literal. *)
Definition extractISCSatisfaction (text : jsstring) : option json :=
  match exec flag_i allSatisfiedPattern text with
  | Some allSatisfied =>
      let total := parseInt (group allSatisfied 1) in
      Some (JObj [ (str "satisfied", JNum total); (str "partial", num 0);
                   (str "failed", num 0); (str "total", JNum total) ])
  | None =>
      match exec flag_i partialPattern text with
      | Some partial =>
          Some (JObj [ (str "satisfied", JNum (parseInt (group partial 1)));
                       (str "total", JNum (parseInt (group partial 2)));
                       (str "partial", num 0); (str "failed", num 0) ])
      | None => None
      end
  end.

(** The completion marker of [updateTaskISC], as the code units of the
    literal in the source file: U+201A U+00FA U+00EC, a space and
    [COMPLETE]. *)
Definition COMPLETION_MARKER : jsstring :=
  [8218%N; 250%N; 236%N] ++ str " COMPLETE".

(** [StructuredResponse]: an absent property is [None]. *)
Record StructuredResponse := Structured {
  summary : option jsstring;
  analysis : option jsstring;
  actions : option jsstring;
  results : option jsstring;
  status : option jsstring;
  next : option jsstring;
  completed : option jsstring;
  date : option jsstring
}.

(** [a || b] on optional strings: [a] when it is truthy, else [b]. *)
Definition orStr (a b : option jsstring) : option jsstring :=
  match a with
  | Some x => if truthy x then a else b
  | None => b
  end.

Definition truthyOpt (a : option jsstring) : bool :=
  match a with
  | Some x => truthy x
  | None => false
  end.

Definition quote : jsstring := [34%N].

(** [doc.k = v] in strict mode: on an object the property is set; on an
    array it is set but not printed by [JSON.stringify]; on [null] and on
    a primitive the assignment throws. *)
Definition assign (k : string) (v : json) (doc : json) : M json :=
  match doc with
  | JObj props => ret (JObj (setProp (str k) v props))
  | JArr items => ret (JArr items)
  | _ => throw TypeError
  end.

(** [v.k] on a parsed value: [None] is [undefined]. *)
Definition prop (k : jsstring) (v : json) : option json :=
  match v with
  | JObj props => getProp k props
  | _ => None
  end.

(** The strings of a list of values, when all are strings. *)
Fixpoint strings (parts : list json) : option (list jsstring) :=
  match parts with
  | [] => Some []
  | JStr s :: parts' =>
      match strings parts' with
      | Some l => Some (s :: l)
      | None => None
      end
  | _ :: _ => None
  end.

(** The pattern that finds the line [status: "IN_PROGRESS"], with the [m]
    flag and both anchors. *)
Definition statusPattern : regex :=
  seqs [ Bol; lits (str "status: " ++ quote ++ str "IN_PROGRESS" ++ quote);
         Eol ].

(** The pattern [/^(---\n[\s\S]*?)(---)/] *)
Definition frontmatterPattern : regex :=
  seqs [ Bol;
         Group 1 (seqs [lit "---"; Lit 10;
                        lazyStar (Class (fun _ => true))]);
         Group 2 (lit "---") ].

(** The markers of the response format, as the code units of the literals
    in the source file. *)
Definition MARK_SUMMARY : jsstring := [63743; 252; 236; 227]%N.
Definition MARK_ANALYSIS : jsstring := [63743; 252; 238; 231]%N.
Definition MARK_ACTIONS : jsstring := [8218; 246; 176]%N.
Definition MARK_RESULTS : jsstring := [8218; 250; 214]%N.
Definition MARK_STATUS : jsstring := [63743; 252; 236; 228]%N.
Definition MARK_NEXT : jsstring := [8218; 251; 176; 212; 8719; 232]%N.
Definition MARK_VOICE : jsstring := [63743; 252; 243; 163; 212; 8719; 232]%N.

(** A section on one line: marker, label, then [(.+?)(?:\n|$)] *)
Definition lineSection (mark : jsstring) (label : string) : regex :=
  seqs [ lits mark; star ws; lit label; star ws;
         Group 1 (lazyPlus Dot);
         Alt (Lit 10) Eol ].

(** A section that runs to the next marker at the start of a line. *)
Definition blockSection (mark : jsstring) (label : string)
  (following : list jsstring) : regex :=
  seqs [ lits mark; star ws; lit label; star ws;
         Group 1 (lazyPlus Dot);
         Alt (Seq (Lit 10) (alts (map lits following))) Eol ].

(** The pattern of the voice line: marker, [\s*\w+:\s*(.+?)$] with the
    [m] flag. *)
Definition voicePattern : regex :=
  seqs [ lits MARK_VOICE; star ws; plus word; lit ":"; star ws;
         Group 1 (lazyPlus Dot); Eol ].

Definition field (fl : flags) (r : regex) (text : jsstring)
  : option jsstring :=
  match exec fl r text with
  | Some m => Some (trim (group m 1))
  | None => None
  end.

(** Parse structured response from text. *)
Definition parseStructuredResponse (text : jsstring) : StructuredResponse :=
  Structured
    (field flag_i (lineSection MARK_SUMMARY "SUMMARY:") text)
    (field flag_is
       (blockSection MARK_ANALYSIS "ANALYSIS:"
          [MARK_ACTIONS; MARK_RESULTS; MARK_STATUS; MARK_NEXT]) text)
    (field flag_is
       (blockSection MARK_ACTIONS "ACTIONS:"
          [MARK_RESULTS; MARK_STATUS; MARK_NEXT]) text)
    (field flag_is
       (blockSection MARK_RESULTS "RESULTS:" [MARK_STATUS; MARK_NEXT]) text)
    (field flag_i (lineSection MARK_STATUS "STATUS:") text)
    (field flag_is (lineSection MARK_NEXT "NEXT:") text)
    (field flag_m voicePattern text)
    None.

(** [toLowerCase], followed in [generateFilename] by the removal of every
    unit outside [a-z0-9\s-]: besides the ASCII capitals only U+212A and
    U+0130 have a lower case that survives it. *)
Definition toLowerCase (s : jsstring) : jsstring :=
  concat (map (fun c => if in_range 65 90 c then [(c + 32)%N]
                        else if char_eqb c 8490 then [107%N]
                        else if char_eqb c 304 then [105%N; 775%N]
                        else [c]) s).

Section Handler.

(** The collaborators of the module. *)
Variable join : list jsstring -> jsstring.                (* [path.join] *)
Variable WORK_DIR : jsstring.
Variable LEARNING_DIR : jsstring.
Variable getLearningCategory : jsstring -> option jsstring -> jsstring.
Variable isLearningCapture :
  jsstring -> option jsstring -> option jsstring -> bool.
Variable toISOString : N -> jsstring.      (* [new Date().toISOString()] *)
Variable pstTimestamp : N -> jsstring.     (* [getPSTTimestamp] of a date *)
Variable yearMonth : N -> jsstring.        (* the local year and month *)
Variable numberToString : Q -> jsstring.   (* a number in a template *)

Definition getISOTimestamp : M jsstring :=
  get (fun w => toISOString (time w)).

Definition getPSTTimestamp : M jsstring :=
  get (fun w => pstTimestamp (time w)).

Definition getPSTDate : M jsstring :=
  do t <- getPSTTimestamp; ret (take 10 t).

Definition getYearMonth : M jsstring :=
  get (fun w => yearMonth (time w)).

(** [join(...)] of [path] on values: it checks its arguments, and one
    that is not a string makes it throw. *)
Definition pathJoin (parts : list json) : M jsstring :=
  match strings parts with
  | Some l => ret (join l)
  | None => throw TypeError
  end.

(** Update task's ISC.json with extracted satisfaction data.  [sessionDir]
    and [currentTask] are what current-work.json had. *)
Definition updateTaskISC (sessionDir currentTask : json) (text : jsstring)
  : M unit :=
  do taskPath <-
    pathJoin [JStr WORK_DIR; sessionDir; JStr (str "tasks"); currentTask];
  let iscPath := join [taskPath; str "ISC.json"] in
  do present <- existsISC iscPath;
  if negb present then
    fileLog (str "[ISC] Task ISC.json not found: " ++ iscPath) Warn
  else
    try_catch
      (do doc <- readJSON iscPath;
       do timestamp <- getISOTimestamp;
       let effort := extractEffortLevel text in
       do doc <- match effort with
                 | Some e => assign "effortLevel" (JStr e) doc
                 | None => ret doc
                 end;
       let satisfaction := extractISCSatisfaction text in
       do doc <- match satisfaction with
                 | Some sat =>
                     do doc <- assign "satisfaction" sat doc;
                     assign "status"
                       (JStr (if numStrictEq (prop (str "satisfied") sat)
                                   (prop (str "total") sat)
                              then str "COMPLETE" else str "PARTIAL")) doc
                 | None => ret doc
                 end;
       do doc <- (if includes COMPLETION_MARKER text
                  then assign "status" (JStr (str "COMPLETE")) doc
                  else ret doc);
       do doc <- assign "updatedAt" (JStr timestamp) doc;
       run writeJSON iscPath doc;
       fileLog (str "[ISC] Updated task ISC: "
                  ++ match currentTask with JStr t => t | _ => [] end) Info)
      (fun err => fileLogError (str "[ISC] Error updating task ISC") err).

(** The header line [key: "value"] put before the closing fence of the
    frontmatter: the replacement text [$1key: "value"\n$2]. *)
Definition headerTemplate (key : string) (value : jsstring) : jsstring :=
  str "$1" ++ str key ++ str ": " ++ quote ++ value ++ quote ++ nl
    ++ str "$2".

(** Update task THREAD.md frontmatter status. *)
Definition updateTaskMeta (sessionDir currentTask : json)
  (structured : StructuredResponse) : M unit :=
  do taskPath <-
    pathJoin [JStr WORK_DIR; sessionDir; JStr (str "tasks"); currentTask];
  let threadPath := join [taskPath; str "THREAD.md"] in
  do present <- existsMd threadPath;
  if negb present then
    fileLog (str "[Capture] Task THREAD.md not found: " ++ threadPath) Warn
  else
    try_catch
      (do content <- readMd threadPath;
       do timestamp <- getISOTimestamp;
       let content :=
         if truthyOpt (orStr (completed structured) (summary structured))
         then
           let content :=
             replace flag_m statusPattern 0
               (str "status: " ++ quote ++ str "DONE" ++ quote) content in
           let content :=
             if negb (includes (str "completedAt:") content)
             then replace noFlags frontmatterPattern 2
                    (headerTemplate "completedAt" timestamp) content
             else content in
           let summary :=
             take 200
               (default []
                  (orStr (orStr (completed structured) (summary structured))
                     (Some []))) in
           if truthy summary && negb (includes (str "summary:") content)
           then replace noFlags frontmatterPattern 2
                  (headerTemplate "summary"
                     (replaceAllChar 34 [92%N; 34%N] summary)) content
           else content
         else content in
       run writeMd threadPath content;
       fileLog (str "[Capture] Updated task THREAD: "
                  ++ match currentTask with JStr t => t | _ => [] end) Info)
      (fun err => fileLogError (str "[Capture] Error updating task META") err).

Definition generateFilename (description : jsstring) (type : string)
  : M jsstring :=
  do pst <- getPSTTimestamp;
  let date := take 10 pst in
  let clock := replaceAllChar 58 [] (take 8 (drop 11 pst)) in
  let cleanDesc :=
    take 60
      (replaceAll noFlags (plus ws) 0 (str "-")
         (replaceAll noFlags
            (Class (fun c => negb (in_range 97 122 c || isDigit c
                                   || isWhiteSpace c || char_eqb c 45)))
            0 [] (toLowerCase description))) in
  ret (date ++ str "-" ++ clock ++ str "_" ++ str type ++ str "_"
         ++ cleanDesc ++ str ".md").

Definition orNA (a : option jsstring) : jsstring :=
  default [] (orStr a (Some (str "N/A"))).

(** The pattern [/<system-reminder>[\s\S]*?<\/system-reminder>/g] *)
Definition reminderPattern : regex :=
  seqs [ lit "<system-reminder>"; lazyStar (Class (fun _ => true));
         lit "</system-reminder>" ].

Definition generateLearningContent (structured : StructuredResponse)
  (fullText timestamp : jsstring) : M jsstring :=
  do today <- getPSTDate;
  ret (str "---
capture_type: LEARNING
timestamp: " ++ timestamp ++ str "
auto_captured: true
tags: [auto-capture]
---

# Quick Learning: "
  ++ default []
       (orStr (orStr (completed structured) (summary structured))
          (Some (str "Task Completion"))) ++ str "

**Date:** " ++ default [] (orStr (date structured) (Some today)) ++ str "
**Auto-captured:** Yes

---

## Summary

" ++ orNA (summary structured) ++ str "

## Analysis

" ++ orNA (analysis structured) ++ str "

## Actions Taken

" ++ orNA (actions structured) ++ str "

## Results

" ++ orNA (results structured) ++ str "

## Current Status

" ++ orNA (status structured) ++ str "

## Next Steps

" ++ orNA (next structured) ++ str "

---

<details>
<summary>Full Response</summary>

" ++ replaceAll noFlags reminderPattern 0 [] fullText ++ str "

</details>
").

(** What [readCurrentWork] returns: [None] is [null], and a parsed
    document comes back as it is. *)
Definition readCurrentWork : M (option json) :=
  try_catch
    (do file <- get current_work;
     match file with
     | CWMissing => ret None
     | CWMalformed => throw SyntaxError
     | CWParsed doc => ret (Some doc)
     end)
    (fun _ => ret None).

(** The pattern [/^Completed\s+/i] *)
Definition completedPrefix : regex :=
  seqs [Bol; lit "Completed"; plus ws].

(** The pattern [/\[AGENT:\w+\]\s*/gi] *)
Definition agentTag : regex :=
  seqs [lit "[AGENT:"; plus word; lit "]"; star ws].

(** The pattern [/\[.*?\]/g] *)
Definition bracketed : regex :=
  seqs [lit "["; lazyStar Dot; lit "]"].

Definition captureWorkSummary (text : jsstring)
  (structured : StructuredResponse) : M unit :=
  try_catch
    (do currentWork <- readCurrentWork;
     run match currentWork ≫= prop (str "session_dir"),
               currentWork ≫= prop (str "current_task") with
         | Some sessionDir, Some currentTask =>
             if truthyValue (Some sessionDir)
                && truthyValue (Some currentTask)
             then
               run updateTaskISC sessionDir currentTask text;
               if truthyOpt (orStr (summary structured)
                               (completed structured))
               then updateTaskMeta sessionDir currentTask structured
               else ret tt
             else ret tt
         | _, _ => ret tt
         end;
     let isLearning :=
       isLearningCapture text (summary structured) (analysis structured) in
     if isLearning then
       let description :=
         trim
           (replaceAll noFlags bracketed 0 []
              (replaceAll flag_i agentTag 0 []
                 (replace flag_i completedPrefix 0 []
                    (default []
                       (orStr (orStr (completed structured)
                                 (summary structured))
                          (Some (str "task-completion"))))))) in
       let description :=
         if negb (truthy description) || (length description <? 3) then
           trim
             (replace flag_i completedPrefix 0 []
                (default []
                   (orStr (orStr (summary structured) (analysis structured))
                      (Some (str "task-completion")))))
         else description in
       let description :=
         if negb (truthy description) || (length description <? 3)
         then str "general-task" else description in
       do yearMonth <- getYearMonth;
       do filename <- generateFilename description "LEARNING";
       let category := getLearningCategory text None in
       let targetDir := join [LEARNING_DIR; category; yearMonth] in
       do present <- existsDir targetDir;
       run (if negb present then mkdirSync targetDir else ret tt);
       let filePath := join [targetDir; filename] in
       do timestamp <- getPSTTimestamp;
       do content <- generateLearningContent structured text timestamp;
       run writeMd filePath content;
       fileLog ([8218; 250; 214]%N ++ str " Captured learning to: "
                  ++ filePath) Info
     else ret tt)
    (fun err =>
       fileLogError (str "[Capture] Error capturing work summary") err).

(** Handle response capture for completed assistant messages. *)
Definition handleResponseCapture (text sessionId : jsstring) : M unit :=
  try_catch
    (run fileLog (str "[Capture] Processing response (length: "
                    ++ numberToString (inject_Z (Z.of_nat (length text)))
                    ++ str ")") Debug;
     let structured := parseStructuredResponse text in
     run try_catch (captureWorkSummary text structured)
           (fun err =>
              fileLogError
                (str "[Capture] Work summary capture failed (non-critical)")
                err);
     fileLog (str "[Capture] Response capture complete") Info)
    (fun err => fileLogError (str "[Capture] handleResponseCapture failed") err).

End Handler.

End Capture.


(** ** Sample collaborators

    Concrete collaborators, for the examples of the properties below. *)

Module Sample.

Definition join : list jsstring -> jsstring := joinWith (str "/").

Definition getLearningCategory (text : jsstring) (comment : option jsstring)
  : jsstring := str "ALGORITHM".

Definition isLearningCapture (text : jsstring)
  (summary analysis : option jsstring) : bool := false.

Definition toISOString (t : N) : jsstring := str "2026-02-02T14:30:00.000Z".
Definition pstTimestamp (t : N) : jsstring := str "2026-02-02T06:30:00".
Definition yearMonth (t : N) : jsstring := str "2026-02".

(** Integers in decimal; the sample ratings are integers. *)
Definition numberToString (q : Q) : jsstring :=
  str (NilZero.string_of_int (Z.to_int (Qnum q / Zpos (Qden q)))).

(** [Number(s)] for a run of decimal digits, 0 for the empty string; the
    sample texts have no other numerals. *)
Definition stringToNumber (s : jsstring) : option number :=
  if forallb isDigit s then Some (parseInt s) else None.

(** A category function that throws outside its signature. *)
Definition getLearningCategoryUntyped (detailedContext : json)
  (sentimentSummary : option json) : outcome jsstring := Throw TypeError.

Definition systemPrompt_ : jsstring := str "Analyze the message.".

(** An inference that answers every request after [d] ms with [s]. *)
Definition answers (d : N) (s : SentimentResult)
  : request -> Sentiment.settle (outcome Sentiment.response) :=
  fun _ => Sentiment.SettlesAfter d (Ok (Sentiment.Response true (Some s) [])).

(** An inference that never settles. *)
Definition hangs : request -> Sentiment.settle (outcome Sentiment.response) :=
  fun _ => Sentiment.NeverSettles.

Definition sentiment (r : option Q) (c : Q) : SentimentResult :=
  Sent.typed r (str "negative") c (str "Unhappy with result")
    (str "The change broke the build.").

Definition emptyWorld : world :=
  World 0 ∅ ∅ ∅ ∅ CWMissing ∅ [] [] [].

Definition handle (inference : request -> Sentiment.settle (outcome Sentiment.response))
  : jsstring -> jsstring -> option jsstring -> M (option Sentiment.verdict) :=
  Sentiment.handleImplicitSentiment inference systemPrompt_ join
    (str "/mem/LEARNING") getLearningCategory getLearningCategoryUntyped
    toISOString yearMonth numberToString stringToNumber.

Definition ratingsFile : jsstring := str "/mem/LEARNING/SIGNALS/ratings.jsonl".

End Sample.


(** * Notions used in the properties *)

(** ** Outcomes of a run

    [wp m Q w]: running [m] in the world [w] ends in an outcome and a world
    that satisfy [Q]. *)

Definition wp {A} (m : M A) (Q : outcome A -> world -> Prop) (w : world)
  : Prop :=
  Q (fst (m w)) (snd (m w)).

(** What a run leaves of the files: the ratings logs, the markdown files
    and the journal of writes. *)
Definition quiet (w w' : world) : Prop :=
  ratings_files w' = ratings_files w /\
  md_files w' = md_files w /\
  journal w' = journal w.


(** The rating the handler goes on with: 5 for [null], and otherwise what
    the answer had. *)
Definition settledRating (r : option json) : option json :=
  if isNull r then Some (JNum (Finite 5)) else r.



(** A run of digits that [parseInt] reads without rounding: its value is
    at most 2^53. *)
Definition readExactly (digits : jsstring) : Prop :=
  (digitsValue digits <= 2 ^ 53)%N.

(** The line the status pattern looks for, and the line that replaces
    it. *)
Definition IN_PROGRESS_LINE : jsstring :=
  str "status: " ++ Capture.quote ++ str "IN_PROGRESS" ++ Capture.quote.

Definition DONE_LINE : jsstring :=
  str "status: " ++ Capture.quote ++ str "DONE" ++ Capture.quote.

(** The first replacement of [updateTaskMeta]. *)
Definition flipStatus (content : jsstring) : jsstring :=
  replace flag_m Capture.statusPattern 0 DONE_LINE content.

(** [s] ends a line: it is empty or starts with a line terminator. *)
Definition atLineEnd (s : jsstring) : Prop :=
  match s with
  | [] => True
  | c :: _ => isLineTerminator c = true
  end.

(** [s], read backwards, ends a line. *)
Definition atLineStart (s : jsstring) : Prop := atLineEnd (rev s).

(** When [frontmatterPattern] matches. *)
Definition hasFrontmatter (c : jsstring) : bool :=
  startsWith (str "---" ++ nl) c && includes (str "---") (drop 4 c).

(** The second and third replacement of [updateTaskMeta]. *)
Definition insertHeader (key : string) (value content : jsstring) : jsstring :=
  replace noFlags Capture.frontmatterPattern 2
    (Capture.headerTemplate key value) content.

(** The text [updateTaskMeta] writes back, as a function of the text it
    read. *)
Definition patchThread (structured : Capture.StructuredResponse)
  (timestamp content : jsstring) : jsstring :=
  if Capture.truthyOpt
       (Capture.orStr (Capture.completed structured)
          (Capture.summary structured))
  then
    let content := flipStatus content in
    let content :=
      if negb (includes (str "completedAt:") content)
      then insertHeader "completedAt" timestamp content
      else content in
    let summary :=
      take 200
        (default []
           (Capture.orStr
              (Capture.orStr (Capture.completed structured)
                 (Capture.summary structured))
              (Some []))) in
    if truthy summary && negb (includes (str "summary:") content)
    then insertHeader "summary"
           (replaceAllChar 34 [92%N; 34%N] summary) content
    else content
  else content.

(** The properties of the object [updateTaskISC] writes back, as a function
    of the properties it read. *)
Definition patchProps (text timestamp : jsstring)
  (props : list (jsstring * json)) : list (jsstring * json) :=
  let props :=
    match Capture.extractEffortLevel text with
    | Some e => setProp (str "effortLevel") (JStr e) props
    | None => props
    end in
  let props :=
    match Capture.extractISCSatisfaction text with
    | Some sat =>
        setProp (str "status")
          (JStr (if numStrictEq (Capture.prop (str "satisfied") sat)
                      (Capture.prop (str "total") sat)
                 then str "COMPLETE" else str "PARTIAL"))
          (setProp (str "satisfaction") sat props)
    | None => props
    end in
  let props :=
    if includes Capture.COMPLETION_MARKER text
    then setProp (str "status") (JStr (str "COMPLETE")) props
    else props in
  setProp (str "updatedAt") (JStr timestamp) props.


(** ** Sample data *)

Definition sampleEntry (r : Q) (c : Q) : ImplicitRatingEntry :=
  Entry.Make (str "2026-02-02T14:30:00.000Z") (Some (JNum (Finite r)))
    (str "s1") (str "implicit") (Some (JStr (str "Unhappy with result")))
    (Some (JNum (Finite c))).

Module SampleTask.

Definition doc0 : list (jsstring * json) :=
  [ (str "taskId", JStr (str "t"));
    (str "status", JStr (str "IN_PROGRESS"));
    (str "effortLevel", JStr (str "STANDARD"));
    (str "criteria", JArr [JStr (str "tests pass"); JStr (str "docs updated")]);
    (str "antiCriteria", JArr []);
    (str "satisfaction", JNull);
    (str "createdAt", JStr (str "2026-02-01T09:00:00.000Z"));
    (str "updatedAt", JStr (str "2026-02-01T09:00:00.000Z")) ].

Definition iscFile : jsstring := str "/work/s/tasks/t/ISC.json".

Definition world0 : world :=
  World 0 {[ iscFile := Parsed (JObj doc0) ]} ∅ ∅ ∅ CWMissing ∅ [] [] [].

Definition updateISC (text : jsstring) : M unit :=
  Capture.updateTaskISC Sample.join (str "/work") Sample.toISOString
    (JStr (str "s")) (JStr (str "t")) text.

Definition bothPhrasings : jsstring :=
  str "Before: 2/5 criteria satisfied. Now: 5 criteria, all satisfied".

Definition allSatisfied : jsstring := str "Done: 6 criteria, all satisfied".

Definition noSignal : jsstring := str "Still looking into it.".

(** Two counts that differ by one, beyond the integers a number holds
    exactly. *)
Definition largeCounts : jsstring :=
  str "9007199254740993/9007199254740992 criteria satisfied".


Definition worldWith (doc : json) : world :=
  World 0 {[ iscFile := Parsed doc ]} ∅ ∅ ∅ CWMissing ∅ [] [] [].

End SampleTask.

(** ** What a pattern matches

    The relation behind the matcher: which states a pattern can lead to. *)

(** One code unit accepted by [ok] is consumed. *)
Definition advance (ok : char -> bool) (st st' : mstate) : Prop :=
  exists x t, rest st = x :: t /\ ok x = true /\
              st' = MState (x :: seen st) t (caps st).

(** [denote fl r st st']: the pattern [r] can take the matcher from [st]
    to [st']. *)
Fixpoint denote (fl : flags) (r : regex) (st st' : mstate) : Prop :=
  match r with
  | Empty => st' = st
  | Lit c => advance (litMatches fl c) st st'
  | Class p => advance p st st'
  | Dot => advance (dotMatches fl) st st'
  | Seq r1 r2 => exists mid, denote fl r1 st mid /\ denote fl r2 mid st'
  | Alt r1 r2 => denote fl r1 st st' \/ denote fl r2 st st'
  | Star _ r' => rtc (denote fl r') st st'
  | Group i r' =>
      exists st1, denote fl r' st st1 /\
        st' = MState (seen st1) (rest st1)
                ((i, take (length (rest st) - length (rest st1)) (rest st))
                   :: caps st1)
  | Bol => atBol fl st = true /\ st' = st
  | Eol => atEol fl st = true /\ st' = st
  | WordBoundary => atWordBoundary st = true /\ st' = st
  end.

(** A pattern without capturing groups. *)
Fixpoint groupFree (r : regex) : bool :=
  match r with
  | Seq r1 r2 | Alt r1 r2 => groupFree r1 && groupFree r2
  | Star _ r' => groupFree r'
  | Group _ _ => false
  | _ => true
  end.

(** What [exec] finds for a pattern that matches the runs, or the single
    units, of a class [P]: the first of them, after units outside [P]. *)
Definition findsClass (r : regex) (P : char -> bool) : Prop :=
  forall after before,
    match execFrom noFlags r before after with
    | Some m =>
        exists pre blk post,
          after = pre ++ blk ++ post /\
          Forall (fun c => P c = false) pre /\
          blk <> [] /\
          index m = length before + length pre /\
          matched m = blk
    | None => Forall (fun c => P c = false) after
    end.

(** ** Shapes of texts *)

(** A run of decimal digits, as [parseInt] reads it. *)
Definition digitRun (s : jsstring) : Prop :=
  s <> [] /\ Forall (fun c => isDigit c = true) s.

(** The type [EffortLevel] of response-capture.ts. *)
Definition EFFORT_LEVELS : list jsstring :=
  [str "QUICK"; str "STANDARD"; str "THOROUGH"; str "TRIVIAL"].

(** The ratings of the scale, as a user types them. *)
Definition RATINGS : list jsstring :=
  [str "1"; str "2"; str "3"; str "4"; str "5"; str "6"; str "7"; str "8";
   str "9"; str "10"].

(** The code units of a cleaned description: [a-z], [0-9] and the
    hyphen. *)
Definition slugChar (c : char) : bool :=
  in_range 97 122 c || isDigit c || char_eqb c 45.

(** The format of [toISOString] for the years 0 to 9999,
    [YYYY-MM-DDTHH:mm:ss.sssZ], as time.ts documents it for
    [getISOTimestamp]. *)
Definition isoShape (s : jsstring) : bool :=
  match s with
  | [y1; y2; y3; y4; a; m1; m2; b; d1; d2; t; h1; h2; c; n1; n2; e; s1; s2;
     f; f1; f2; f3; z] =>
      forallb isDigit
        [y1; y2; y3; y4; m1; m2; d1; d2; h1; h2; n1; n2; s1; s2; f1; f2; f3]
      && jsstring_eqb [a; b; t; c; e; f; z] (str "--T::.Z")
  | _ => false
  end.

(** The opening line of a frontmatter. *)
Definition FENCE : jsstring := str "---" ++ nl.

(** The line an insertion of [updateTaskMeta] adds to the header. *)
Definition headerLine (key : string) (value : jsstring) : jsstring :=
  str key ++ str ": " ++ Capture.quote ++ value ++ Capture.quote ++ nl.

(** A thread document with the status line in its header, and the same
    document after its completion: [h1] and [h2] are the header lines
    before and after the status line. *)
Definition threadBefore (h1 h2 body : jsstring) : jsstring :=
  FENCE ++ h1 ++ IN_PROGRESS_LINE ++ nl ++ h2 ++ str "---" ++ body.

Definition threadAfter (h1 h2 body ts said : jsstring) : jsstring :=
  FENCE ++ h1 ++ DONE_LINE ++ nl ++ h2
    ++ headerLine "completedAt" ts
    ++ headerLine "summary" (replaceAllChar 34 [92%N; 34%N] said)
    ++ str "---" ++ body.

(** The structure [parseStructuredResponse] starts from. *)
Definition EMPTY_RESPONSE : Capture.StructuredResponse :=
  Capture.Structured None None None None None None None None.

(** The current work [captureWorkSummary] goes on with: a parsed file
    with a session directory and a current task. *)
Definition usableWork (f : current_work_file) : option (json * json) :=
  match f with
  | CWParsed doc =>
      match Capture.prop (str "session_dir") doc,
            Capture.prop (str "current_task") doc with
      | Some sessionDir, Some currentTask =>
          if truthyValue (Some sessionDir) && truthyValue (Some currentTask)
          then Some (sessionDir, currentTask)
          else None
      | _, _ => None
      end
  | _ => None
  end.

(** The current work has the types of [CurrentWork] where the handler
    uses it: the session directory and the current task are strings. *)
Definition typedWork (f : current_work_file) : Prop :=
  match usableWork f with
  | Some (JStr _, JStr _) | None => True
  | Some _ => False
  end.

(** The request [analyzeSentiment] sends for a prompt and a context. *)
Definition requestFor (systemPrompt prompt context : jsstring) : request :=
  Request systemPrompt
    (if truthy context
     then str "CONTEXT:" ++ nl ++ context ++ nl ++ nl
            ++ str "CURRENT MESSAGE:" ++ nl ++ prompt
     else prompt)
    true 20000 (str "fast").

(** ** More sample data *)

Module Example.

(** An inference that fails on every request. *)
Definition fails : request -> Sentiment.settle (outcome Sentiment.response) :=
  fun _ =>
    Sentiment.SettlesAfter 100
      (Ok (Sentiment.Response false None (str "rate limited"))).

Definition user (text : string) : option entry :=
  Some (Entry (str "user") (CText (str text))).

Definition assistant (text : string) : option entry :=
  Some (Entry (str "assistant") (CText (str text))).

(** A transcript of five turns and one line that does not parse. *)
Definition older : transcript :=
  [user "add a login page"; assistant "SUMMARY: Added the login page"].

Definition recent : transcript :=
  [user "the button is misaligned"; None;
   assistant "I moved the button."; user "still wrong"].

Definition transcriptPath : jsstring := str "/t.jsonl".

Definition withTranscript (lines : transcript) : world :=
  World 0 ∅ ∅ ∅ {[ transcriptPath := lines ]} CWMissing ∅ [] [] [].


(** A thread document at the start of a task. *)
Definition threadFile : jsstring := str "/work/s/tasks/t/THREAD.md".

Definition h1 : jsstring := str "taskId: " ++ Capture.quote ++ str "t"
                              ++ Capture.quote ++ nl.

Definition h2 : jsstring :=
  str "createdAt: " ++ Capture.quote ++ str "2026-02-01T09:00:00.000Z"
    ++ Capture.quote ++ nl.

Definition body : jsstring := nl ++ str "# Thread" ++ nl.

Definition withThread : world :=
  World 0 ∅ {[ threadFile := threadBefore h1 h2 body ]} ∅ ∅ CWMissing ∅
    [] [] [].

(** The same task as the current work, with its ISC document. *)
Definition working : world :=
  World 0 {[ SampleTask.iscFile := Parsed (JObj SampleTask.doc0) ]}
    {[ threadFile := threadBefore h1 h2 body ]} ∅ ∅
    (CWParsed (JObj [ (str "session_dir", JStr (str "s"));
                      (str "current_task", JStr (str "t")) ])) ∅ [] [] [].

(** The same world with a number for the session directory. *)
Definition misdirected : world :=
  World 0 {[ SampleTask.iscFile := Parsed (JObj SampleTask.doc0) ]}
    {[ threadFile := threadBefore h1 h2 body ]} ∅ ∅
    (CWParsed (JObj [ (str "session_dir", num 7);
                      (str "current_task", JStr (str "t")) ])) ∅ [] [] [].

Definition said : jsstring :=
  str "Fixed the " ++ Capture.quote ++ str "login" ++ Capture.quote
    ++ str " page".

(** A parsed response that reports the completion. *)
Definition finished : Capture.StructuredResponse :=
  Capture.Structured None None None None None None (Some said) None.

(** A response in the format of the sections, with the markers of the
    source file. *)
Definition marked : jsstring :=
  Capture.MARK_SUMMARY ++ str " SUMMARY:  Fixed the login page  " ++ nl
    ++ Capture.MARK_STATUS ++ str " STATUS: done" ++ nl.

Definition plain : jsstring := str "All 6 tests pass now.".






Definition updateMeta (structured : Capture.StructuredResponse) : M unit :=
  Capture.updateTaskMeta Sample.join (str "/work") Sample.toISOString
    (JStr (str "s")) (JStr (str "t")) structured.

(** The satisfaction data of five criteria out of five. *)
Definition fiveOfFive : json :=
  JObj [ (str "satisfied", num 5); (str "partial", num 0);
         (str "failed", num 0); (str "total", num 5) ].

(** A learning detector that takes every response. *)
Definition always (text : jsstring) (summary analysis : option jsstring)
  : bool := true.

Definition captureWith
  (isLearningCapture : jsstring -> option jsstring -> option jsstring -> bool)
  : jsstring -> jsstring -> M unit :=
  Capture.handleResponseCapture Sample.join (str "/work")
    (str "/mem/LEARNING") Sample.getLearningCategory isLearningCapture
    Sample.toISOString Sample.pstTimestamp Sample.yearMonth
    Sample.numberToString.

End Example.
(** * Properties *)

(** ** Reasoning about handlers *)

#[global] Arguments str : simpl never.

Section WeakestPreconditions.

Context {A B : Type}.

Lemma wp_ret (a : A) Q w : Q (Ok a) w -> wp (ret a) Q w.
Proof. exact id. Qed.

Lemma wp_throw (e : exn) (Q : outcome A -> world -> Prop) w :
  Q (Throw e) w -> wp (throw e) Q w.
Proof. exact id. Qed.

Lemma wp_bind (m : M A) (k : A -> M B) Q w :
  wp m (fun o w' => match o with
                    | Ok a => wp (k a) Q w'
                    | Throw e => Q (Throw e) w'
                    end) w ->
  wp (bind m k) Q w.
Proof. unfold wp, bind. destruct (m w) as [[a|e] w']; exact id. Qed.

Lemma wp_try_catch (body : M A) (handler : exn -> M A) Q w :
  wp body (fun o w' => match o with
                       | Ok a => Q (Ok a) w'
                       | Throw e => wp (handler e) Q w'
                       end) w ->
  wp (try_catch body handler) Q w.
Proof. unfold wp, try_catch. destruct (body w) as [[a|e] w']; exact id. Qed.

Lemma wp_get (f : world -> A) Q w : Q (Ok (f w)) w -> wp (get f) Q w.
Proof. exact id. Qed.

Lemma wp_lift (o : outcome A) Q w : Q o w -> wp (lift o) Q w.
Proof. exact id. Qed.

Lemma wp_mono (m : M A) (Q Q' : outcome A -> world -> Prop) w :
  (forall o w', Q o w' -> Q' o w') -> wp m Q w -> wp m Q' w.
Proof. unfold wp. auto. Qed.

End WeakestPreconditions.

Lemma wp_modify (f : world -> world) Q w :
  Q (Ok tt) (f w) -> wp (modify f) Q w.
Proof. exact id. Qed.

Lemma wp_fileLog msg lv Q w :
  Q (Ok tt) (with_log (log w ++ [(lv, msg)]) w) -> wp (fileLog msg lv) Q w.
Proof. exact id. Qed.

Lemma wp_fileLogError msg err Q w :
  Q (Ok tt) (with_log (log w ++ [(Error, msg)]) w) ->
  wp (fileLogError msg err) Q w.
Proof. exact id. Qed.

Lemma wp_record e Q w :
  Q (Ok tt) (with_journal (journal w ++ [e]) w) -> wp (record e) Q w.
Proof. exact id. Qed.

Lemma wp_readTranscript p Q w :
  match transcripts w !! p with
  | Some t => Q (Ok t) w
  | None => Q (Throw (ENOENT p)) w
  end -> wp (readTranscript p) Q w.
Proof. unfold wp, readTranscript. destruct (transcripts w !! p); exact id. Qed.

Lemma wp_readJSON p Q w :
  match isc_files w !! p with
  | Some (Parsed doc) => Q (Ok doc) w
  | Some (Malformed _) => Q (Throw SyntaxError) w
  | None => Q (Throw (ENOENT p)) w
  end -> wp (readJSON p) Q w.
Proof.
  unfold wp, readJSON. destruct (isc_files w !! p) as [[?|?]|]; exact id.
Qed.

Lemma wp_readMd p Q w :
  match md_files w !! p with
  | Some c => Q (Ok c) w
  | None => Q (Throw (ENOENT p)) w
  end -> wp (readMd p) Q w.
Proof. unfold wp, readMd. destruct (md_files w !! p); exact id. Qed.

(** One step of a handler. *)
Ltac wp_step :=
  lazymatch goal with
  | |- wp (bind _ _) _ _ => apply wp_bind
  | |- wp (ret _) _ _ => apply wp_ret
  | |- wp (throw _) _ _ => apply wp_throw
  | |- wp (try_catch _ _) _ _ => apply wp_try_catch
  | |- wp (fileLog _ _) _ _ => apply wp_fileLog
  | |- wp (fileLogError _ _) _ _ => apply wp_fileLogError
  | |- wp (record _) _ _ => apply wp_record
  | |- wp (modify _) _ _ => apply wp_modify
  | |- wp (get _) _ _ => apply wp_get
  | |- wp (lift _) _ _ => apply wp_lift
  | |- wp (existsDir _) _ _ => unfold existsDir
  | |- wp (existsISC _) _ _ => unfold existsISC
  | |- wp (existsMd _) _ _ => unfold existsMd
  | |- wp (existsTranscript _) _ _ => unfold existsTranscript
  | |- wp (mkdirSync _) _ _ => unfold mkdirSync
  | |- wp (writeJSON _ _) _ _ => unfold writeJSON
  | |- wp (writeMd _ _) _ _ => unfold writeMd
  | |- wp (appendRating _ _) _ _ => unfold appendRating
  | |- wp (readTranscript _) _ _ => apply wp_readTranscript
  | |- wp (readJSON _) _ _ => apply wp_readJSON
  | |- wp (readMd _) _ _ => apply wp_readMd
  end.

Ltac wp_go := repeat (wp_step; cbv beta iota).

(** A case analysis on whatever a step of a handler depends on. *)
Ltac wp_case :=
  lazymatch goal with
  | |- match ?o with _ => _ end =>
      let E := fresh "E" in destruct o eqn:E
  | |- wp (match ?x with _ => _ end) _ _ =>
      let E := fresh "E" in destruct x eqn:E
  end.

Ltac wp_all := repeat (first [wp_step | wp_case]; cbv beta iota).

(** ** The sentiment handler *)

Section SentimentProperties.

Import Sentiment.

Variable inference : request -> settle (outcome response).
Variable SENTIMENT_SYSTEM_PROMPT : jsstring.
Variable join : list jsstring -> jsstring.
Variable getLearningDir : jsstring.
Variable getLearningCategory : jsstring -> option jsstring -> jsstring.
Variable getLearningCategoryUntyped : json -> option json -> outcome jsstring.
Variable toISOString : N -> jsstring.
Variable yearMonth : N -> jsstring.
Variable numberToString : Q -> jsstring.
Variable stringToNumber : jsstring -> option number.

Local Abbreviation handle :=
  (handleImplicitSentiment inference SENTIMENT_SYSTEM_PROMPT join
     getLearningDir getLearningCategory getLearningCategoryUntyped
     toISOString yearMonth numberToString stringToNumber).

Local Abbreviation showValue := (toStringValue numberToString).
Local Abbreviation below := (lessThan numberToString stringToNumber).

(** The path of the ratings log. *)
Local Abbreviation ratingsFile :=
  (join [join [getLearningDir; str "SIGNALS"]; str "ratings.jsonl"]).

(** [getRecentContext] only reads. *)
Lemma getRecentContext_reads (p : jsstring) (w : world) :
  exists c, getRecentContext p w = (Ok c, w).
Proof.
  unfold getRecentContext, try_catch, bind, existsTranscript, readTranscript,
    get, ret.
  destruct (truthy p); simpl; [| eauto].
  destruct (transcripts w !! p) as [t|] eqn:Ht.
  - rewrite bool_decide_eq_true_2 by eauto. simpl. rewrite Ht.
    destruct (drop _ _); eauto.
  - rewrite bool_decide_eq_false_2 by (intros [? ?]; congruence). simpl. eauto.
Qed.

(** The context the handler computes for a transcript argument. *)
Lemma context_reads (tp : option jsstring) (w : world) :
  exists c,
    match tp with
    | Some p => if truthy p then getRecentContext p else ret []
    | None => ret []
    end w = (Ok c, w).
Proof.
  destruct tp as [p|]; [destruct (truthy p) |]; unfold ret; eauto using
    getRecentContext_reads.
Qed.

Lemma wp_context (tp : option jsstring) Q (w : world) :
  (forall c, Q (Ok c) w) ->
  wp match tp with
     | Some p => if truthy p then getRecentContext p else ret []
     | None => ret []
     end Q w.
Proof.
  intros HQ. unfold wp. destruct (context_reads tp w) as [c ->]. apply HQ.
Qed.

Lemma quiet_refl w : quiet w w.
Proof. repeat split. Qed.

#[local] Hint Unfold quiet : core.

Lemma Qltb_lt (a b : Q) : Qltb a b = true <-> (a < b)%Q.
Proof.
  unfold Qltb. rewrite negb_true_iff, <- not_true_iff_false, Qle_bool_iff.
  split; [apply Qnot_le_lt | apply Qlt_not_le].
Qed.

(** [writeImplicitRating] appends the entry, as [JSON.stringify] prints
    it, to the ratings log and touches nothing else but the directories,
    the journal and the log. *)
Lemma wp_writeImplicitRating (e : ImplicitRatingEntry) Q (w : world) :
  (forall o w',
      ratings_files w'
        = <[ratingsFile := default [] (ratings_files w !! ratingsFile)
                             ++ [Entry.stringified e]]>
            (ratings_files w) ->
      md_files w' = md_files w ->
      isc_files w' = isc_files w ->
      transcripts w' = transcripts w ->
      time w' = time w ->
      inference_calls w' = inference_calls w ->
      (forall p, Wrote p ∉ journal w -> Wrote p ∉ journal w') ->
      (o = Ok tt \/ exists x, o = Throw x /\ showValue (Entry.rating e) = Throw x) ->
      Q o w') ->
  wp (writeImplicitRating join getLearningDir numberToString e) Q w.
Proof.
  clear inference SENTIMENT_SYSTEM_PROMPT getLearningCategory
    getLearningCategoryUntyped toISOString yearMonth stringToNumber.
  intros HQ. unfold writeImplicitRating. wp_go.
  assert (Hj : forall (j : list fs_event) p l,
             Wrote p ∉ j -> Forall (fun x => forall q, x <> Wrote q) l ->
             Wrote p ∉ j ++ l).
  { intros j p l Hp Hl Hin. apply elem_of_app in Hin as [Hin | Hin]; [tauto |].
    rewrite Forall_forall in Hl. exact (Hl _ Hin p eq_refl). }
  destruct (negb _); wp_go.
  all: destruct (showValue (Entry.rating e)) as [t|x] eqn:Ht; wp_go.
  all: apply HQ; try reflexivity; eauto.
  all: cbn [journal with_log with_journal with_ratings_files with_dirs].
  all: intros p Hp; rewrite <- ?app_assoc; apply Hj; [exact Hp |].
  all: repeat constructor; discriminate.
Qed.

(** [captureLowRatingLearning] leaves the ratings logs alone, however it
    ends. *)
Lemma wp_captureLowRatingLearning r sum det p Q (w : world) :
  (forall o w',
      ratings_files w' = ratings_files w ->
      isc_files w' = isc_files w ->
      time w' = time w ->
      inference_calls w' = inference_calls w ->
      Q o w') ->
  wp (captureLowRatingLearning join getLearningDir getLearningCategory
        getLearningCategoryUntyped toISOString yearMonth numberToString
        stringToNumber r sum det p) Q w.
Proof.
  intros HQ. unfold captureLowRatingLearning, learningCategory.
  unfold getYearMonth, getFilenameTimestamp, getISOTimestamp.
  wp_all. all: apply HQ; reflexivity.
Qed.

(** The handler goes on with the settled rating; a [null] is logged. *)
Lemma wp_settle (r : option json) Q (w : world) :
  (forall w',
      ratings_files w' = ratings_files w ->
      md_files w' = md_files w ->
      journal w' = journal w ->
      dirs w' = dirs w ->
      transcripts w' = transcripts w ->
      time w' = time w ->
      inference_calls w' = inference_calls w ->
      Q (Ok (settledRating r)) w') ->
  wp (if isNull r then
        run fileLog (str "[ImplicitSentiment] Neutral sentiment, assigning baseline rating 5") Info;
        ret (Some (JNum (Finite 5)))
      else ret r) Q w.
Proof.
  intros HQ. unfold settledRating in HQ.
  destruct (isNull r); wp_go; apply HQ; reflexivity.
Qed.

(** How the handler compares a number with a bound. *)
Lemma below_number (c k : Q) :
  below (Some (JNum (Finite c))) k = Ok (Qltb c k).
Proof. reflexivity. Qed.


(** The handler returns normally, whatever happens inside. *)
Lemma handleImplicitSentiment_returns
  (prompt sessionId : jsstring) (transcriptPath : option jsstring) (w : world) :
  exists v, fst (handle prompt sessionId transcriptPath w) = Ok v.
Proof.
  unfold handleImplicitSentiment, try_catch.
  match goal with |- context [match ?b w with _ => _ end] => destruct (b w) as [[v|e] w'] end;
    simpl; eauto.
Qed.


(** C9: when no transcript path is passed, a classification with enough
    confidence and a rating below 6 appends its entry to the ratings log
    and is returned, but no learning record is written: the markdown files
    are as before and the journal gains no write of a file. *)
Theorem no_learning_without_transcript
  (prompt sessionId : jsstring) (w : world)
  (d : N) (r : option Q) (sent : jsstring) (c : Q) (sum det err : jsstring) :
  isExplicitRating prompt = false ->
  MIN_PROMPT_LENGTH <= length prompt ->
  inference (Request SENTIMENT_SYSTEM_PROMPT prompt true 20000 (str "fast"))
    = SettlesAfter d
        (Ok (Response true (Some (Sent.typed r sent c sum det)) err)) ->
  (d <= ANALYSIS_TIMEOUT)%N ->
  (MIN_CONFIDENCE <= c)%Q ->
  (default 5%Q r < 6)%Q ->
  let rating := Some (JNum (Finite (default 5%Q r))) in
  let entry :=
    Entry.Make (toISOString (time w + d)) rating sessionId (str "implicit")
      (Some (JStr sum)) (Some (JNum (Finite c))) in
  fst (handle prompt sessionId None w)
    = Ok (Some (Verdict rating (Some (JStr sent)) (Some (JNum (Finite c))))) /\
  ratings_files (snd (handle prompt sessionId None w))
    = <[ratingsFile := default [] (ratings_files w !! ratingsFile) ++ [entry]]>
        (ratings_files w) /\
  md_files (snd (handle prompt sessionId None w)) = md_files w /\
  (forall p, Wrote p ∉ journal w ->
             Wrote p ∉ journal (snd (handle prompt sessionId None w))).
Proof.
  intros Hexp Hlen Hinf Hd Hconf Hlow rating entry.
  change (wp (handle prompt sessionId None)
            (fun o w' =>
               o = Ok (Some (Verdict rating (Some (JStr sent))
                               (Some (JNum (Finite c))))) /\
               ratings_files w'
                 = <[ratingsFile :=
                       default [] (ratings_files w !! ratingsFile) ++ [entry]]>
                     (ratings_files w) /\
               md_files w' = md_files w /\
               (forall p, Wrote p ∉ journal w -> Wrote p ∉ journal w')) w).
  unfold handleImplicitSentiment. wp_go. rewrite Hexp.
  replace (length prompt <? MIN_PROMPT_LENGTH) with false
    by (symmetry; apply Nat.ltb_ge; exact Hlen).
  wp_go. unfold analyzeSentiment. wp_go. simpl truthy. cbv iota.
  rewrite Hinf. unfold raceTimeout.
  replace (d <=? ANALYSIS_TIMEOUT)%N with true
    by (symmetry; apply N.leb_le; exact Hd).
  simpl success. simpl parsed. cbv iota. wp_go.
  assert (Hc : Qltb c MIN_CONFIDENCE = false).
  { apply not_true_iff_false. rewrite Qltb_lt. apply Qle_not_lt, Hconf. }
  unfold getISOTimestamp, writeImplicitRating.
  subst rating entry. unfold Sent.typed.
  cbn [Sent.rating Sent.confidence Sent.summary Sent.sentiment
       Sent.detailed_context].
  destruct r as [q|]; cbn [isNull]; wp_go; rewrite below_number, Hc; wp_go.
  all: cbn [toStringValue toString]; wp_go.
  all: destruct (negb _); wp_go.
  all: cbn [Entry.rating toStringValue toString]; wp_go.
  all: rewrite below_number; wp_go; simpl.
  all: repeat split; try reflexivity.
  all: intros p Hp Hin.
  all: rewrite ?elem_of_app, ?list_elem_of_singleton in Hin.
  all: intuition discriminate.
Qed.

(** C6: when the inference collaborator never settles, a message that
    passes the two guards makes the handler return [null] exactly
    [ANALYSIS_TIMEOUT] ms after it started, on the handler's clock; the
    collaborator was called once and nothing was persisted. *)
Theorem timeout_returns_null
  (prompt sessionId : jsstring) (transcriptPath : option jsstring) (w : world) :
  isExplicitRating prompt = false ->
  MIN_PROMPT_LENGTH <= length prompt ->
  (forall req, inference req = NeverSettles) ->
  fst (handle prompt sessionId transcriptPath w) = Ok None /\
  time (snd (handle prompt sessionId transcriptPath w))
    = (time w + ANALYSIS_TIMEOUT)%N /\
  (exists req,
      inference_calls (snd (handle prompt sessionId transcriptPath w))
        = inference_calls w ++ [req]) /\
  quiet w (snd (handle prompt sessionId transcriptPath w)).
Proof.
  intros Hexp Hlen Hnever.
  change (wp (handle prompt sessionId transcriptPath)
            (fun o w' =>
               o = Ok None /\ time w' = (time w + ANALYSIS_TIMEOUT)%N /\
               (exists req, inference_calls w' = inference_calls w ++ [req]) /\
               quiet w w') w).
  unfold handleImplicitSentiment. wp_go. rewrite Hexp.
  replace (length prompt <? MIN_PROMPT_LENGTH) with false
    by (symmetry; apply Nat.ltb_ge; exact Hlen).
  wp_go. apply wp_context; intros c. cbv beta iota.
  unfold analyzeSentiment. wp_go. rewrite Hnever. unfold raceTimeout.
  wp_go. simpl. repeat split; eauto.
Qed.

(** C3: the guard takes [8 great job] for an explicit rating, and the
    handler then returns [null] without calling the inference collaborator;
    it does not take [3 bugs remain] for one, because [bugs remain] starts
    like a sentence, and the handler then calls the collaborator. *)
Theorem explicit_rating_guard
  (sessionId : jsstring) (transcriptPath : option jsstring) (w : world) :
  isExplicitRating (str "8 great job") = true /\
  isExplicitRating (str "3 bugs remain") = false /\
  test flag_i sentenceStarters (str "bugs remain") = true /\
  test flag_i sentenceStarters (str "great job") = false /\
  (fst (handle (str "8 great job") sessionId transcriptPath w) = Ok None /\
   inference_calls (snd (handle (str "8 great job") sessionId transcriptPath w))
     = inference_calls w) /\
  (exists req,
      inference_calls
        (snd (handle (str "3 bugs remain") sessionId transcriptPath w))
        = inference_calls w ++ [req]).
Proof.
  assert (H8 : isExplicitRating (str "8 great job") = true)
    by (vm_compute; reflexivity).
  assert (H3 : isExplicitRating (str "3 bugs remain") = false)
    by (vm_compute; reflexivity).
  split; [exact H8 |]. split; [exact H3 |].
  split; [vm_compute; reflexivity |]. split; [vm_compute; reflexivity |].
  split.
  - change (wp (handle (str "8 great job") sessionId transcriptPath)
              (fun o w' => o = Ok None /\
                           inference_calls w' = inference_calls w) w).
    unfold handleImplicitSentiment. wp_go. rewrite H8. wp_go. auto.
  - change (wp (handle (str "3 bugs remain") sessionId transcriptPath)
              (fun _ w' =>
                 exists req, inference_calls w' = inference_calls w ++ [req])
              w).
    unfold handleImplicitSentiment. wp_go. rewrite H3.
    replace (length (str "3 bugs remain") <? MIN_PROMPT_LENGTH) with false
      by (vm_compute; reflexivity).
    wp_go. apply wp_context; intros c. cbv beta iota.
    unfold analyzeSentiment. wp_go.
    destruct (inference _) as [d [res|err]|]; unfold raceTimeout;
      [| destruct (d <=? ANALYSIS_TIMEOUT)%N; wp_go; simpl; eauto
       | wp_go; simpl; eauto].
    destruct (d <=? ANALYSIS_TIMEOUT)%N; [| wp_go; simpl; eauto].
    wp_go. destruct (success res); [| wp_go; simpl; eauto].
    destruct (parsed res) as [s|]; [| wp_go; simpl; eauto].
    wp_go. apply wp_settle. intros w0 _ _ _ _ _ _ Hw0. cbv beta iota.
    wp_go.
    destruct (below (Sent.confidence s) MIN_CONFIDENCE) as [[|]|x];
      wp_all;
      try solve [cbn [inference_calls with_log]; rewrite Hw0; simpl; eauto].
    all: unfold getISOTimestamp; wp_go.
    all: apply wp_writeImplicitRating.
    all: intros o w1 _ _ _ _ _ Hw1 _ _.
    all: cbn [inference_calls with_log] in Hw1; rewrite Hw0 in Hw1.
    all: destruct o as [[]|x]; wp_all;
      try solve [cbn [inference_calls with_log]; rewrite Hw1; simpl; eauto].
    all: apply wp_captureLowRatingLearning; intros o w2 _ _ _ Hw2.
    all: destruct o as [[]|x]; wp_all;
      cbn [inference_calls with_log]; rewrite Hw2, Hw1; simpl; eauto.
Qed.

End SentimentProperties.

(** *** The sentiment handler on sample runs *)


(** An answer that has no rating at all passes the comparison with
    [null], and the entry is persisted without a rating. *)
Lemma rating_missing_from_answer :
  let answer :=
    Sent.Make None (Some (JStr (str "negative"))) (Some (JNum (Finite 0.9%Q)))
      (Some (JStr (str "Unhappy with result"))) None in
  ratings_files
    (snd (Sample.handle (Sample.answers 100 answer)
            (str "this is broken again") (str "s1") None Sample.emptyWorld))
    !! Sample.ratingsFile
  = Some [Entry.Make (str "2026-02-02T14:30:00.000Z") None (str "s1")
            (str "implicit") (Some (JStr (str "Unhappy with result")))
            (Some (JNum (Finite 0.9%Q)))].
Proof. vm_compute. reflexivity. Qed.

(** An answer whose confidence is missing is not taken for a low
    confidence: the comparison with the threshold is false, and the entry
    is persisted. *)
Lemma confidence_missing_from_answer :
  let answer :=
    Sent.Make (Some (JNum (Finite 8%Q))) (Some (JStr (str "positive"))) None
      (Some (JStr (str "Pleased"))) None in
  ratings_files
    (snd (Sample.handle (Sample.answers 100 answer)
            (str "this is broken again") (str "s1") None Sample.emptyWorld))
    !! Sample.ratingsFile
  = Some [Entry.Make (str "2026-02-02T14:30:00.000Z")
            (Some (JNum (Finite 8%Q))) (str "s1") (str "implicit")
            (Some (JStr (str "Pleased"))) None].
Proof. vm_compute. reflexivity. Qed.

(** A confidence of [null] counts as 0 in the comparison with the
    threshold: nothing is persisted. *)
Lemma null_confidence_is_low :
  let answer :=
    Sent.Make (Some (JNum (Finite 2%Q))) (Some (JStr (str "negative")))
      (Some JNull) (Some (JStr (str "Unhappy with result"))) None in
  Sentiment.lessThan Sample.numberToString Sample.stringToNumber
    (Sent.confidence answer) Sentiment.MIN_CONFIDENCE = Ok true /\
  Sample.handle (Sample.answers 100 answer) (str "this is broken again")
    (str "s1") None Sample.emptyWorld
  = (Ok None,
     with_log (log (snd (Sample.handle (Sample.answers 100 answer)
                           (str "this is broken again") (str "s1") None
                           Sample.emptyWorld)))
       (with_inference_calls
          [Request Sample.systemPrompt_ (str "this is broken again") true
             20000 (str "fast")]
          (with_time 100 Sample.emptyWorld))).
Proof. split; vm_compute; reflexivity. Qed.

(** A rating beyond the doubles, such as [1e999], is read as infinite and
    written as [null]. *)
Lemma infinite_rating_is_written_as_null :
  let answer :=
    Sent.Make (Some (JNum PlusInfinity)) (Some (JStr (str "positive")))
      (Some (JNum (Finite 0.9%Q))) (Some (JStr (str "Pleased"))) None in
  ratings_files
    (snd (Sample.handle (Sample.answers 100 answer)
            (str "this is broken again") (str "s1") None Sample.emptyWorld))
    !! Sample.ratingsFile
  = Some [Entry.Make (str "2026-02-02T14:30:00.000Z") (Some JNull) (str "s1")
            (str "implicit") (Some (JStr (str "Pleased")))
            (Some (JNum (Finite 0.9%Q)))].
Proof. vm_compute. reflexivity. Qed.



Lemma no_learning_sample :
  Sentiment.isExplicitRating (str "this is broken again") = false /\
  Sentiment.MIN_PROMPT_LENGTH <= length (str "this is broken again") /\
  (100 <= Sentiment.ANALYSIS_TIMEOUT)%N /\
  (Sentiment.MIN_CONFIDENCE <= 0.9)%Q /\
  (2 < 6)%Q /\
  fst (Sample.handle (Sample.answers 100 (Sample.sentiment (Some 2%Q) 0.9%Q))
         (str "this is broken again") (str "s1") None Sample.emptyWorld)
    = Ok (Some (Sentiment.Verdict (Some (JNum (Finite 2%Q)))
                  (Some (JStr (str "negative")))
                  (Some (JNum (Finite 0.9%Q))))) /\
  ratings_files
    (snd (Sample.handle (Sample.answers 100 (Sample.sentiment (Some 2%Q) 0.9%Q))
            (str "this is broken again") (str "s1") None Sample.emptyWorld))
    = <[Sample.ratingsFile := [sampleEntry 2%Q 0.9%Q]]> ∅ /\
  md_files
    (snd (Sample.handle (Sample.answers 100 (Sample.sentiment (Some 2%Q) 0.9%Q))
            (str "this is broken again") (str "s1") None Sample.emptyWorld))
    = ∅ /\
  (forall p,
      Wrote p ∉ [] ->
      Wrote p
        ∉ journal
            (snd (Sample.handle
                    (Sample.answers 100 (Sample.sentiment (Some 2%Q) 0.9%Q))
                    (str "this is broken again") (str "s1") None
                    Sample.emptyWorld))).
Proof.
  assert (H1 : Sentiment.isExplicitRating (str "this is broken again") = false)
    by (vm_compute; reflexivity).
  assert (H2 : Sentiment.MIN_PROMPT_LENGTH <= length (str "this is broken again"))
    by (vm_compute; lia).
  assert (H3 : (100 <= Sentiment.ANALYSIS_TIMEOUT)%N) by discriminate.
  assert (H4 : (Sentiment.MIN_CONFIDENCE <= 0.9)%Q) by discriminate.
  assert (H5 : (2 < 6)%Q) by reflexivity.
  repeat (split; [assumption |]).
  exact (no_learning_without_transcript
           (Sample.answers 100 (Sample.sentiment (Some 2%Q) 0.9%Q))
           Sample.systemPrompt_ Sample.join (str "/mem/LEARNING")
           Sample.getLearningCategory Sample.getLearningCategoryUntyped
           Sample.toISOString Sample.yearMonth
           Sample.numberToString Sample.stringToNumber
           (str "this is broken again") (str "s1")
           Sample.emptyWorld 100 (Some 2%Q) (str "negative") 0.9%Q
           (str "Unhappy with result") (str "The change broke the build.") []
           H1 H2 eq_refl H3 H4 H5).
Defined.

(** An answer that settles at the very moment of the timeout is still
    taken: its timer was set first. *)
Lemma answer_at_the_timeout_is_taken :
  ratings_files
    (snd (Sample.handle
            (Sample.answers Sentiment.ANALYSIS_TIMEOUT
               (Sample.sentiment (Some 2%Q) 0.9%Q))
            (str "this is broken again") (str "s1") None Sample.emptyWorld))
  = <[Sample.ratingsFile := [sampleEntry 2%Q 0.9%Q]]> ∅.
Proof. vm_compute. reflexivity. Qed.

Lemma timeout_sample :
  Sentiment.isExplicitRating (str "this is broken again") = false /\
  Sentiment.MIN_PROMPT_LENGTH <= length (str "this is broken again") /\
  (forall req, Sample.hangs req = Sentiment.NeverSettles) /\
  fst (Sample.handle Sample.hangs (str "this is broken again") (str "s1")
         (Some (str "/t.jsonl")) Sample.emptyWorld) = Ok None /\
  time (snd (Sample.handle Sample.hangs (str "this is broken again")
               (str "s1") (Some (str "/t.jsonl")) Sample.emptyWorld))
    = (0 + 25000)%N /\
  (exists req,
      inference_calls
        (snd (Sample.handle Sample.hangs (str "this is broken again")
                (str "s1") (Some (str "/t.jsonl")) Sample.emptyWorld))
        = [] ++ [req]) /\
  quiet Sample.emptyWorld
    (snd (Sample.handle Sample.hangs (str "this is broken again") (str "s1")
            (Some (str "/t.jsonl")) Sample.emptyWorld)).
Proof.
  assert (H1 : Sentiment.isExplicitRating (str "this is broken again") = false)
    by (vm_compute; reflexivity).
  assert (H2 : Sentiment.MIN_PROMPT_LENGTH <= length (str "this is broken again"))
    by (vm_compute; lia).
  assert (H3 : forall req, Sample.hangs req = Sentiment.NeverSettles)
    by reflexivity.
  repeat (split; [assumption |]).
  exact (timeout_returns_null Sample.hangs Sample.systemPrompt_ Sample.join
           (str "/mem/LEARNING") Sample.getLearningCategory
           Sample.getLearningCategoryUntyped Sample.toISOString
           Sample.yearMonth Sample.numberToString Sample.stringToNumber
           (str "this is broken again")
           (str "s1") (Some (str "/t.jsonl")) Sample.emptyWorld H1 H2 H3).
Defined.
(** ** Strings and patterns *)

Lemma char_eqb_eq (a b : char) : char_eqb a b = true <-> a = b.
Proof. apply N.eqb_eq. Qed.

Lemma jsstring_eqb_eq (a b : jsstring) : jsstring_eqb a b = true <-> a = b.
Proof.
  revert b. induction a as [|x a IH]; intros [|y b]; simpl;
    try (split; [discriminate | congruence]); [tauto |].
  rewrite andb_true_iff, char_eqb_eq, IH. split; [intros [-> ->] | intros [=]];
    auto.
Qed.

Lemma jsstring_eqb_refl (a : jsstring) : jsstring_eqb a a = true.
Proof. apply jsstring_eqb_eq. reflexivity. Qed.

Lemma jsstring_eqb_neq (a b : jsstring) : a <> b -> jsstring_eqb a b = false.
Proof.
  intros H. apply not_true_iff_false. rewrite jsstring_eqb_eq. exact H.
Qed.

Lemma startsWith_app (p s : jsstring) : startsWith p (p ++ s) = true.
Proof.
  induction p as [|x p IH]; simpl; [reflexivity |].
  rewrite IH, andb_true_r. apply char_eqb_eq. reflexivity.
Qed.

Lemma startsWith_inv (p s : jsstring) :
  startsWith p s = true -> s = p ++ drop (length p) s.
Proof.
  revert s. induction p as [|x p IH]; intros [|y s]; simpl; try discriminate;
    [reflexivity | reflexivity |].
  rewrite andb_true_iff, char_eqb_eq. intros [-> H]. f_equal. apply IH, H.
Qed.

(** A code unit that does not occur in [p] separates the searches for
    [p]. *)
Lemma startsWith_sep (p a b : jsstring) (t : char) :
  existsb (char_eqb t) p = false ->
  startsWith p (a ++ t :: b) = startsWith p a.
Proof.
  revert a. induction p as [|y p IH]; intros a Ht; [destruct a; reflexivity |].
  simpl in Ht. apply orb_false_iff in Ht as [Hy Hp].
  destruct a as [|x a]; simpl.
  - replace (char_eqb y t) with false; [reflexivity |].
    symmetry. rewrite <- Hy. apply N.eqb_sym.
  - rewrite IH by exact Hp. reflexivity.
Qed.

Lemma includes_sep (p a b : jsstring) (t : char) :
  existsb (char_eqb t) p = false ->
  includes p (a ++ t :: b) = includes p a || includes p b.
Proof.
  intros Ht. induction a as [|x a IH].
  - change (includes p ([] ++ t :: b))
      with (startsWith p ([] ++ t :: b) || includes p b).
    rewrite startsWith_sep by exact Ht.
    destruct p; simpl; rewrite ?orb_false_r; reflexivity.
  - change (includes p ((x :: a) ++ t :: b))
      with (startsWith p ((x :: a) ++ t :: b) || includes p (a ++ t :: b)).
    rewrite startsWith_sep, IH by exact Ht.
    change (includes p (x :: a)) with (startsWith p (x :: a) || includes p a).
    rewrite !orb_assoc. reflexivity.
Qed.

Lemma includes_sep_head (p b : jsstring) (t : char) :
  existsb (char_eqb t) p = false ->
  includes p (t :: b) = includes p [] || includes p b.
Proof. exact (includes_sep p [] b t). Qed.

Lemma includes_cons (p s : jsstring) (x : char) :
  includes p s = true -> includes p (x :: s) = true.
Proof.
  intros H. change (startsWith p (x :: s) || includes p s = true).
  rewrite H. apply orb_true_r.
Qed.

Lemma includes_prefix (p a b : jsstring) :
  includes p b = true -> includes p (a ++ b) = true.
Proof. intros H. induction a; [exact H | apply includes_cons; assumption]. Qed.

Lemma includes_here (p a b : jsstring) : includes p (a ++ p ++ b) = true.
Proof.
  apply includes_prefix. destruct (p ++ b) eqn:E; simpl;
    rewrite <- ?E, startsWith_app; reflexivity.
Qed.

(** [includes p s] fails exactly when no suffix of [s] starts with [p]. *)
Lemma includes_false (p s : jsstring) :
  includes p s = false <->
  forall a b, s = a ++ b -> startsWith p b = false.
Proof.
  induction s as [|x s IH].
  - simpl. rewrite orb_false_r. split.
    + intros H a b E. symmetry in E. apply app_eq_nil in E as [_ ->]. exact H.
    + intros H. apply (H [] []). reflexivity.
  - change (includes p (x :: s))
      with (startsWith p (x :: s) || includes p s).
    rewrite orb_false_iff, IH. split.
    + intros [H0 H] [|y a] b E; simpl in E.
      * subst b. exact H0.
      * injection E as _ E. exact (H a b E).
    + intros H. split; [apply (H []); reflexivity |].
      intros a b E. apply (H (x :: a)). simpl. congruence.
Qed.

(** A literal without the [i] flag matches by comparison of code units. *)
Lemma rmatch_lits (fl : flags) (l : jsstring) k (st : mstate) :
  ignoreCase fl = false ->
  rmatch fl (lits l) k st
  = if startsWith l (rest st)
    then k (MState (rev (take (length l) (rest st)) ++ seen st)
              (drop (length l) (rest st)) (caps st))
    else None.
Proof.
  intros Hi. revert st. induction l as [|c l IH]; intros [sn rs cs].
  - reflexivity.
  - simpl. unfold step. simpl. destruct rs as [|x rs]; [reflexivity |].
    unfold litMatches. rewrite Hi. destruct (char_eqb c x); [| reflexivity].
    rewrite IH. simpl. rewrite <- app_assoc. reflexivity.
Qed.

(** A match of a whole line [l] under the [m] flag. *)
Lemma execFrom_line (l before after : jsstring) (m : mresult) :
  execFrom flag_m (Seq Bol (Seq (lits l) Eol)) before after = Some m ->
  exists pre post,
    after = pre ++ l ++ post /\
    index m = length before + length pre /\
    matched m = l /\
    atLineEnd (rev pre ++ before) /\ atLineEnd post.
Proof.
  revert before. induction after as [|x after IH]; intros before.
  - unfold execFrom. cbn [rmatch].
    destruct (atBol _ _) eqn:Hbol; [| discriminate].
    rewrite rmatch_lits by reflexivity. cbn [rest seen caps].
    destruct (startsWith l []) eqn:Hsw; [| discriminate].
    destruct (atEol _ _); [| discriminate].
    intros [= <-]. apply startsWith_inv in Hsw.
    destruct l; [| discriminate]. exists [], []. cbn.
    repeat split; try lia. unfold atBol in Hbol. cbn in Hbol.
    destruct before; [exact I | exact Hbol].
  - unfold execFrom; fold execFrom.
    destruct (rmatch _ _ _ _) as [st|] eqn:Hm.
    + intros [= <-]. cbn [rmatch] in Hm.
      destruct (atBol _ _) eqn:Hbol; [| discriminate].
      rewrite rmatch_lits in Hm by reflexivity. cbn [rest seen caps] in Hm.
      destruct (startsWith _ _) eqn:Hsw; [| discriminate].
      destruct (atEol _ _) eqn:Heol; [| discriminate].
      injection Hm as <-. cbn [rest caps index matched].
      apply startsWith_inv in Hsw.
      remember (drop (length l) (x :: after)) as post eqn:E.
      clear E. exists [], post.
      split; [exact Hsw |]. split; [cbn; lia |].
      split.
      * replace (_ - _) with (length l).
        -- rewrite Hsw. apply take_app_length.
        -- apply (f_equal length) in Hsw. rewrite length_app in Hsw.
           cbn in Hsw. lia.
      * split.
        -- unfold atBol in Hbol. cbn in Hbol. cbn.
           destruct before; [exact I | exact Hbol].
        -- unfold atEol in Heol. cbn [rest] in Heol.
           destruct post; [exact I | exact Heol].
    + intros H. apply IH in H as (pre & post & -> & Hi & Hmt & Hl & Hr).
      exists (x :: pre), post. split; [reflexivity |].
      split; [cbn in *; lia |]. split; [exact Hmt |].
      split; [| exact Hr]. cbn. rewrite <- app_assoc. exact Hl.
Qed.

(** [flipStatus] changes nothing, or turns the first line
    [status: "IN_PROGRESS"] into [status: "DONE"]. *)
Lemma flipStatus_cases (c : jsstring) :
  flipStatus c = c \/
  exists pre post,
    c = pre ++ IN_PROGRESS_LINE ++ post /\
    flipStatus c = pre ++ DONE_LINE ++ post /\
    atLineStart pre /\ atLineEnd post.
Proof.
  unfold flipStatus, replace, exec.
  destruct (execFrom _ _ _ _) as [m|] eqn:Hm; [right | left; reflexivity].
  apply (execFrom_line IN_PROGRESS_LINE) in Hm
    as (pre & post & -> & Hi & Hmt & Hl & Hr).
  exists pre, post. split; [reflexivity |].
  simpl in Hi. rewrite app_nil_r in Hl. split; [| split; assumption].
  rewrite Hi, Hmt, take_app_length. f_equal.
  rewrite drop_app_add, drop_app_length.
  reflexivity.
Qed.

(** A search for a needle without line terminators does not see across a
    line that is replaced as a whole. *)
Lemma includes_between (n pre mid mid' post : jsstring) :
  (forall t, isLineTerminator t = true -> existsb (char_eqb t) n = false) ->
  atLineStart pre -> atLineEnd post ->
  includes n mid = includes n mid' ->
  includes n (pre ++ mid ++ post) = includes n (pre ++ mid' ++ post).
Proof.
  intros Hn Hpre Hpost Hmid.
  assert (Hright : forall m m', includes n m = includes n m' ->
            includes n (m ++ post) = includes n (m' ++ post)).
  { intros m m' Hm. destruct post as [|t post]; [rewrite !app_nil_r; exact Hm |].
    rewrite !includes_sep by (apply Hn, Hpost). rewrite Hm. reflexivity. }
  destruct pre as [|x pre _] using rev_ind; [apply Hright, Hmid |].
  unfold atLineStart in Hpre. rewrite rev_app_distr in Hpre. simpl in Hpre.
  rewrite <- !app_assoc. simpl.
  rewrite !includes_sep by (apply Hn, Hpre).
  rewrite (Hright mid mid' Hmid). reflexivity.
Qed.

Lemma includes_flipStatus (n c : jsstring) :
  (forall t, isLineTerminator t = true -> existsb (char_eqb t) n = false) ->
  includes n IN_PROGRESS_LINE = false ->
  includes n DONE_LINE = false ->
  includes n (flipStatus c) = includes n c.
Proof.
  intros Hn HL HD.
  destruct (flipStatus_cases c) as [-> | (pre & post & -> & -> & Hl & Hr)];
    [reflexivity |].
  apply includes_between; auto. congruence.
Qed.

Lemma no_terminator (n : jsstring) :
  forallb (fun c => negb (isLineTerminator c)) n = true ->
  forall t, isLineTerminator t = true -> existsb (char_eqb t) n = false.
Proof.
  intros Hn t Ht. induction n as [|x n IH]; [reflexivity |].
  simpl in *. apply andb_true_iff in Hn as [Hx Hn].
  rewrite (IH Hn), orb_false_r. destruct (char_eqb t x) eqn:E; [| reflexivity].
  apply char_eqb_eq in E as <-. rewrite Ht in Hx. discriminate.
Qed.

(** *** The frontmatter pattern *)

Lemma is_Some_orElse {A} (a b : option A) :
  is_Some (orElse a b) <-> is_Some a \/ is_Some b.
Proof.
  destruct a as [x|]; simpl; [split; eauto |].
  split; [auto | intros [[? [=]] | H]; exact H].
Qed.

Lemma includes_true (p s : jsstring) :
  includes p s = true <-> exists a b, s = a ++ b /\ startsWith p b = true.
Proof.
  split.
  - induction s as [|x s IH].
    + simpl. rewrite orb_false_r. intros H. exists [], []. auto.
    + change (includes p (x :: s))
        with (startsWith p (x :: s) || includes p s).
      intros [H | H]%orb_true_iff; [exists [], (x :: s); auto |].
      destruct (IH H) as (a & b & -> & Hb). exists (x :: a), b. auto.
  - intros (a & b & -> & Hb). destruct (includes p (a ++ b)) eqn:E;
      [reflexivity |].
    rewrite (proj1 (includes_false p (a ++ b)) E a b eq_refl) in Hb.
    discriminate.
Qed.

Lemma starLoop_lazy inner k (n : nat) (st : mstate) :
  starLoop inner false k (S n) st
  = orElse (k st)
      (inner (fun st' => if length (rest st') <? length (rest st)
                         then starLoop inner false k n st' else None) st).
Proof. reflexivity. Qed.

Lemma rmatch_any (fl : flags) k (x : char) (sn rs : jsstring) cs :
  rmatch fl (Class (fun _ => true)) k (MState sn (x :: rs) cs)
  = k (MState (x :: sn) rs cs).
Proof. reflexivity. Qed.

(** A lazy star over any code unit tries its continuation at each position
    from the current one on. *)
Lemma starLoop_lazy_any (fl : flags) (P : jsstring -> bool) k :
  (forall st, is_Some (k st) <-> P (rest st) = true) ->
  forall rs sn cs,
    is_Some (starLoop (rmatch fl (Class (fun _ => true))) false k
               (length rs) (MState sn rs cs)) <->
    exists a b, rs = a ++ b /\ P b = true.
Proof.
  intros Hk. induction rs as [|x rs IH]; intros sn cs.
  - simpl. rewrite Hk. simpl. split.
    + intros H. exists [], []. auto.
    + intros (a & b & E & Hb). symmetry in E.
      apply app_eq_nil in E as [_ ->]. exact Hb.
  - change (length (x :: rs)) with (S (length rs)). rewrite starLoop_lazy.
    rewrite is_Some_orElse, Hk, rmatch_any. cbn [rest].
    replace (length rs <? length (x :: rs)) with true
      by (symmetry; apply Nat.ltb_lt; cbn; lia).
    rewrite IH. split.
    + intros [H | (a & b & -> & Hb)]; [exists [], (x :: rs); auto |].
      exists (x :: a), b. auto.
    + intros ([|y a] & b & E & Hb); simpl in E; [left; subst b; exact Hb |].
      injection E as _ ->. right. eauto.
Qed.

Lemma execFrom_unfold (fl : flags) (r : regex) (before after : jsstring) :
  execFrom fl r before after
  = match rmatch fl r Some (MState before after []) with
    | Some st =>
        Some (MResult (length before)
                (take (length after - length (rest st)) after) (caps st))
    | None =>
        match after with
        | [] => None
        | c :: after' => execFrom fl r (c :: before) after'
        end
    end.
Proof. destruct after; reflexivity. Qed.

Lemma execFrom_bol (r : regex) (before after : jsstring) :
  before <> [] -> execFrom noFlags (Seq Bol r) before after = None.
Proof.
  revert before. induction after as [|x after IH]; intros before Hb;
    unfold execFrom; fold execFrom; cbn [rmatch];
    (destruct before; [congruence |]); cbn; [reflexivity |].
  apply IH. discriminate.
Qed.

Lemma rmatch_lits_snoc (fl : flags) (l : jsstring) (x : char) k st :
  rmatch fl (lits l) (rmatch fl (Lit x) k) st = rmatch fl (lits (l ++ [x])) k st.
Proof.
  revert st. induction l as [|c l IH]; intros st; [reflexivity |].
  cbn [lits app rmatch]. unfold step. destruct (rest st); [reflexivity |].
  destruct (litMatches fl c _); [apply IH | reflexivity].
Qed.

(** The pattern [^(a x ANY*?)(b)], with [ANY] any code unit: it matches
    when the text starts with [a x] and [b] occurs after that. *)
Lemma exec_fence (a b c : jsstring) (x : char) :
  is_Some (exec noFlags
             (Seq Bol
                (Seq (Group 1 (Seq (lits a)
                                 (Seq (Lit x)
                                    (Star false (Class (fun _ => true))))))
                   (Group 2 (lits b)))) c) <->
  startsWith (a ++ [x]) c = true /\
  includes b (drop (length (a ++ [x])) c) = true.
Proof.
  unfold exec. rewrite execFrom_unfold.
  match goal with
  | |- is_Some (match ?m with _ => _ end) <-> _ =>
      assert (H : is_Some m <-> startsWith (a ++ [x]) c = true
                                /\ includes b (drop (length (a ++ [x])) c)
                                   = true);
      [| destruct m as [st|];
         [ split; [intros _; apply H; eauto | eauto]
         | split;
           [ intros [? Hx]; destruct c;
             [| rewrite execFrom_bol in Hx by discriminate]; discriminate
           | intros Hr; apply H in Hr as [? [=]] ] ] ]
  end.
  cbn [rmatch atBol seen].
  match goal with
  | |- context [rmatch noFlags (lits a) ?k ?st] =>
      change (rmatch noFlags (lits a) k st)
        with (rmatch noFlags (lits a)
                (rmatch noFlags (Lit x)
                   (rmatch noFlags (Star false (Class (fun _ => true)))
                      (fun st' =>
                         rmatch noFlags (Group 2 (lits b)) Some
                           (MState (seen st') (rest st')
                              ((1, take (length c - length (rest st')) c)
                                 :: caps st'))))) st)
  end.
  rewrite rmatch_lits_snoc, rmatch_lits by reflexivity.
  cbn [rest seen caps].
  destruct (startsWith (a ++ [x]) c);
    [| split; [intros [? [=]] | intros [H0 _]; discriminate]].
  rewrite includes_true. cbn [rmatch rest].
  rewrite (starLoop_lazy_any noFlags (startsWith b)).
  - tauto.
  - intros st. rewrite rmatch_lits by reflexivity. cbn [rest].
    destruct (startsWith b (rest st)); split; eauto;
      [intros [? [=]] | discriminate].
Qed.

Lemma frontmatter_matches (c : jsstring) :
  is_Some (exec noFlags Capture.frontmatterPattern c)
  <-> hasFrontmatter c = true.
Proof.
  unfold hasFrontmatter. rewrite andb_true_iff.
  exact (exec_fence (str "---") (str "---") c 10%N).
Qed.

Lemma starLoop_lazy_any_sound (fl : flags) k :
  forall rs sn cs r,
    starLoop (rmatch fl (Class (fun _ => true))) false k (length rs)
      (MState sn rs cs) = Some r ->
    exists a b, rs = a ++ b /\ k (MState (rev a ++ sn) b cs) = Some r.
Proof.
  induction rs as [|x rs IH]; intros sn cs r.
  - simpl. intros H. exists [], []. auto.
  - change (length (x :: rs)) with (S (length rs)).
    rewrite starLoop_lazy, rmatch_any. cbn [rest].
    replace (length rs <? length (x :: rs)) with true
      by (symmetry; apply Nat.ltb_lt; cbn; lia).
    destruct (k (MState sn (x :: rs) cs)) as [r'|] eqn:Hk; cbn [orElse].
    + intros [= <-]. exists [], (x :: rs). auto.
    + intros H. apply IH in H as (a & b & -> & Hb).
      exists (x :: a), b. split; [reflexivity |].
      cbn [rev]. rewrite <- app_assoc. exact Hb.
Qed.

(** What a match of the fence pattern captures. *)
Lemma exec_fence_sound (a b c : jsstring) (x : char) (m : mresult) :
  exec noFlags
    (Seq Bol
       (Seq (Group 1 (Seq (lits a)
                        (Seq (Lit x) (Star false (Class (fun _ => true))))))
          (Group 2 (lits b)))) c = Some m ->
  exists skipped post,
    c = ((a ++ [x]) ++ skipped) ++ b ++ post /\
    index m = 0 /\
    matched m = ((a ++ [x]) ++ skipped) ++ b /\
    group m 1 = (a ++ [x]) ++ skipped /\
    group m 2 = b.
Proof.
  unfold exec. rewrite execFrom_unfold.
  destruct (rmatch _ _ _ _) as [st|] eqn:Hm;
    [| destruct c; [| rewrite execFrom_bol by discriminate]; discriminate].
  intros [= <-]. cbn [rmatch atBol seen] in Hm.
  match type of Hm with
  | context [rmatch noFlags (lits a) ?k ?st] =>
      change (rmatch noFlags (lits a) k st)
        with (rmatch noFlags (lits a)
                (rmatch noFlags (Lit x)
                   (rmatch noFlags (Star false (Class (fun _ => true)))
                      (fun st' =>
                         rmatch noFlags (Group 2 (lits b)) Some
                           (MState (seen st') (rest st')
                              ((1, take (length c - length (rest st')) c)
                                 :: caps st'))))) st) in Hm
  end.
  rewrite rmatch_lits_snoc, rmatch_lits in Hm by reflexivity.
  cbn [rest seen caps] in Hm.
  destruct (startsWith (a ++ [x]) c) eqn:Hsw; [| discriminate].
  apply startsWith_inv in Hsw.
  remember (drop (length (a ++ [x])) c) as tl eqn:E. clear E.
  cbn [rmatch rest] in Hm.
  apply (starLoop_lazy_any_sound noFlags) in Hm
    as (skipped & tl' & -> & Hk).
  rewrite rmatch_lits in Hk by reflexivity. cbn [rest seen caps] in Hk.
  destruct (startsWith b tl') eqn:Hb; [| discriminate].
  apply startsWith_inv in Hb.
  remember (drop (length b) tl') as post eqn:E. clear E.
  injection Hk as <-. subst tl' c.
  exists skipped, post. cbn [index matched groups rest caps group capture].
  rewrite <- !app_assoc.
  split; [reflexivity |]. split; [reflexivity |].
  rewrite !length_app. cbn [length].
  split; [| split]; cbn [Nat.eqb default].
  - rewrite !app_assoc.
    rewrite <- (app_assoc _ b post).
    rewrite <- !app_assoc. rewrite !app_assoc.
    apply take_app_length'. rewrite !length_app. cbn [length]. lia.
  - rewrite !app_assoc.
    rewrite <- (app_assoc _ b post).
    apply take_app_length'. rewrite !length_app. cbn [length]. lia.
  - apply take_app_length'. lia.
Qed.

(** *** The header insertions of [updateTaskMeta] *)

Lemma startsWith_app_l (p a b : jsstring) :
  startsWith p a = true -> startsWith p (a ++ b) = true.
Proof.
  revert a. induction p as [|x p IH]; intros [|y a]; simpl; try discriminate;
    [reflexivity | reflexivity |].
  rewrite !andb_true_iff. intros [-> H]. auto.
Qed.

Lemma includes_app_l (p a b : jsstring) :
  includes p a = true -> includes p (a ++ b) = true.
Proof.
  rewrite !includes_true. intros (x & y & -> & Hy).
  exists x, (y ++ b). rewrite <- app_assoc. auto using startsWith_app_l.
Qed.

Lemma insertHeader_no_frontmatter (key : string) (v c : jsstring) :
  hasFrontmatter c = false -> insertHeader key v c = c.
Proof.
  intros H. unfold insertHeader, replace.
  destruct (exec _ _ _) as [m|] eqn:E; [| reflexivity].
  assert (Hs : hasFrontmatter c = true)
    by (apply frontmatter_matches; rewrite E; eauto).
  congruence.
Qed.

(** The replacement text starts with the first group and the key. *)
Lemma headerTemplate_completedAt m input v :
  getSubstitution 2 m input (Capture.headerTemplate "completedAt" v)
  = group m 1 ++ str "completedAt:"
      ++ str " " ++ Capture.quote
      ++ getSubstitution 2 m input (v ++ Capture.quote ++ nl ++ str "$2").
Proof. reflexivity. Qed.

Lemma headerTemplate_summary m input v :
  getSubstitution 2 m input (Capture.headerTemplate "summary" v)
  = group m 1 ++ str "summary:"
      ++ str " " ++ Capture.quote
      ++ getSubstitution 2 m input (v ++ Capture.quote ++ nl ++ str "$2").
Proof. reflexivity. Qed.

Lemma insertHeader_completedAt (v c : jsstring) :
  hasFrontmatter c = true ->
  includes (str "completedAt:") (insertHeader "completedAt" v c) = true.
Proof.
  intros H. apply frontmatter_matches in H as [m Hm].
  unfold insertHeader, replace. rewrite Hm, headerTemplate_completedAt.
  apply includes_prefix. rewrite <- !app_assoc. apply includes_here.
Qed.

Lemma insertHeader_summary (v c : jsstring) :
  hasFrontmatter c = true ->
  includes (str "summary:") (insertHeader "summary" v c) = true.
Proof.
  intros H. apply frontmatter_matches in H as [m Hm].
  unfold insertHeader, replace. rewrite Hm, headerTemplate_summary.
  apply includes_prefix. rewrite <- !app_assoc. apply includes_here.
Qed.

(** An insertion keeps every occurrence of a needle without a hyphen. *)
Lemma insertHeader_preserves (key : string) (n v c : jsstring) :
  (key = "completedAt" \/ key = "summary")%string ->
  existsb (char_eqb 45) n = false ->
  includes n c = true ->
  includes n (insertHeader key v c) = true.
Proof.
  intros Hkey Hn Hc. unfold insertHeader, replace.
  destruct (exec _ _ _) as [m|] eqn:Hm; [| exact Hc].
  apply (exec_fence_sound (str "---") (str "---") c 10%N) in Hm
    as (skipped & post & E & Hi & Hmt & Hg1 & _).
  rewrite Hi, Hmt, take_0. cbn [Nat.add app].
  assert (Hsub : exists X,
    getSubstitution 2 m c (Capture.headerTemplate key v) = group m 1 ++ X)
    by (destruct Hkey as [-> | ->];
        [rewrite headerTemplate_completedAt | rewrite headerTemplate_summary];
        eauto).
  destruct Hsub as [X ->]. rewrite Hg1.
  replace (drop _ c) with post
    by (rewrite E, (app_assoc _ (str "---") post), drop_app_length;
        reflexivity).
  rewrite E in Hc.
  change (str "---" ++ post) with (45%N :: 45%N :: 45%N :: post) in Hc.
  rewrite includes_sep in Hc by exact Hn.
  apply orb_true_iff in Hc as [Hc | Hc].
  { rewrite <- app_assoc. apply includes_app_l, Hc. }
  rewrite !(includes_sep_head n _ 45 Hn) in Hc.
  rewrite orb_assoc, orb_diag in Hc.
  apply orb_true_iff in Hc as [Hc | Hc].
  - destruct n; [| discriminate]. destruct (_ ++ _); reflexivity.
  - apply includes_prefix, Hc.
Qed.

Lemma hasFrontmatter_flipStatus (c : jsstring) :
  hasFrontmatter (flipStatus c) = hasFrontmatter c.
Proof.
  destruct (flipStatus_cases c) as [-> | (pre & post & -> & -> & Hl & Hr)];
    [reflexivity |].
  unfold hasFrontmatter. change (str "---" ++ nl) with [45; 45; 45; 10]%N.
  destruct pre as [|a [|b [|d [|e pre]]]].
  - reflexivity.
  - simpl. reflexivity.
  - simpl. reflexivity.
  - simpl. reflexivity.
  - change (drop 4 ((a :: b :: d :: e :: pre) ++ ?x)) with (pre ++ x).
    f_equal.
    apply includes_between; try exact Hr; try reflexivity.
    + apply no_terminator. reflexivity.
    + unfold atLineStart in *. simpl in Hl. destruct pre as [|z pre _] using rev_ind;
        [exact I |].
      rewrite rev_app_distr in *. simpl in *. exact Hl.
Qed.

Lemma includes_completedAt_flipStatus (c : jsstring) :
  includes (str "completedAt:") (flipStatus c)
  = includes (str "completedAt:") c.
Proof.
  apply includes_flipStatus; try reflexivity. apply no_terminator. reflexivity.
Qed.

Lemma includes_summary_flipStatus (c : jsstring) :
  includes (str "summary:") (flipStatus c) = includes (str "summary:") c.
Proof.
  apply includes_flipStatus; try reflexivity. apply no_terminator. reflexivity.
Qed.

(** After the first insertion the key is present, or there is no
    frontmatter and the text is unchanged. *)
Lemma completedAt_step (t c1 : jsstring) :
  let c2 := if negb (includes (str "completedAt:") c1)
            then insertHeader "completedAt" t c1 else c1 in
  includes (str "completedAt:") c2 = true
  \/ (hasFrontmatter c2 = false /\ c2 = c1).
Proof.
  cbv zeta. destruct (includes (str "completedAt:") c1) eqn:E1; cbn [negb].
  - left. exact E1.
  - destruct (hasFrontmatter c1) eqn:F1.
    + left. apply insertHeader_completedAt, F1.
    + right. rewrite insertHeader_no_frontmatter by exact F1. auto.
Qed.

Lemma summary_step (summ esc c2 : jsstring) :
  let c3 := if truthy summ && negb (includes (str "summary:") c2)
            then insertHeader "summary" esc c2 else c2 in
  (includes (str "completedAt:") c2 = true ->
   includes (str "completedAt:") c3 = true) /\
  (hasFrontmatter c2 = false -> c3 = c2) /\
  (truthy summ = false \/ includes (str "summary:") c3 = true
   \/ hasFrontmatter c3 = false).
Proof.
  cbv zeta. destruct (truthy summ); cbn [andb]; [| auto].
  destruct (includes (str "summary:") c2) eqn:E2; cbn [negb]; [auto |].
  split; [| split].
  - intros H. apply insertHeader_preserves; auto.
  - apply insertHeader_no_frontmatter.
  - right. destruct (hasFrontmatter c2) eqn:F2.
    + left. apply insertHeader_summary, F2.
    + right. rewrite insertHeader_no_frontmatter; exact F2.
Qed.

(** With both keys present, or no frontmatter, the two insertions do
    nothing after the status replacement. *)
Lemma insertions_skipped (t summ esc c3 : jsstring) :
  includes (str "completedAt:") c3 = true \/ hasFrontmatter c3 = false ->
  truthy summ = false \/ includes (str "summary:") c3 = true
  \/ hasFrontmatter c3 = false ->
  (let c := flipStatus c3 in
   let c := if negb (includes (str "completedAt:") c)
            then insertHeader "completedAt" t c else c in
   if truthy summ && negb (includes (str "summary:") c)
   then insertHeader "summary" esc c else c) = flipStatus c3.
Proof.
  intros Ha Hs. cbv zeta.
  assert (H2 : (if negb (includes (str "completedAt:") (flipStatus c3))
                then insertHeader "completedAt" t (flipStatus c3)
                else flipStatus c3) = flipStatus c3).
  { rewrite includes_completedAt_flipStatus.
    destruct Ha as [-> | Ha]; [reflexivity |].
    destruct (negb _); [| reflexivity].
    apply insertHeader_no_frontmatter.
    rewrite hasFrontmatter_flipStatus. exact Ha. }
  rewrite H2, includes_summary_flipStatus.
  destruct Hs as [-> | [-> | Hs]];
    [reflexivity | rewrite andb_false_r; reflexivity |].
  destruct (_ && _); [| reflexivity].
  apply insertHeader_no_frontmatter.
  rewrite hasFrontmatter_flipStatus. exact Hs.
Qed.

(** A second application of the patch of [updateTaskMeta] inserts nothing:
    it is the status replacement alone. *)
Lemma patchThread_again (structured : Capture.StructuredResponse)
  (t1 t2 c : jsstring) :
  patchThread structured t2 (patchThread structured t1 c)
  = if Capture.truthyOpt
         (Capture.orStr (Capture.completed structured)
            (Capture.summary structured))
    then flipStatus (patchThread structured t1 c)
    else patchThread structured t1 c.
Proof.
  unfold patchThread.
  destruct (Capture.truthyOpt _); [| reflexivity]. cbv zeta.
  match goal with
  | |- context [take 200 ?x] => generalize (take 200 x); intros summ
  end.
  generalize (replaceAllChar 34 [92%N; 34%N] summ); intros esc.
  pose proof (completedAt_step t1 (flipStatus c)) as Ha2. cbv zeta in Ha2.
  revert Ha2.
  generalize (if negb (includes (str "completedAt:") (flipStatus c))
              then insertHeader "completedAt" t1 (flipStatus c)
              else flipStatus c); intros c2 Ha2.
  pose proof (summary_step summ esc c2) as (Hb1 & Hb2 & Hb3).
  cbv zeta in Hb1, Hb2, Hb3. revert Hb1 Hb2 Hb3.
  generalize (if truthy summ && negb (includes (str "summary:") c2)
              then insertHeader "summary" esc c2 else c2);
    intros c3 Hb1 Hb2 Hb3.
  apply (insertions_skipped t2 summ esc c3); [| exact Hb3].
  destruct Ha2 as [H | [H _]]; [left; auto |].
  right. rewrite (Hb2 H). exact H.
Qed.

(** *** Texts as a file holds them *)















(** ** The task state updater *)

Lemma getProp_setProp_eq k v props : getProp k (setProp k v props) = Some v.
Proof.
  induction props as [|[k' v'] props IH]; simpl.
  - rewrite jsstring_eqb_refl. reflexivity.
  - destruct (jsstring_eqb k k') eqn:E; simpl; rewrite ?jsstring_eqb_refl, ?E;
      auto.
Qed.

Lemma getProp_setProp_ne k k' v props :
  k <> k' -> getProp k' (setProp k v props) = getProp k' props.
Proof.
  intros Hne. induction props as [|[k0 v0] props IH]; simpl.
  - rewrite jsstring_eqb_neq by congruence. reflexivity.
  - destruct (jsstring_eqb k k0) eqn:E; simpl.
    + apply jsstring_eqb_eq in E as <-.
      rewrite !jsstring_eqb_neq by congruence. reflexivity.
    + destruct (jsstring_eqb k' k0); auto.
Qed.

Lemma numberEq_ofN (a b : N) : numberEq (ofN a) (ofN b) = N.eqb a b.
Proof.
  unfold numberEq, ofN. destruct (N.eqb_spec a b) as [-> | Hne].
  - apply Qeq_bool_iff. reflexivity.
  - apply not_true_iff_false. rewrite Qeq_bool_iff. unfold Qeq. simpl. lia.
Qed.

Lemma numberEq_refl (a : number) : numberEq a a = true.
Proof. destruct a; try reflexivity. apply Qeq_bool_iff. reflexivity. Qed.

Lemma numStrictEq_num (a b : N) :
  numStrictEq (Some (num a)) (Some (num b)) = N.eqb a b.
Proof. apply numberEq_ofN. Qed.

(** Up to 2^53 an integer is a double. *)
Lemma roundToDouble_exact (n : N) :
  (n <= 2 ^ 53)%N -> roundToDouble n = ofN n.
Proof.
  intros Hn. apply N.lt_eq_cases in Hn as [Hn | ->]; [| reflexivity].
  unfold roundToDouble.
  destruct (N.leb_spec (N.size n) 53) as [_ | Hs]; [reflexivity |].
  exfalso. destruct (N.eq_dec n 0%N) as [-> | Hz]; [simpl in Hs; lia |].
  pose proof (N.size_le n) as Hle.
  assert (H54 : (2 ^ 54 <= 2 ^ N.size n)%N)
    by (apply N.pow_le_mono_r; lia).
  change (2 ^ 54)%N with (2 * 2 ^ 53)%N in H54. lia.
Qed.

Lemma parseInt_exact (digits : jsstring) :
  readExactly digits -> parseInt digits = ofN (digitsValue digits).
Proof. apply roundToDouble_exact. Qed.

Lemma getProp_stringified k (props : list (jsstring * json)) :
  getProp k (map (fun kv => (fst kv, stringified (snd kv))) props)
  = stringified <$> getProp k props.
Proof.
  induction props as [|[k' v] props IH]; [reflexivity |]. cbn [map getProp fst snd].
  destruct (jsstring_eqb k k'); [reflexivity | exact IH].
Qed.

Lemma prop_stringified k (doc : json) :
  Capture.prop k (stringified doc) = stringified <$> Capture.prop k doc.
Proof.
  destruct doc as [| b | [q| |] | s | items | props]; try reflexivity.
  apply getProp_stringified.
Qed.


Ltac keys_ne :=
  let H := fresh in intros H; vm_compute in H; discriminate H.

Ltac props_simpl :=
  repeat first
    [ rewrite getProp_setProp_eq
    | rewrite getProp_setProp_ne by keys_ne
    | rewrite getProp_setProp_ne by congruence ].



Lemma patchProps_satisfaction (text ts : jsstring)
  (props : list (jsstring * json)) :
  getProp (str "satisfaction") (patchProps text ts props)
  = match Capture.extractISCSatisfaction text with
    | Some sat => Some sat
    | None => getProp (str "satisfaction") props
    end.
Proof.
  unfold patchProps.
  destruct (Capture.extractEffortLevel text),
    (Capture.extractISCSatisfaction text),
    (includes Capture.COMPLETION_MARKER text);
    props_simpl; reflexivity.
Qed.

Lemma patchProps_status (text ts : jsstring) (props : list (jsstring * json)) :
  getProp (str "status") (patchProps text ts props)
  = if includes Capture.COMPLETION_MARKER text
    then Some (JStr (str "COMPLETE"))
    else match Capture.extractISCSatisfaction text with
         | Some sat =>
             Some (JStr (if numStrictEq (Capture.prop (str "satisfied") sat)
                              (Capture.prop (str "total") sat)
                         then str "COMPLETE" else str "PARTIAL"))
         | None => getProp (str "status") props
         end.
Proof.
  unfold patchProps.
  destruct (Capture.extractEffortLevel text),
    (Capture.extractISCSatisfaction text),
    (includes Capture.COMPLETION_MARKER text);
    props_simpl; reflexivity.
Qed.

Lemma patchProps_updatedAt (text ts : jsstring)
  (props : list (jsstring * json)) :
  getProp (str "updatedAt") (patchProps text ts props) = Some (JStr ts).
Proof. unfold patchProps. apply getProp_setProp_eq. Qed.

(** Patching again gives the same satisfaction and the same status. *)
Lemma patchProps_again (text t1 t2 : jsstring)
  (props : list (jsstring * json)) :
  getProp (str "satisfaction") (patchProps text t2 (patchProps text t1 props))
  = getProp (str "satisfaction") (patchProps text t1 props) /\
  getProp (str "status") (patchProps text t2 (patchProps text t1 props))
  = getProp (str "status") (patchProps text t1 props).
Proof.
  rewrite !patchProps_satisfaction, !patchProps_status.
  destruct (Capture.extractISCSatisfaction text),
    (includes Capture.COMPLETION_MARKER text); auto.
Qed.

Section CaptureProperties.

Import Capture.

Variable join : list jsstring -> jsstring.
Variable WORK_DIR : jsstring.
Variable LEARNING_DIR : jsstring.
Variable getLearningCategory : jsstring -> option jsstring -> jsstring.
Variable isLearningCapture :
  jsstring -> option jsstring -> option jsstring -> bool.
Variable toISOString : N -> jsstring.
Variable pstTimestamp : N -> jsstring.
Variable yearMonth : N -> jsstring.
Variable numberToString : Q -> jsstring.

(** The two updaters on a session directory and a task that are strings. *)
Local Abbreviation updateISC sessionDir currentTask :=
  (updateTaskISC join WORK_DIR toISOString (JStr sessionDir) (JStr currentTask)).
Local Abbreviation updateMeta sessionDir currentTask :=
  (updateTaskMeta join WORK_DIR toISOString (JStr sessionDir)
     (JStr currentTask)).
Local Abbreviation taskPath sessionDir currentTask :=
  (join [WORK_DIR; sessionDir; str "tasks"; currentTask]).
Local Abbreviation iscPath sessionDir currentTask :=
  (join [taskPath sessionDir currentTask; str "ISC.json"]).
Local Abbreviation threadPath sessionDir currentTask :=
  (join [taskPath sessionDir currentTask; str "THREAD.md"]).

(** What [updateTaskISC] does, by the content of the ISC document. *)
Lemma updateTaskISC_cases (sessionDir currentTask text : jsstring) (w : world) :
  let p := iscPath sessionDir currentTask in
  let w' := snd (updateISC sessionDir currentTask text w) in
  fst (updateISC sessionDir currentTask text w) = Ok tt /\
  md_files w' = md_files w /\ time w' = time w /\
  match isc_files w !! p with
  | Some (Parsed (JObj props)) =>
      isc_files w'
        = <[p := Parsed (stringified
                           (JObj (patchProps text (toISOString (time w))
                                    props)))]>
            (isc_files w) /\
      journal w' = journal w ++ [Wrote p]
  | Some (Parsed (JArr items)) =>
      isc_files w' = <[p := Parsed (stringified (JArr items))]> (isc_files w) /\
      journal w' = journal w ++ [Wrote p]
  | _ => isc_files w' = isc_files w /\ journal w' = journal w
  end.
Proof.
  cbv zeta.
  change (wp (updateISC sessionDir currentTask text)
            (fun o w' =>
               o = Ok tt /\ md_files w' = md_files w /\ time w' = time w /\
               match isc_files w !! iscPath sessionDir currentTask with
               | Some (Parsed (JObj props)) =>
                   isc_files w'
                     = <[iscPath sessionDir currentTask :=
                           Parsed (stringified
                                     (JObj (patchProps text
                                              (toISOString (time w)) props)))]>
                         (isc_files w) /\
                   journal w' = journal w ++ [Wrote (iscPath sessionDir currentTask)]
               | Some (Parsed (JArr items)) =>
                   isc_files w'
                     = <[iscPath sessionDir currentTask :=
                           Parsed (stringified (JArr items))]>
                         (isc_files w) /\
                   journal w' = journal w ++ [Wrote (iscPath sessionDir currentTask)]
               | _ => isc_files w' = isc_files w /\ journal w' = journal w
               end) w).
  unfold updateTaskISC, patchProps, pathJoin. cbn [strings]. wp_go.
  destruct (isc_files w !! _) as [[raw|doc]|] eqn:E.
  - rewrite bool_decide_eq_true_2 by eauto. cbn [negb]. wp_go. rewrite E.
    wp_go. auto.
  - rewrite bool_decide_eq_true_2 by eauto. cbn [negb]. wp_go. rewrite E.
    unfold getISOTimestamp. wp_go.
    destruct doc as [| b | x | s | items | props];
      destruct (extractEffortLevel text);
      destruct (extractISCSatisfaction text);
      destruct (includes COMPLETION_MARKER text);
      unfold assign; wp_go; auto.
  - rewrite bool_decide_eq_false_2 by (apply is_Some_None). cbn [negb].
    wp_go. auto.
Qed.

(** What [updateTaskMeta] does, by the presence of the thread document. *)
Lemma updateTaskMeta_cases (sessionDir currentTask : jsstring)
  (structured : StructuredResponse) (w : world) :
  let p := threadPath sessionDir currentTask in
  let w' := snd (updateMeta sessionDir currentTask structured w) in
  fst (updateMeta sessionDir currentTask structured w) = Ok tt /\
  isc_files w' = isc_files w /\ time w' = time w /\
  match md_files w !! p with
  | Some c =>
      md_files w'
        = <[p := toWellFormed (patchThread structured (toISOString (time w)) c)]>
            (md_files w) /\
      journal w' = journal w ++ [Wrote p]
  | None => md_files w' = md_files w /\ journal w' = journal w
  end.
Proof.
  cbv zeta.
  change (wp (updateMeta sessionDir currentTask structured)
            (fun o w' =>
               o = Ok tt /\ isc_files w' = isc_files w /\ time w' = time w /\
               match md_files w !! threadPath sessionDir currentTask with
               | Some c =>
                   md_files w'
                     = <[threadPath sessionDir currentTask :=
                           toWellFormed
                             (patchThread structured (toISOString (time w)) c)]>
                         (md_files w) /\
                   journal w'
                     = journal w ++ [Wrote (threadPath sessionDir currentTask)]
               | None => md_files w' = md_files w /\ journal w' = journal w
               end) w).
  unfold updateTaskMeta, pathJoin. cbn [strings]. wp_go.
  destruct (md_files w !! _) as [c|] eqn:E.
  - rewrite bool_decide_eq_true_2 by eauto. cbn [negb]. wp_go. rewrite E.
    unfold getISOTimestamp. wp_go. auto.
  - rewrite bool_decide_eq_false_2 by (apply is_Some_None). cbn [negb].
    wp_go. auto.
Qed.

(** C4, as the updater has it: on an ISC document that parses to an
    object, the first phrasing gives satisfied = total = N with partial and
    failed 0; the second phrasing gives satisfied = A and total = B when
    the first phrasing does not match as well; with neither, satisfaction
    is what the rewrite leaves of the old one.  N, A and B are the numbers
    [parseInt] reads: the digits' value up to 2^53, the nearest double
    beyond, and the file holds [null] for a count that is infinite.  The
    status is COMPLETE when the text has the completion marker, whatever
    the counts; otherwise COMPLETE when satisfied equals total as numbers
    and PARTIAL when not, and untouched without satisfaction data. *)
Theorem isc_postcondition
  (sessionDir currentTask text : jsstring) (w : world)
  (props : list (jsstring * json)) :
  isc_files w !! iscPath sessionDir currentTask = Some (Parsed (JObj props)) ->
  exists props',
    isc_files (snd (updateISC sessionDir currentTask text w))
      !! iscPath sessionDir currentTask = Some (Parsed (JObj props')) /\
    (forall m, exec flag_i allSatisfiedPattern text = Some m ->
       getProp (str "satisfaction") props'
       = Some (stringified
                 (JObj [ (str "satisfied", JNum (parseInt (group m 1)));
                         (str "partial", num 0); (str "failed", num 0);
                         (str "total", JNum (parseInt (group m 1))) ])) /\
       (readExactly (group m 1) ->
        getProp (str "satisfaction") props'
        = Some (JObj [ (str "satisfied", num (digitsValue (group m 1)));
                       (str "partial", num 0); (str "failed", num 0);
                       (str "total", num (digitsValue (group m 1))) ]))) /\
    (exec flag_i allSatisfiedPattern text = None ->
     forall m, exec flag_i partialPattern text = Some m ->
       getProp (str "satisfaction") props'
       = Some (stringified
                 (JObj [ (str "satisfied", JNum (parseInt (group m 1)));
                         (str "total", JNum (parseInt (group m 2)));
                         (str "partial", num 0); (str "failed", num 0) ])) /\
       (readExactly (group m 1) -> readExactly (group m 2) ->
        getProp (str "satisfaction") props'
        = Some (JObj [ (str "satisfied", num (digitsValue (group m 1)));
                       (str "total", num (digitsValue (group m 2)));
                       (str "partial", num 0); (str "failed", num 0) ]))) /\
    (exec flag_i allSatisfiedPattern text = None ->
     exec flag_i partialPattern text = None ->
     getProp (str "satisfaction") props'
     = stringified <$> getProp (str "satisfaction") props) /\
    (includes COMPLETION_MARKER text = true ->
     getProp (str "status") props' = Some (JStr (str "COMPLETE"))) /\
    (includes COMPLETION_MARKER text = false ->
     (forall m, exec flag_i allSatisfiedPattern text = Some m ->
        getProp (str "status") props' = Some (JStr (str "COMPLETE"))) /\
     (exec flag_i allSatisfiedPattern text = None ->
      forall m, exec flag_i partialPattern text = Some m ->
        getProp (str "status") props'
        = Some (JStr (if numberEq (parseInt (group m 1)) (parseInt (group m 2))
                      then str "COMPLETE" else str "PARTIAL")) /\
        (readExactly (group m 1) -> readExactly (group m 2) ->
         getProp (str "status") props'
         = Some (JStr (if N.eqb (digitsValue (group m 1))
                                (digitsValue (group m 2))
                       then str "COMPLETE" else str "PARTIAL")))) /\
     (exec flag_i allSatisfiedPattern text = None ->
      exec flag_i partialPattern text = None ->
      getProp (str "status") props'
      = stringified <$> getProp (str "status") props)).
Proof.
  intros Hdoc.
  pose proof (updateTaskISC_cases sessionDir currentTask text w)
    as (_ & _ & _ & H).
  cbv zeta in H. rewrite Hdoc in H. destruct H as [Hisc _].
  eexists.
  split; [rewrite Hisc; apply lookup_insert_eq |].
  rewrite !getProp_stringified, patchProps_satisfaction, patchProps_status.
  unfold extractISCSatisfaction.
  split; [| split; [| split; [| split; [| intros Hmark; split; [| split]]]]].
  - intros m ->. split; [reflexivity |]. intros Hx.
    rewrite (parseInt_exact _ Hx). reflexivity.
  - intros -> m ->. split; [reflexivity |]. intros H1 H2.
    rewrite (parseInt_exact _ H1), (parseInt_exact _ H2). reflexivity.
  - intros -> ->. reflexivity.
  - intros ->. reflexivity.
  - intros m ->. rewrite Hmark. unfold prop. cbn [getProp].
    rewrite jsstring_eqb_refl.
    change (jsstring_eqb (str "total") (str "satisfied")) with false.
    change (jsstring_eqb (str "total") (str "partial")) with false.
    change (jsstring_eqb (str "total") (str "failed")) with false.
    rewrite jsstring_eqb_refl. cbn [numStrictEq].
    rewrite numberEq_refl. reflexivity.
  - intros -> m ->. rewrite Hmark. unfold prop. cbn [getProp].
    rewrite jsstring_eqb_refl.
    change (jsstring_eqb (str "total") (str "satisfied")) with false.
    rewrite jsstring_eqb_refl. cbn [numStrictEq].
    split; [destruct (numberEq _ _); reflexivity |]. intros H1 H2.
    rewrite (parseInt_exact _ H1), (parseInt_exact _ H2), numberEq_ofN.
    destruct (N.eqb _ _); reflexivity.
  - intros -> ->. rewrite Hmark. reflexivity.
Qed.


(** C10: what a run does to an ISC document that exists and parses.  When
    it parses to an object, the run rewrites the file and sets updatedAt to
    the current time, also when the text has no level token, no
    satisfaction phrasing and no completion marker; the document is then
    the old one with the new updatedAt, as [JSON.stringify] prints it.
    When it parses to an array, the file is rewritten without an updatedAt.
    When it parses to [null] or to a primitive, nothing is written. *)
Theorem isc_always_rewritten
  (sessionDir currentTask text : jsstring) (w : world) (doc : json) :
  isc_files w !! iscPath sessionDir currentTask = Some (Parsed doc) ->
  match doc with
  | JObj props =>
      journal (snd (updateISC sessionDir currentTask text w))
        = journal w ++ [Wrote (iscPath sessionDir currentTask)] /\
      exists props',
        isc_files (snd (updateISC sessionDir currentTask text w))
          !! iscPath sessionDir currentTask = Some (Parsed (JObj props')) /\
        getProp (str "updatedAt") props' = Some (JStr (toISOString (time w))) /\
        (extractEffortLevel text = None ->
         extractISCSatisfaction text = None ->
         includes COMPLETION_MARKER text = false ->
         JObj props'
         = stringified
             (JObj (setProp (str "updatedAt") (JStr (toISOString (time w)))
                      props)))
  | JArr items =>
      journal (snd (updateISC sessionDir currentTask text w))
        = journal w ++ [Wrote (iscPath sessionDir currentTask)] /\
      isc_files (snd (updateISC sessionDir currentTask text w))
        !! iscPath sessionDir currentTask
      = Some (Parsed (stringified (JArr items)))
  | _ =>
      journal (snd (updateISC sessionDir currentTask text w)) = journal w /\
      isc_files (snd (updateISC sessionDir currentTask text w)) = isc_files w
  end.
Proof.
  intros Hdoc.
  pose proof (updateTaskISC_cases sessionDir currentTask text w)
    as (_ & _ & _ & H).
  cbv zeta in H. rewrite Hdoc in H.
  destruct doc as [| b | x | s | items | props]; try (split; apply H).
  - destruct H as [Hisc Hj]. split; [exact Hj |].
    rewrite Hisc. apply lookup_insert_eq.
  - destruct H as [Hisc Hj]. split; [exact Hj |].
    eexists. split; [rewrite Hisc; apply lookup_insert_eq |].
    split.
    + rewrite getProp_stringified, patchProps_updatedAt. reflexivity.
    + intros He Hs Hm. unfold patchProps. rewrite He, Hs, Hm. reflexivity.
Qed.

Lemma updateTaskISC_missing (sessionDir currentTask text : jsstring) (w : world) :
  isc_files w !! iscPath sessionDir currentTask = None ->
  updateISC sessionDir currentTask text w
  = (Ok tt,
     with_log (log w ++ [(Warn, str "[ISC] Task ISC.json not found: "
                                  ++ iscPath sessionDir currentTask)]) w).
Proof.
  intros E. unfold updateTaskISC, pathJoin, bind, existsISC, get.
  cbn [strings ret].
  rewrite bool_decide_eq_false_2 by (rewrite E; apply is_Some_None).
  reflexivity.
Qed.

Lemma updateTaskISC_malformed (sessionDir currentTask text raw : jsstring)
  (w : world) :
  isc_files w !! iscPath sessionDir currentTask = Some (Malformed raw) ->
  updateISC sessionDir currentTask text w
  = (Ok tt,
     with_log (log w ++ [(Error, str "[ISC] Error updating task ISC")]) w).
Proof.
  intros E.
  unfold updateTaskISC, pathJoin, bind, existsISC, get, try_catch, readJSON.
  cbn [strings ret].
  rewrite bool_decide_eq_true_2 by (rewrite E; eauto). cbn [negb].
  rewrite E. reflexivity.
Qed.

Lemma updateTaskMeta_missing (sessionDir currentTask : jsstring)
  (structured : StructuredResponse) (w : world) :
  md_files w !! threadPath sessionDir currentTask = None ->
  updateMeta sessionDir currentTask structured w
  = (Ok tt,
     with_log (log w ++ [(Warn, str "[Capture] Task THREAD.md not found: "
                                  ++ threadPath sessionDir currentTask)]) w).
Proof.
  intros E. unfold updateTaskMeta, pathJoin, bind, existsMd, get.
  cbn [strings ret].
  rewrite bool_decide_eq_false_2 by (rewrite E; apply is_Some_None).
  reflexivity.
Qed.

(** The handler returns normally, whatever happens inside. *)
Lemma handleResponseCapture_returns (text sessionId : jsstring) (w : world) :
  fst (handleResponseCapture join WORK_DIR LEARNING_DIR getLearningCategory
         isLearningCapture toISOString pstTimestamp yearMonth numberToString
         text sessionId w)
  = Ok tt.
Proof.
  unfold handleResponseCapture, try_catch.
  match goal with |- context [match ?b w with _ => _ end] => destruct (b w) as [[[]|e] w'] end;
    reflexivity.
Qed.



End CaptureProperties.

(** C7: nothing in the task state updater fails the turn.  A missing ISC
    document and a missing thread document are logged and skipped; an ISC
    document with malformed JSON is logged as an error and left as it is
    (nothing but the log changes); and the two public handlers return
    normally for every input and every state of the world. *)
Theorem updater_failures_are_swallowed :
  (forall join WORK_DIR toISOString sessionDir currentTask text w,
      isc_files w
        !! join [join [WORK_DIR; sessionDir; str "tasks"; currentTask];
                 str "ISC.json"] = None ->
      Capture.updateTaskISC join WORK_DIR toISOString (JStr sessionDir)
        (JStr currentTask) text w
      = (Ok tt,
         with_log
           (log w ++
            [(Warn, str "[ISC] Task ISC.json not found: "
                      ++ join [join [WORK_DIR; sessionDir; str "tasks";
                                     currentTask]; str "ISC.json"])]) w)) /\
  (forall join WORK_DIR toISOString sessionDir currentTask structured w,
      md_files w
        !! join [join [WORK_DIR; sessionDir; str "tasks"; currentTask];
                 str "THREAD.md"] = None ->
      Capture.updateTaskMeta join WORK_DIR toISOString (JStr sessionDir)
        (JStr currentTask) structured w
      = (Ok tt,
         with_log
           (log w ++
            [(Warn, str "[Capture] Task THREAD.md not found: "
                      ++ join [join [WORK_DIR; sessionDir; str "tasks";
                                     currentTask]; str "THREAD.md"])]) w)) /\
  (forall join WORK_DIR toISOString sessionDir currentTask text raw w,
      isc_files w
        !! join [join [WORK_DIR; sessionDir; str "tasks"; currentTask];
                 str "ISC.json"] = Some (Malformed raw) ->
      Capture.updateTaskISC join WORK_DIR toISOString (JStr sessionDir)
        (JStr currentTask) text w
      = (Ok tt,
         with_log (log w ++ [(Error, str "[ISC] Error updating task ISC")])
           w)) /\
  (forall join WORK_DIR LEARNING_DIR getLearningCategory isLearningCapture
          toISOString pstTimestamp yearMonth numberToString text sessionId w,
      fst (Capture.handleResponseCapture join WORK_DIR LEARNING_DIR
             getLearningCategory isLearningCapture toISOString pstTimestamp
             yearMonth numberToString text sessionId w) = Ok tt) /\
  (forall inference SENTIMENT_SYSTEM_PROMPT join getLearningDir
          getLearningCategory getLearningCategoryUntyped toISOString yearMonth
          numberToString stringToNumber prompt sessionId transcriptPath w,
      exists v,
        fst (Sentiment.handleImplicitSentiment inference
               SENTIMENT_SYSTEM_PROMPT join getLearningDir getLearningCategory
               getLearningCategoryUntyped toISOString yearMonth numberToString
               stringToNumber prompt sessionId transcriptPath w) = Ok v).
Proof.
  split; [| split; [| split; [| split]]].
  - intros. apply updateTaskISC_missing. assumption.
  - intros. apply updateTaskMeta_missing. assumption.
  - intros. eapply updateTaskISC_malformed. eassumption.
  - intros. apply handleResponseCapture_returns.
  - intros. apply handleImplicitSentiment_returns.
Qed.

(** *** The task state updater on sample runs *)

(** A text that has both phrasings: the second one reads 2 of 5, and the
    document gets satisfied = total = 5 from the first. *)
Lemma both_phrasings_first_wins :
  (exists m,
      exec flag_i Capture.partialPattern SampleTask.bothPhrasings = Some m /\
      parseInt (group m 1) = ofN 2 /\ parseInt (group m 2) = ofN 5) /\
  (exists props',
      isc_files (snd (SampleTask.updateISC SampleTask.bothPhrasings
                        SampleTask.world0)) !! SampleTask.iscFile
        = Some (Parsed (JObj props')) /\
      getProp (str "satisfaction") props'
        = Some (JObj [ (str "satisfied", num 5); (str "partial", num 0);
                       (str "failed", num 0); (str "total", num 5) ])) /\
  JObj [ (str "satisfied", num 5); (str "partial", num 0);
         (str "failed", num 0); (str "total", num 5) ]
  <> JObj [ (str "satisfied", num 2); (str "total", num 5);
            (str "partial", num 0); (str "failed", num 0) ].
Proof.
  split; [| split].
  - eexists. split; [vm_compute; reflexivity |]. split; reflexivity.
  - eexists. split; [vm_compute; reflexivity |]. vm_compute. reflexivity.
  - intros H. vm_compute in H. discriminate H.
Qed.

(** Two counts that differ, too large to be told apart as numbers: both
    are read as 2^53, and the status is COMPLETE. *)
Lemma counts_beyond_doubles_are_rounded :
  (exists m,
      exec flag_i Capture.allSatisfiedPattern SampleTask.largeCounts = None /\
      exec flag_i Capture.partialPattern SampleTask.largeCounts = Some m /\
      digitsValue (group m 1) = 9007199254740993%N /\
      digitsValue (group m 2) = 9007199254740992%N) /\
  exists props',
    isc_files (snd (SampleTask.updateISC SampleTask.largeCounts
                      SampleTask.world0)) !! SampleTask.iscFile
      = Some (Parsed (JObj props')) /\
    getProp (str "satisfaction") props'
      = Some (JObj [ (str "satisfied", num 9007199254740992);
                     (str "total", num 9007199254740992);
                     (str "partial", num 0); (str "failed", num 0) ]) /\
    getProp (str "status") props' = Some (JStr (str "COMPLETE")).
Proof.
  split.
  - eexists. split; [vm_compute; reflexivity |].
    split; [vm_compute; reflexivity |]. split; reflexivity.
  - eexists. split; [vm_compute; reflexivity |].
    split; vm_compute; reflexivity.
Qed.

(** The scenario of the six criteria: satisfaction 6 of 6 and the status
    COMPLETE. *)
Lemma six_criteria_all_satisfied :
  isc_files SampleTask.world0 !! SampleTask.iscFile
    = Some (Parsed (JObj SampleTask.doc0)) /\
  exists props',
    isc_files (snd (SampleTask.updateISC SampleTask.allSatisfied
                      SampleTask.world0)) !! SampleTask.iscFile
      = Some (Parsed (JObj props')) /\
    getProp (str "satisfaction") props'
      = Some (JObj [ (str "satisfied", num 6); (str "partial", num 0);
                     (str "failed", num 0); (str "total", num 6) ]) /\
    getProp (str "status") props' = Some (JStr (str "COMPLETE")).
Proof.
  assert (H : isc_files SampleTask.world0 !! SampleTask.iscFile
              = Some (Parsed (JObj SampleTask.doc0)))
    by (vm_compute; reflexivity).
  split; [exact H |].
  destruct (isc_postcondition Sample.join (str "/work") Sample.toISOString
              (str "s") (str "t") SampleTask.allSatisfied SampleTask.world0
              SampleTask.doc0 H)
    as (props' & Hfile & Hall & _ & _ & _ & Hstatus).
  exists props'. split; [exact Hfile |].
  assert (Hm : exec flag_i Capture.allSatisfiedPattern SampleTask.allSatisfied
               = Some (MResult 6 (str "6 criteria, all satisfied")
                         [(1, str "6")]))
    by (vm_compute; reflexivity).
  split.
  - destruct (Hall _ Hm) as [_ Hexact]. apply Hexact.
    unfold readExactly. vm_compute. discriminate.
  - apply (proj1 (Hstatus eq_refl) _ Hm).
Defined.



Lemma rewritten_without_signal :
  isc_files SampleTask.world0 !! SampleTask.iscFile
    = Some (Parsed (JObj SampleTask.doc0)) /\
  journal (snd (SampleTask.updateISC SampleTask.noSignal SampleTask.world0))
    = [] ++ [Wrote SampleTask.iscFile] /\
  exists props',
    isc_files (snd (SampleTask.updateISC SampleTask.noSignal
                      SampleTask.world0)) !! SampleTask.iscFile
      = Some (Parsed (JObj props')) /\
    getProp (str "updatedAt") props' = Some (JStr (Sample.toISOString 0)) /\
    JObj props'
    = stringified
        (JObj (setProp (str "updatedAt") (JStr (Sample.toISOString 0))
                 SampleTask.doc0)).
Proof.
  assert (H : isc_files SampleTask.world0 !! SampleTask.iscFile
              = Some (Parsed (JObj SampleTask.doc0)))
    by (vm_compute; reflexivity).
  split; [exact H |].
  destruct (isc_always_rewritten Sample.join (str "/work") Sample.toISOString
              (str "s") (str "t") SampleTask.noSignal SampleTask.world0
              (JObj SampleTask.doc0) H)
    as (Hj & props' & Hfile & Hup & Hsame).
  split; [exact Hj |].
  exists props'. split; [exact Hfile |]. split; [exact Hup |].
  apply Hsame; vm_compute; reflexivity.
Defined.

(** An ISC file that holds [null] parses, and a run writes nothing; one
    that holds an empty array is rewritten as it is, without an
    updatedAt. *)
Lemma null_document_is_not_rewritten :
  (isc_files (SampleTask.worldWith JNull) !! SampleTask.iscFile
     = Some (Parsed JNull) /\
   journal (snd (SampleTask.updateISC SampleTask.allSatisfied
                   (SampleTask.worldWith JNull))) = [] /\
   isc_files (snd (SampleTask.updateISC SampleTask.allSatisfied
                     (SampleTask.worldWith JNull)))
     = isc_files (SampleTask.worldWith JNull)) /\
  (isc_files (SampleTask.worldWith (JArr [])) !! SampleTask.iscFile
     = Some (Parsed (JArr [])) /\
   journal (snd (SampleTask.updateISC SampleTask.allSatisfied
                   (SampleTask.worldWith (JArr []))))
     = [Wrote SampleTask.iscFile] /\
   isc_files (snd (SampleTask.updateISC SampleTask.allSatisfied
                     (SampleTask.worldWith (JArr [])))) !! SampleTask.iscFile
     = Some (Parsed (JArr [])) /\
   Capture.prop (str "updatedAt") (JArr []) = None).
Proof.
  split; repeat split; vm_compute; reflexivity.
Qed.

(** * The patterns, the guards and the other paths of the handlers *)

(** ** What the matcher finds *)

(** An alternative that succeeds does so by one of its branches. *)
Lemma orElse_Some {A} (a b : option A) (x : A) :
  orElse a b = Some x -> a = Some x \/ b = Some x.
Proof. destruct a; simpl; auto. Qed.

(** A step of the matcher consumes one accepted code unit. *)
Lemma step_sound (ok : char -> bool) k st res :
  step st ok k = Some res -> exists st', advance ok st st' /\ k st' = Some res.
Proof.
  unfold step, advance. destruct (rest st) as [|c r] eqn:E; [discriminate |].
  destruct (ok c) eqn:Hok; [| discriminate]. intros H.
  eexists. split; [| exact H]. eauto.
Qed.

(** The iterations of a quantified atom are a chain of its steps. *)
Lemma starLoop_sound (R : relation mstate) inner greedy :
  (forall k st res, inner k st = Some res ->
                    exists st', R st st' /\ k st' = Some res) ->
  forall fuel k st res,
    starLoop inner greedy k fuel st = Some res ->
    exists st', rtc R st st' /\ k st' = Some res.
Proof.
  intros Hin. induction fuel as [|fuel IH]; intros k st res; simpl.
  - intros H. exists st. split; [constructor | exact H].
  - intros H.
    assert (Hcases : k st = Some res \/
      inner (fun st' => if length (rest st') <? length (rest st)
                        then starLoop inner greedy k fuel st' else None) st
      = Some res)
      by (destruct greedy; apply orElse_Some in H; tauto).
    destruct Hcases as [H0 | H1].
    + exists st. split; [constructor | exact H0].
    + apply Hin in H1 as (st1 & HR & H1).
      destruct (_ <? _); [| discriminate].
      apply IH in H1 as (st' & Hrtc & Hk).
      exists st'. split; [econstructor; eauto | exact Hk].
Qed.

(** The matcher is sound: a result comes from a state that the pattern
    reaches. *)
Lemma rmatch_sound (fl : flags) (r : regex) :
  forall k st res,
    rmatch fl r k st = Some res ->
    exists st', denote fl r st st' /\ k st' = Some res.
Proof.
  induction r as [|c|p| |r1 IH1 r2 IH2|r1 IH1 r2 IH2|g r IH|i r IH| | |];
    intros k st res; cbn [rmatch denote].
  - eauto.
  - apply step_sound.
  - apply step_sound.
  - apply step_sound.
  - intros H. apply IH1 in H as (mid & H1 & H). apply IH2 in H as (st' & H2 & H).
    eauto.
  - intros H. apply orElse_Some in H as [H | H];
      [apply IH1 in H | apply IH2 in H]; destruct H as (st' & ? & ?); eauto.
  - apply starLoop_sound, IH.
  - intros H. apply IH in H as (st1 & H1 & H). eauto.
  - destruct (atBol fl st) eqn:E; [eauto | discriminate].
  - destruct (atEol fl st) eqn:E; [eauto | discriminate].
  - destruct (atWordBoundary st) eqn:E; [eauto | discriminate].
Qed.

(** What a pattern consumes is a prefix of the rest of the input. *)
Lemma advance_consumes ok st st' :
  advance ok st st' ->
  exists x, rest st = x ++ rest st' /\ seen st' = rev x ++ seen st.
Proof. intros (x & t & E & _ & ->). exists [x]. simpl. auto. Qed.

(** What a pattern consumes is moved from the rest of the input to the part
    already seen. *)
Lemma denote_consumes (fl : flags) (r : regex) :
  forall st st', denote fl r st st' ->
  exists x, rest st = x ++ rest st' /\ seen st' = rev x ++ seen st.
Proof.
  induction r as [|c|p| |r1 IH1 r2 IH2|r1 IH1 r2 IH2|g r IH|i r IH| | |];
    intros st st'; cbn [denote].
  - intros ->. exists []. auto.
  - apply advance_consumes.
  - apply advance_consumes.
  - apply advance_consumes.
  - intros (mid & H1 & H2). apply IH1 in H1 as (x & E1 & S1).
    apply IH2 in H2 as (y & E2 & S2). exists (x ++ y).
    rewrite E1, E2, S2, S1, rev_app_distr, <- !app_assoc. auto.
  - intros [H | H]; eauto.
  - induction 1 as [st|st mid st' H1 _ (y & E2 & S2)]; [exists []; auto |].
    apply IH in H1 as (x & E1 & S1). exists (x ++ y).
    rewrite E1, E2, S2, S1, rev_app_distr, <- !app_assoc. auto.
  - intros (st1 & H1 & ->). apply IH in H1. exact H1.
  - intros [_ ->]. exists []. auto.
  - intros [_ ->]. exists []. auto.
  - intros [_ ->]. exists []. auto.
Qed.

(** [exec] is sound: a match is a run of the matcher from some position. *)
Lemma execFrom_sound (fl : flags) (r : regex) :
  forall after before m,
    execFrom fl r before after = Some m ->
    exists pre post st',
      after = pre ++ post /\
      denote fl r (MState (rev pre ++ before) post []) st' /\
      index m = length before + length pre /\
      matched m = take (length post - length (rest st')) post /\
      groups m = caps st'.
Proof.
  induction after as [|c after IH]; intros before m; rewrite execFrom_unfold.
  - destruct (rmatch _ _ _ _) as [st|] eqn:E; [| discriminate].
    intros [= <-]. apply rmatch_sound in E as (st' & Hd & [= ->]).
    exists [], [], st. simpl. rewrite Nat.add_0_r. auto.
  - destruct (rmatch _ _ _ _) as [st|] eqn:E.
    + intros [= <-]. apply rmatch_sound in E as (st' & Hd & [= ->]).
      exists [], (c :: after), st. cbn [app rev length index matched groups].
      rewrite Nat.add_0_r. auto.
    + intros H. apply IH in H as (pre & post & st' & -> & Hd & Hi & Hm & Hg).
      exists (c :: pre), post, st'. cbn [rev app length] in *.
      rewrite <- app_assoc. cbn [app]. repeat split; auto. lia.
Qed.

(** A pattern without groups records no capture. *)
Lemma denote_groupFree (fl : flags) (r : regex) :
  groupFree r = true ->
  forall st st', denote fl r st st' -> caps st' = caps st.
Proof.
  induction r as [|c|p| |r1 IH1 r2 IH2|r1 IH1 r2 IH2|g r IH|i r IH| | |];
    cbn [groupFree denote]; intros Hg st st';
    try (apply andb_true_iff in Hg as [Hg1 Hg2]).
  - intros ->. reflexivity.
  - intros (x & t & _ & _ & ->). reflexivity.
  - intros (x & t & _ & _ & ->). reflexivity.
  - intros (x & t & _ & _ & ->). reflexivity.
  - intros (mid & H1 & H2). rewrite (IH2 Hg2 _ _ H2). eauto.
  - intros [H | H]; eauto.
  - induction 1 as [|st mid st' H1 _ IH']; [reflexivity |].
    rewrite IH'. eauto.
  - discriminate.
  - intros [_ ->]. reflexivity.
  - intros [_ ->]. reflexivity.
  - intros [_ ->]. reflexivity.
Qed.

(** What a capturing group records is what its pattern consumed. *)
Lemma denote_group (fl : flags) (i : nat) (r : regex) st st' :
  denote fl (Group i r) st st' ->
  exists x st1, denote fl r st st1 /\ rest st = x ++ rest st' /\
                rest st1 = rest st' /\
                seen st' = rev x ++ seen st /\
                caps st' = (i, x) :: caps st1.
Proof.
  cbn [denote]. intros (st1 & Hd & ->).
  destruct (denote_consumes fl r st st1 Hd) as (x & E & S).
  exists x, st1. cbn [rest seen caps]. rewrite E at 2 3.
  rewrite length_app, Nat.add_sub, take_app_length. auto 6.
Qed.

(** A literal text consumes as many code units, each matched by its
    literal. *)
Lemma denote_lits (fl : flags) (l : jsstring) :
  forall st st', denote fl (lits l) st st' ->
  exists x, rest st = x ++ rest st' /\
            Forall2 (fun c y => litMatches fl c y = true) l x /\
            seen st' = rev x ++ seen st /\ caps st' = caps st.
Proof.
  induction l as [|c l IH]; intros st st'; cbn [lits denote].
  - intros ->. exists []. auto.
  - intros (mid & (y & t & E & Hy & ->) & H2).
    apply IH in H2 as (x & E2 & HF & S2 & C2). cbn [rest seen caps] in *.
    exists (y :: x). rewrite E, E2, S2, C2. cbn [rev app].
    rewrite <- app_assoc. auto.
Qed.

(** A star over a class consumes code units of the class. *)
Lemma denote_star_class (fl : flags) g (p : char -> bool) :
  forall st st', denote fl (Star g (Class p)) st st' ->
  exists x, rest st = x ++ rest st' /\
            Forall (fun y => p y = true) x /\
            seen st' = rev x ++ seen st /\ caps st' = caps st.
Proof.
  cbn [denote]. induction 1 as [st|st mid st' H1 _ (x & E2 & HF & S2 & C2)].
  - exists []. auto.
  - destruct H1 as (y & t & E & Hy & ->). cbn [rest seen caps] in *.
    exists (y :: x). rewrite E, E2, S2, C2. cbn [rev app].
    rewrite <- app_assoc. auto.
Qed.

(** *** The effort level and the satisfaction counts *)

(** What an ASCII capital matches without regard to case is the capital or
    its small letter. *)
Lemma to_upper_canonical (c y : char) :
  in_range 65 90 c = true ->
  litMatches flag_i c y = true ->
  (if in_range 97 122 y then (y - 32)%N else y) = c.
Proof.
  unfold litMatches, canonicalize, in_range, char_eqb. cbn [ignoreCase flag_i].
  rewrite !andb_true_iff, !N.leb_le. intros [H1 H2].
  replace ((97 <=? c)%N && (c <=? 122)%N) with false
    by (symmetry; apply andb_false_iff; left; apply N.leb_gt; lia).
  replace ((224 <=? c)%N && (c <=? 254)%N) with false
    by (symmetry; apply andb_false_iff; left; apply N.leb_gt; lia).
  cbn [andb].
  destruct ((97 <=? y)%N && (y <=? 122)%N) eqn:E1.
  - intros H. apply N.eqb_eq in H. auto.
  - destruct ((224 <=? y)%N && (y <=? 254)%N && negb (y =? 247)%N) eqn:E2.
    + rewrite !andb_true_iff, !N.leb_le in E2. intros H. apply N.eqb_eq in H. lia.
    + intros H. apply N.eqb_eq in H. auto.
Qed.

(** A text matched by a word in capitals without regard to case is the word
    once in upper case. *)
Lemma toUpperCase_matches (l x : jsstring) :
  forallb (in_range 65 90) l = true ->
  Forall2 (fun c y => litMatches flag_i c y = true) l x ->
  toUpperCase x = l.
Proof.
  intros Hl HF. induction HF as [|c y l x Hy _ IH]; [reflexivity |].
  cbn [forallb] in Hl. apply andb_true_iff in Hl as [Hc Hl].
  cbn [toUpperCase map]. rewrite (to_upper_canonical c y Hc Hy).
  f_equal. apply IH, Hl.
Qed.

(** X1: whatever the case of the level token in the text, the effort level
    [extractEffortLevel] returns is one of the four names of [EffortLevel],
    in capitals. *)
Theorem effort_level_is_canonical (text e : jsstring) :
  Capture.extractEffortLevel text = Some e -> e ∈ EFFORT_LEVELS.
Proof.
  unfold Capture.extractEffortLevel.
  destruct (exec _ _ _) as [m|] eqn:Hm; [| discriminate]. intros [= <-].
  apply execFrom_sound in Hm as (pre & post & st' & _ & Hd & _ & _ & Hg).
  unfold Capture.effortPattern in Hd. cbn [seqs plus] in Hd.
  destruct Hd as (st1 & _ & st2 & _ & st3 & Hd & ->).
  unfold group. rewrite Hg. cbn [caps capture Nat.eqb default].
  assert (Hx : exists l x, l ∈ EFFORT_LEVELS /\ rest st2 = x ++ rest st3 /\
                 Forall2 (fun c y => litMatches flag_i c y = true) l x).
  { cbn [alts denote] in Hd. unfold EFFORT_LEVELS.
    destruct Hd as [Hd | [Hd | [Hd | Hd]]];
      apply denote_lits in Hd as (x & E & HF & _); eexists _, x;
      (split; [| split; [exact E | exact HF]]); set_solver. }
  destruct Hx as (l & x & Hl & E & HF).
  rewrite E, length_app, Nat.add_sub, take_app_length. change (id x) with x.
  rewrite (toUpperCase_matches l x); [exact Hl | | exact HF].
  unfold EFFORT_LEVELS in Hl.
  repeat (apply elem_of_cons in Hl as [-> | Hl]; [reflexivity |]).
  inversion Hl.
Qed.

(** One or more of a class: a non-empty run of code units of the class. *)
Lemma denote_plus_class (fl : flags) (p : char -> bool) st st' :
  denote fl (plus (Class p)) st st' ->
  exists y x, rest st = (y :: x) ++ rest st' /\
              Forall (fun c => p c = true) (y :: x) /\
              caps st' = caps st.
Proof.
  unfold plus. intros (mid & (y & t & E & Hy & ->) & H2).
  apply denote_star_class in H2 as (x & E2 & HF & _ & C2).
  cbn [rest caps] in *. exists y, x. rewrite E, E2, C2. auto.
Qed.

(** The group [(\d+)] records a run of digits. *)
Lemma group_digits (fl : flags) (i : nat) st st' :
  denote fl (Group i (plus digit)) st st' ->
  exists x, digitRun x /\ rest st = x ++ rest st' /\
            caps st' = (i, x) :: caps st.
Proof.
  intros H. apply denote_group in H as (x & st1 & Hd & E & E1 & _ & C).
  apply denote_plus_class in Hd as (y & x' & E' & HF & C').
  rewrite E1, E in E'. apply app_inv_tail in E' as ->.
  exists (y :: x'). rewrite C, C'. repeat split; auto.
Qed.

(** What a match of the two satisfaction patterns captured. *)
Lemma allSatisfied_sound (text : jsstring) (m : mresult) :
  exec flag_i Capture.allSatisfiedPattern text = Some m ->
  digitRun (group m 1) /\ includes (group m 1) text = true.
Proof.
  intros Hm.
  apply execFrom_sound in Hm as (pre & post & st' & -> & Hd & _ & _ & Hg).
  unfold Capture.allSatisfiedPattern in Hd. cbn [seqs] in Hd.
  destruct Hd as (mid & H1 & H2).
  apply group_digits in H1 as (x & Hx & E & C).
  apply denote_groupFree in H2; [| reflexivity].
  cbn [rest caps] in *. unfold group. rewrite Hg, H2, C.
  cbn [capture Nat.eqb]. change (default [] (Some x)) with x.
  split; [exact Hx |]. rewrite E. apply includes_here.
Qed.

(** The second phrasing: its two groups are runs of digits of the text. *)
Lemma partial_sound (text : jsstring) (m : mresult) :
  exec flag_i Capture.partialPattern text = Some m ->
  digitRun (group m 1) /\ includes (group m 1) text = true /\
  digitRun (group m 2) /\ includes (group m 2) text = true.
Proof.
  intros Hm.
  apply execFrom_sound in Hm as (pre & post & st' & -> & Hd & _ & _ & Hg).
  unfold Capture.partialPattern in Hd. cbn [seqs] in Hd.
  destruct Hd as (mid1 & H1 & mid2 & H2 & mid3 & H3 & H4).
  apply group_digits in H1 as (x & Hx & E1 & C1).
  pose proof (denote_consumes _ _ _ _ H2) as (sl & E2 & _).
  apply denote_groupFree in H2; [| reflexivity].
  apply group_digits in H3 as (y & Hy & E3 & C3).
  apply denote_groupFree in H4; [| reflexivity].
  cbn [rest caps] in *. unfold group. rewrite Hg, H4, C3, H2, C1.
  cbn [capture Nat.eqb]. change (default [] (Some ?a)) with a.
  split; [exact Hx |]. split; [rewrite E1; apply includes_here |].
  split; [exact Hy |]. rewrite E1, E2, E3.
  rewrite !app_assoc, <- (app_assoc _ y). apply includes_here.
Qed.

(** X2: the satisfaction data [extractISCSatisfaction] returns is read from
    the text: satisfied and total are [parseInt] of runs of decimal digits
    that occur in the text, which is the value of the digits up to 2^53 and
    the nearest double beyond; partial and failed are 0. *)
Theorem satisfaction_is_read_from_digit_runs (text : jsstring) (sat : json) :
  Capture.extractISCSatisfaction text = Some sat ->
  exists a b,
    digitRun a /\ includes a text = true /\
    digitRun b /\ includes b text = true /\
    Capture.prop (str "satisfied") sat = Some (JNum (parseInt a)) /\
    Capture.prop (str "total") sat = Some (JNum (parseInt b)) /\
    Capture.prop (str "partial") sat = Some (num 0) /\
    Capture.prop (str "failed") sat = Some (num 0) /\
    (readExactly a ->
     Capture.prop (str "satisfied") sat = Some (num (digitsValue a))) /\
    (readExactly b ->
     Capture.prop (str "total") sat = Some (num (digitsValue b))).
Proof.
  unfold Capture.extractISCSatisfaction.
  destruct (exec flag_i Capture.allSatisfiedPattern text) as [m|] eqn:Hall.
  - intros [= <-]. apply allSatisfied_sound in Hall as [Hd Hi].
    exists (group m 1), (group m 1).
    repeat (split; [first [assumption | reflexivity] |]).
    split; intros Hx; unfold Capture.prop; cbn [getProp];
      rewrite (parseInt_exact _ Hx); reflexivity.
  - destruct (exec flag_i Capture.partialPattern text) as [m|] eqn:Hpart;
      [| discriminate].
    intros [= <-]. apply partial_sound in Hpart as (H1 & I1 & H2 & I2).
    exists (group m 1), (group m 2).
    repeat (split; [first [assumption | reflexivity] |]).
    split; intros Hx; unfold Capture.prop; cbn [getProp];
      rewrite (parseInt_exact _ Hx); reflexivity.
Qed.

(** The code units of a part of a text are code units of the text. *)
Lemma includes_elem (x s : jsstring) (c : char) :
  includes x s = true -> c ∈ x -> c ∈ s.
Proof.
  rewrite includes_true. intros (a & b & -> & Hb) Hc.
  apply startsWith_inv in Hb. rewrite Hb. set_solver.
Qed.

(** A text without a decimal digit has no satisfaction data. *)
Lemma no_digit_no_satisfaction (text : jsstring) :
  Forall (fun c => isDigit c = false) text ->
  Capture.extractISCSatisfaction text = None.
Proof.
  intros Htext.
  assert (Hno : forall a, digitRun a -> includes a text = true -> False).
  { intros [|c a] [Hne Hd] Hi; [congruence |].
    assert (Hc : c ∈ text) by (eapply includes_elem; [exact Hi | left]).
    rewrite Forall_forall in Htext. apply Htext in Hc.
    apply Forall_cons in Hd as [Hd _]. congruence. }
  unfold Capture.extractISCSatisfaction.
  destruct (exec flag_i Capture.allSatisfiedPattern text) as [m|] eqn:Hall.
  - apply allSatisfied_sound in Hall as [Hd Hi]. destruct (Hno _ Hd Hi).
  - destruct (exec flag_i Capture.partialPattern text) as [m|] eqn:Hpart;
      [| reflexivity].
    apply partial_sound in Hpart as (H1 & I1 & _). destruct (Hno _ H1 I1).
Qed.

(** *** Trimming *)

(** [trimStart] removes a prefix of white space. *)
Lemma trimStart_split (s : jsstring) :
  exists a, s = a ++ trimStart s /\ Forall (fun c => isWhiteSpace c = true) a.
Proof.
  induction s as [|c s (a & E & Ha)]; [exists []; auto |].
  cbn [trimStart]. destruct (isWhiteSpace c) eqn:Hc.
  - exists (c :: a). cbn [app]. rewrite <- E. auto.
  - exists []. auto.
Qed.

(** What [trimStart] leaves does not start with white space. *)
Lemma trimStart_head (s : jsstring) (c : char) (t : jsstring) :
  trimStart s = c :: t -> isWhiteSpace c = false.
Proof.
  induction s as [|x s IH]; cbn [trimStart]; [discriminate |].
  destruct (isWhiteSpace x) eqn:Hx; [exact IH |]. intros [= <- _]. exact Hx.
Qed.

(** [trimStart] leaves a text that does not start with white space as it is. *)
Lemma trimStart_fixed (s : jsstring) :
  match s with c :: _ => isWhiteSpace c = false | [] => True end ->
  trimStart s = s.
Proof. destruct s as [|c s]; [reflexivity |]. cbn [trimStart]. intros ->. reflexivity. Qed.

(** [trimStart] is idempotent. *)
Lemma trimStart_idem (s : jsstring) : trimStart (trimStart s) = trimStart s.
Proof.
  apply trimStart_fixed. destruct (trimStart s) eqn:E; [exact I |].
  eapply trimStart_head, E.
Qed.

(** [trimStart] ignores white space put in front. *)
Lemma trimStart_app_ws (a s : jsstring) :
  Forall (fun c => isWhiteSpace c = true) a -> trimStart (a ++ s) = trimStart s.
Proof.
  induction 1 as [|c a Hc _ IH]; [reflexivity |].
  cbn [app trimStart]. rewrite Hc. exact IH.
Qed.

(** [trimEnd] removes a suffix of white space. *)
Lemma trimEnd_split (s : jsstring) :
  exists b, s = trimEnd s ++ b /\ Forall (fun c => isWhiteSpace c = true) b.
Proof.
  unfold trimEnd. destruct (trimStart_split (rev s)) as (a & E & Ha).
  exists (rev a). split; [| apply Forall_rev, Ha].
  rewrite <- rev_app_distr, <- E, rev_involutive. reflexivity.
Qed.

(** [trimEnd] is idempotent. *)
Lemma trimEnd_idem (s : jsstring) : trimEnd (trimEnd s) = trimEnd s.
Proof. unfold trimEnd. rewrite rev_involutive, trimStart_idem. reflexivity. Qed.

(** [trimEnd] ignores white space put behind. *)
Lemma trimEnd_app_ws (s b : jsstring) :
  Forall (fun c => isWhiteSpace c = true) b -> trimEnd (s ++ b) = trimEnd s.
Proof.
  intros Hb. unfold trimEnd. rewrite rev_app_distr, trimStart_app_ws; [reflexivity |].
  apply Forall_rev, Hb.
Qed.

(** Trimming the end keeps the head of what is left. *)
Lemma trimEnd_head (s : jsstring) (c : char) (t : jsstring) :
  trimEnd s = c :: t -> exists t', s = c :: t'.
Proof.
  intros E. destruct (trimEnd_split s) as (b & Es & _).
  rewrite E in Es. eauto.
Qed.

(** Trimming the end does not bring white space to the start. *)
Lemma trimStart_trimEnd (s : jsstring) :
  trimStart (trimEnd (trimStart s)) = trimEnd (trimStart s).
Proof.
  apply trimStart_fixed. destruct (trimEnd (trimStart s)) as [|c t] eqn:E;
    [exact I |].
  apply trimEnd_head in E as [t' E]. eapply trimStart_head, E.
Qed.

(** [trim] is idempotent. *)
Lemma trim_idem (s : jsstring) : trim (trim s) = trim s.
Proof. unfold trim. rewrite trimStart_trimEnd, trimEnd_idem. reflexivity. Qed.

(** [trimEnd] leaves a text that does not end with white space as it is. *)
Lemma trimEnd_fixed (s : jsstring) :
  match rev s with c :: _ => isWhiteSpace c = false | [] => True end ->
  trimEnd s = s.
Proof.
  intros H. unfold trimEnd. rewrite trimStart_fixed by exact H.
  apply rev_involutive.
Qed.

(** Whitespace around a text that neither starts nor ends with whitespace
    is what [trim] removes. *)
Lemma trim_padded (a s b : jsstring) :
  Forall (fun c => isWhiteSpace c = true) a ->
  Forall (fun c => isWhiteSpace c = true) b ->
  match s with c :: _ => isWhiteSpace c = false | [] => True end ->
  match rev s with c :: _ => isWhiteSpace c = false | [] => True end ->
  trim (a ++ s ++ b) = s.
Proof.
  intros Ha Hb Hs He. unfold trim.
  rewrite trimStart_app_ws by exact Ha.
  destruct s as [|c s].
  - cbn [app]. unfold trimEnd.
    destruct (trimStart_split b) as (x & E & Hx).
    assert (Hall : trimStart b = []).
    { clear -Hb. induction Hb as [|c b Hc _ IH]; [reflexivity |].
      cbn [trimStart]. rewrite Hc. exact IH. }
    rewrite Hall. reflexivity.
  - rewrite trimStart_fixed by exact Hs.
    rewrite trimEnd_app_ws by exact Hb. apply trimEnd_fixed, He.
Qed.

(** What holds of every code unit of a text holds of those [trimStart]
    keeps. *)
Lemma Forall_trimStart (P : char -> Prop) (s : jsstring) :
  Forall P s -> Forall P (trimStart s).
Proof.
  induction 1 as [|c s Hc Hs IH]; [constructor |].
  cbn [trimStart]. destruct (isWhiteSpace c); auto.
Qed.

(** The same for [trim]. *)
Lemma Forall_trim (P : char -> Prop) (s : jsstring) :
  Forall P s -> Forall P (trim s).
Proof.
  intros H. unfold trim, trimEnd.
  apply Forall_rev, Forall_trimStart, Forall_rev, Forall_trimStart, H.
Qed.

(** *** The explicit-rating guard *)

Section ExplicitRatings.

Import Sentiment.

(** X3: a message that is one of the ratings 1 to 10, with white space
    around it or not, is an explicit rating. *)
Theorem bare_ratings_are_explicit (a n b : jsstring) :
  n ∈ RATINGS ->
  Forall (fun c => isWhiteSpace c = true) a ->
  Forall (fun c => isWhiteSpace c = true) b ->
  isExplicitRating (a ++ n ++ b) = true.
Proof.
  intros Hn Ha Hb. unfold isExplicitRating.
  assert (Ht : trim (a ++ n ++ b) = n).
  { apply trim_padded; auto; unfold RATINGS in Hn;
      repeat (apply elem_of_cons in Hn as [-> | Hn]; [reflexivity |]);
      inversion Hn. }
  rewrite Ht. unfold RATINGS in Hn.
  repeat (apply elem_of_cons in Hn as [-> | Hn]; [vm_compute; reflexivity |]).
  inversion Hn.
Qed.

(** X4: a message is an explicit rating only if, white space apart, it
    starts with a digit from 1 to 9. *)
Theorem explicit_rating_starts_with_digit (prompt : jsstring) :
  isExplicitRating prompt = true ->
  exists d tl, trim prompt = d :: tl /\ in_range 49 57 d = true.
Proof.
  unfold isExplicitRating.
  destruct (exec noFlags ratingPattern (trim prompt)) as [m|] eqn:Hm;
    [| discriminate].
  intros _.
  apply execFrom_sound in Hm as (pre & post & st' & E & Hd & _).
  unfold ratingPattern in Hd. cbn [seqs] in Hd.
  destruct Hd as (st0 & [Hbol ->] & st1 & Hg & _).
  unfold atBol in Hbol. cbn [seen multiline noFlags andb] in Hbol.
  rewrite app_nil_r in *.
  destruct (rev pre) as [|x r] eqn:Hr; [| discriminate].
  apply (f_equal (@rev char)) in Hr. rewrite rev_involutive in Hr.
  subst pre. cbn [app rev] in *.
  apply denote_group in Hg as (x & st2 & Hd & _).
  cbn [rest] in *. rewrite E.
  destruct Hd as [Hd | Hd].
  - unfold lit in Hd. apply denote_lits in Hd as (y & Ey & HF & _).
    cbn [rest] in Ey. inversion HF as [|c0 y0 l0 y' Hc0 _ El Ey']; subst.
    unfold litMatches in Hc0. cbn [ignoreCase noFlags] in Hc0.
    apply char_eqb_eq in Hc0 as <-. rewrite Ey. cbn [app]. eauto.
  - destruct Hd as (y & t & Ey & Hy & _). cbn [rest] in Ey.
    rewrite Ey. eauto.
Qed.

(** An alternative succeeds when its second branch does. *)
Lemma is_Some_orElse_r {A} (a b : option A) : is_Some b -> is_Some (orElse a b).
Proof. intros H. apply is_Some_orElse. auto. Qed.

(** One unfolding of a greedy star. *)
Lemma starLoop_greedy inner k (n : nat) (st : mstate) :
  starLoop inner true k (S n) st
  = orElse
      (inner (fun st' => if length (rest st') <? length (rest st)
                         then starLoop inner true k n st' else None) st)
      (k st).
Proof. reflexivity. Qed.

(** A class at a code unit. *)
Lemma rmatch_class (fl : flags) (p : char -> bool) k (x : char)
  (sn rs : jsstring) cs :
  rmatch fl (Class p) k (MState sn (x :: rs) cs)
  = if p x then k (MState (x :: sn) rs cs) else None.
Proof. reflexivity. Qed.

(** The dot at a code unit. *)
Lemma rmatch_dot (fl : flags) k (x : char) (sn rs : jsstring) cs :
  rmatch fl Dot k (MState sn (x :: rs) cs)
  = if dotMatches fl x then k (MState (x :: sn) rs cs) else None.
Proof. reflexivity. Qed.

(** A greedy star over [.] runs to the end of a text without line
    terminators when its continuation accepts the end. *)
Lemma star_dot_to_end (fl : flags) k :
  (forall sn cs, is_Some (k (MState sn [] cs))) ->
  forall rs sn cs,
    Forall (fun c => dotMatches fl c = true) rs ->
    is_Some (starLoop (rmatch fl Dot) true k (length rs) (MState sn rs cs)).
Proof.
  intros Hk. induction rs as [|x rs IH]; intros sn cs Hrs.
  - apply Hk.
  - apply Forall_cons in Hrs as [Hx Hrs].
    change (length (x :: rs)) with (S (length rs)).
    rewrite starLoop_greedy. apply is_Some_orElse. left.
    rewrite rmatch_dot, Hx. cbn [rest].
    match goal with
    | |- context [?a <? ?b] =>
        replace (a <? b) with true by (symmetry; apply Nat.ltb_lt; cbn; lia)
    end.
    apply IH, Hrs.
Qed.

(** The dot matches a digit. *)
Lemma digit_dot (fl : flags) (c : char) :
  isDigit c = true -> dotMatches fl c = true.
Proof.
  unfold isDigit, in_range, dotMatches, isLineTerminator, char_eqb.
  rewrite andb_true_iff, !N.leb_le. intros [H1 H2].
  replace (c =? 10)%N with false by (symmetry; apply N.eqb_neq; lia).
  replace (c =? 13)%N with false by (symmetry; apply N.eqb_neq; lia).
  replace (c =? 8232)%N with false by (symmetry; apply N.eqb_neq; lia).
  replace (c =? 8233)%N with false by (symmetry; apply N.eqb_neq; lia).
  apply orb_true_r.
Qed.

(** A digit is not white space. *)
Lemma digit_not_ws (c : char) : isDigit c = true -> isWhiteSpace c = false.
Proof.
  unfold isDigit, isWhiteSpace, in_range, char_eqb.
  rewrite andb_true_iff, !N.leb_le. intros [H1 H2].
  repeat match goal with
         | |- context [(?a <=? ?b)%N] =>
             first [ replace (a <=? b)%N with false
                       by (symmetry; apply N.leb_gt; lia)
                   | replace (a <=? b)%N with true
                       by (symmetry; apply N.leb_le; lia) ]
         | |- context [(c =? ?b)%N] =>
             replace (c =? b)%N with false by (symmetry; apply N.eqb_neq; lia)
         end.
  reflexivity.
Qed.

(** The rating pattern matches every text of digits after a digit from 1
    to 9. *)
Lemma ratingPattern_number (d : char) (ds : jsstring) :
  in_range 49 57 d = true ->
  Forall (fun c => isDigit c = true) ds ->
  is_Some (exec noFlags ratingPattern (d :: ds)).
Proof.
  intros Hd Hds. unfold exec. rewrite execFrom_unfold.
  match goal with
  | |- is_Some (match ?r with _ => _ end) =>
      assert (H : is_Some r); [| destruct H as [st ->]; eauto]
  end.
  unfold ratingPattern. cbn [seqs rmatch atBol seen].
  apply is_Some_orElse_r. unfold range. cbn [rmatch]. unfold step.
  cbn [rest seen caps]. change (chr "1") with 49%N. change (chr "9") with 57%N.
  rewrite Hd. unfold opt. cbn [rmatch]. apply is_Some_orElse_r.
  cbn [rmatch rest]. apply star_dot_to_end.
  - intros sn cs. cbn [atEol rest]. eauto.
  - eapply Forall_impl; [exact Hds |]. intros c. apply digit_dot.
Qed.

(** Without the [m] flag, a pattern anchored at the start matches at the
    start of the text only. *)
Lemma execFrom_bol_any (fl : flags) (r : regex) (before after : jsstring) :
  multiline fl = false -> before <> [] ->
  execFrom fl (Seq Bol r) before after = None.
Proof.
  intros Hm. revert before. induction after as [|x after IH]; intros before Hb;
    rewrite execFrom_unfold; cbn [rmatch]; unfold atBol; cbn [seen];
    (destruct before; [congruence |]); rewrite Hm; cbn [andb];
    [reflexivity |].
  apply IH. discriminate.
Qed.

(** The ten digits. *)
Lemma digit_cases (y : char) :
  isDigit y = true ->
  (y = 48 \/ y = 49 \/ y = 50 \/ y = 51 \/ y = 52 \/ y = 53 \/
   y = 54 \/ y = 55 \/ y = 56 \/ y = 57)%N.
Proof.
  unfold isDigit, in_range. rewrite andb_true_iff, !N.leb_le. lia.
Qed.

(** No sentence starter begins with a digit. *)
Lemma starters_reject_digit (y : char) (tl : jsstring) :
  isDigit y = true -> test flag_i sentenceStarters (y :: tl) = false.
Proof.
  intros Hy. apply digit_cases in Hy.
  unfold test, exec. rewrite execFrom_unfold.
  assert (Hnext : forall c, execFrom flag_i sentenceStarters [c] tl = None)
    by (intros c; apply execFrom_bol_any; [reflexivity | discriminate]).
  repeat (destruct Hy as [-> | Hy]);
    try subst y;
    match goal with
    | |- context [rmatch ?fl ?r ?k ?st] =>
        replace (rmatch fl r k st) with (@None mstate)
          by (vm_compute; reflexivity)
    end;
    rewrite Hnext; apply bool_decide_eq_false_2; intros [? [=]].
Qed.

(** X5: every decimal numeral without a leading zero is an explicit rating,
    not only 1 to 10: the guard also takes 11 or 2024 for a rating. *)
Theorem numbers_are_explicit_ratings (d : char) (ds : jsstring) :
  in_range 49 57 d = true ->
  Forall (fun c => isDigit c = true) ds ->
  isExplicitRating (d :: ds) = true.
Proof.
  intros Hd Hds.
  assert (Hdd : isDigit d = true).
  { unfold isDigit, in_range in *. rewrite andb_true_iff, !N.leb_le in *. lia. }
  assert (Hall : Forall (fun c => isDigit c = true) (d :: ds))
    by (constructor; assumption).
  assert (Ht : trim (d :: ds) = d :: ds).
  { rewrite <- (app_nil_r (d :: ds)) at 1.
    apply (trim_padded [] (d :: ds) []); try constructor.
    - apply digit_not_ws, Hdd.
    - match goal with
      | |- match ?r with _ => _ end => destruct r as [|c r'] eqn:E
      end; [exact I |].
      apply digit_not_ws. apply Forall_rev in Hall. unfold char in *.
      rewrite E in Hall.
      apply Forall_cons in Hall as [Hc _]. exact Hc. }
  unfold isExplicitRating. rewrite Ht.
  destruct (ratingPattern_number d ds Hd Hds) as [m Hm]. rewrite Hm.
  apply execFrom_sound in Hm as (pre & post & st' & E & Hden & _ & _ & Hg).
  unfold ratingPattern in Hden. cbn [seqs] in Hden.
  destruct Hden as (st0 & [_ ->] & st1 & H1 & st2 & H2 & st3 & H3 & [_ ->]).
  pose proof (denote_consumes _ _ _ _ H1) as (x1 & E1 & _).
  pose proof (denote_consumes _ _ _ _ H2) as (x2 & E2 & _).
  apply denote_group in H3 as (x & st4 & _ & E3 & _ & _ & C3).
  cbn [rest] in E1.
  assert (Hx : Forall (fun c => isDigit c = true) (group m 2)).
  { unfold group. rewrite Hg, C3. cbn [capture Nat.eqb].
    change (default [] (Some x)) with x.
    rewrite E, E1, E2, E3 in Hall. rewrite !Forall_app in Hall. tauto. }
  apply (Forall_trim _ _) in Hx.
  destruct (trim (group m 2)) as [|y tl]; [reflexivity |].
  apply Forall_cons in Hx as [Hy _].
  pose proof (starters_reject_digit y tl Hy) as Hs. unfold char in *.
  rewrite Hs. reflexivity.
Qed.

End ExplicitRatings.

(** ** Timestamps *)

(** A digit differs from every code unit that is not one. *)
Lemma digit_neq (k y : char) :
  isDigit k = false -> isDigit y = true -> char_eqb k y = false.
Proof.
  intros Hk Hy. destruct (char_eqb k y) eqn:E; [| reflexivity].
  apply char_eqb_eq in E as ->. congruence.
Qed.

(** The code units of a timestamp in ISO format. *)
Lemma isoShape_inv (s : jsstring) :
  isoShape s = true ->
  exists y1 y2 y3 y4 m1 m2 d1 d2 h1 h2 n1 n2 s1 s2 f1 f2 f3,
    s = [y1; y2; y3; y4; 45; m1; m2; 45; d1; d2; 84; h1; h2; 58; n1; n2; 58;
         s1; s2; 46; f1; f2; f3; 90]%N /\
    Forall (fun c => isDigit c = true)
      [y1; y2; y3; y4; m1; m2; d1; d2; h1; h2; n1; n2; s1; s2; f1; f2; f3].
Proof.
  unfold isoShape.
  do 24 (destruct s as [|? s]; [discriminate |]).
  destruct s; [| discriminate].
  intros [Hd He]%andb_true_iff. apply jsstring_eqb_eq in He.
  injection He as -> -> -> -> -> -> ->.
  do 17 eexists. split; [reflexivity |].
  apply Forall_forall. intros c Hc. rewrite forallb_forall in Hd.
  apply Hd, list_elem_of_In, Hc.
Qed.

Ltac iso_digits H :=
  repeat match type of H with
         | Forall _ (_ :: _) =>
             let Hd := fresh "Hd" in
             apply Forall_cons in H as [Hd H]
         end.

Ltac no_digit k :=
  repeat match goal with
         | Hd : isDigit ?y = true |- context [char_eqb k ?y] =>
             rewrite (digit_neq k y eq_refl Hd)
         end.

(** A timestamp in ISO format has no dollar sign, no [---] and no
    [summary:]. *)
Lemma isoShape_plain (s : jsstring) :
  isoShape s = true ->
  existsb (char_eqb 36) s = false /\
  includes (str "---") s = false /\
  includes (str "summary:") s = false.
Proof.
  intros H. apply isoShape_inv in H
    as (y1&y2&y3&y4&m1&m2&d1&d2&h1&h2&n1&n2&s1&s2&f1&f2&f3 & -> & Hd).
  iso_digits Hd. repeat split.
  - cbn [existsb]. no_digit 36%N. reflexivity.
  - change (str "---") with [45; 45; 45]%N. cbn [includes startsWith].
    no_digit 45%N. reflexivity.
  - change (str "summary:") with [115; 117; 109; 109; 97; 114; 121; 58]%N.
    cbn [includes startsWith]. no_digit 115%N. reflexivity.
Qed.

(** ** The texts of a response *)

Section ResponseTexts.

Import Capture.

(** A code unit above Latin-1 is matched by itself only, with or without
    the [i] flag. *)
Lemma litMatches_high (fl : flags) (c y : char) :
  (255 < c)%N -> litMatches fl c y = true -> y = c.
Proof.
  intros Hc. unfold litMatches, canonicalize, in_range, char_eqb.
  destruct (ignoreCase fl).
  - replace ((97 <=? c)%N && (c <=? 122)%N) with false
      by (symmetry; apply andb_false_iff; right; apply N.leb_gt; lia).
    replace ((224 <=? c)%N && (c <=? 254)%N) with false
      by (symmetry; apply andb_false_iff; right; apply N.leb_gt; lia).
    cbn [andb].
    destruct ((97 <=? y)%N && (y <=? 122)%N) eqn:E1.
    + rewrite andb_true_iff, !N.leb_le in E1. intros H%N.eqb_eq. lia.
    + destruct ((224 <=? y)%N && (y <=? 254)%N && negb (y =? 247)%N) eqn:E2.
      * rewrite !andb_true_iff, !N.leb_le in E2. intros H%N.eqb_eq. lia.
      * intros H%N.eqb_eq. auto.
  - intros H%N.eqb_eq. auto.
Qed.

(** A pattern that starts with a literal above Latin-1 only matches a text
    that has this code unit. *)
Lemma exec_needs_lead (fl : flags) (c : char) (l : jsstring) (r : regex)
  (text : jsstring) :
  (255 < c)%N ->
  c ∉ text ->
  exec fl (Seq (lits (c :: l)) r) text = None.
Proof.
  intros Hc Hnot. destruct (exec _ _ _) as [m|] eqn:Hm; [| reflexivity].
  exfalso. apply Hnot.
  apply execFrom_sound in Hm as (pre & post & st' & -> & Hd & _).
  destruct Hd as (mid & Hl & _).
  apply denote_lits in Hl as (x & E & HF & _). cbn [rest] in E.
  apply Forall2_cons_inv_l in HF as (y & x' & Hy & _ & ->).
  apply litMatches_high in Hy as ->; [| exact Hc].
  rewrite E. apply elem_of_app. right. left.
Qed.

(** X6: a text with neither of the two code units that the section markers
    of the source file start with, U+F8FF and U+201A, has no section:
    [parseStructuredResponse] returns the empty structure. *)
Theorem unmarked_text_parses_to_nothing (text : jsstring) :
  63743%N ∉ text -> 8218%N ∉ text ->
  parseStructuredResponse text = EMPTY_RESPONSE.
Proof.
  intros H1 H2. unfold parseStructuredResponse, field, EMPTY_RESPONSE.
  unfold lineSection, blockSection, voicePattern.
  unfold MARK_SUMMARY, MARK_ANALYSIS, MARK_ACTIONS, MARK_RESULTS, MARK_STATUS,
    MARK_NEXT, MARK_VOICE.
  cbn [seqs].
  rewrite !exec_needs_lead by (assumption || reflexivity).
  reflexivity.
Qed.

(** A chain of steps over [ok] consumes code units that [ok] accepts. *)
Lemma rtc_advance (ok : char -> bool) st st' :
  rtc (advance ok) st st' ->
  exists x, rest st = x ++ rest st' /\
            Forall (fun y => ok y = true) x /\ caps st' = caps st.
Proof.
  induction 1 as [st|st mid st' H1 _ (x & E2 & HF & C2)].
  - exists []. auto.
  - destruct H1 as (y & t & E & Hy & ->). cbn [rest caps] in *.
    exists (y :: x). rewrite E, E2, C2. auto.
Qed.

(** What the group [(.+?)] records. *)
Lemma group_lazy_dots (fl : flags) (i : nat) st st' :
  denote fl (Group i (lazyPlus Dot)) st st' ->
  exists x, caps st' = (i, x) :: caps st /\
            Forall (fun y => dotMatches fl y = true) x.
Proof.
  intros H. apply denote_group in H as (x & st1 & Hd & E & E1 & _ & C).
  destruct Hd as (mid & (y & t & Ey & Hy & ->) & Hstar).
  apply rtc_advance in Hstar as (x' & E' & HF & C'). cbn [rest caps] in *.
  exists x. rewrite C, C'. split; [reflexivity |].
  rewrite E, E', E1 in Ey.
  change (y :: x' ++ rest st') with ((y :: x') ++ rest st') in Ey.
  apply app_inv_tail in Ey as ->. auto.
Qed.

(** Without the [s] flag the dot matches no line terminator. *)
Lemma not_terminator (fl : flags) (y : char) :
  dotAll fl = false -> dotMatches fl y = true -> isLineTerminator y = false.
Proof. unfold dotMatches. intros ->. cbn [orb]. apply negb_true_iff. Qed.

(** The patterns of the sections: a prefix without groups, the group
    [(.+?)], and an end without groups. *)
Lemma denote_section (fl : flags) (prefix : list regex) (after : regex) :
  Forall (fun r => groupFree r = true) prefix ->
  groupFree after = true ->
  forall st st',
    denote fl (seqs (prefix ++ [Group 1 (lazyPlus Dot); after])) st st' ->
    exists x, caps st' = (1, x) :: caps st /\
              Forall (fun y => dotMatches fl y = true) x.
Proof.
  intros Hp Ha. induction Hp as [|r prefix Hr _ IH]; intros st st'.
  - cbn [app seqs]. intros (st2 & H2 & H3).
    apply denote_groupFree in H3; [| exact Ha].
    apply group_lazy_dots in H2 as (x & C & HF). exists x. rewrite H3. auto.
  - replace (seqs ((r :: prefix) ++ [Group 1 (lazyPlus Dot); after]))
      with (Seq r (seqs (prefix ++ [Group 1 (lazyPlus Dot); after])))
      by (destruct prefix; reflexivity).
    { intros (st1 & H1 & H2). apply denote_groupFree in H1; [| exact Hr].
      apply IH in H2 as (x & C & HF). exists x. rewrite C, H1. auto. }
Qed.

(** A field of a section whose pattern is a prefix, the group [(.+?)] and a
    suffix is within one line and trimmed. *)
Lemma field_one_line (fl : flags) (prefix : list regex) (after : regex)
  (text s : jsstring) :
  dotAll fl = false ->
  forallb groupFree prefix = true -> groupFree after = true ->
  field fl (seqs (prefix ++ [Group 1 (lazyPlus Dot); after])) text = Some s ->
  Forall (fun c => isLineTerminator c = false) s /\ trim s = s.
Proof.
  intros Hfl Hp Ha. unfold field.
  destruct (exec _ _ _) as [m|] eqn:Hm; [| discriminate]. intros [= <-].
  split; [| apply trim_idem]. apply Forall_trim.
  apply execFrom_sound in Hm as (pre & post & st' & _ & Hd & _ & _ & Hg).
  apply denote_section in Hd as (x & C & HF);
    [| apply Forall_forall; intros r Hr;
       rewrite forallb_forall in Hp; apply Hp, list_elem_of_In, Hr
     | exact Ha].
  unfold group. rewrite Hg, C. cbn [capture Nat.eqb].
  change (default [] (Some x)) with x.
  eapply Forall_impl; [exact HF |]. intros c. apply not_terminator, Hfl.
Qed.

(** X7: the summary, the status and the completed line of a parsed response
    are each within one line and trimmed: they hold no line terminator, and
    no white space at either end. *)
Theorem line_fields_are_trimmed_lines (text s : jsstring) :
  summary (parseStructuredResponse text) = Some s \/
  status (parseStructuredResponse text) = Some s \/
  completed (parseStructuredResponse text) = Some s ->
  Forall (fun c => isLineTerminator c = false) s /\ trim s = s.
Proof.
  unfold parseStructuredResponse. cbn [summary status completed].
  intros [H | [H | H]]; revert H.
  - apply (field_one_line flag_i
             [lits MARK_SUMMARY; star ws; lit "SUMMARY:"; star ws]);
      reflexivity.
  - apply (field_one_line flag_i
             [lits MARK_STATUS; star ws; lit "STATUS:"; star ws]);
      reflexivity.
  - apply (field_one_line flag_m
             [lits MARK_VOICE; star ws; plus word; lit ":"; star ws]);
      reflexivity.
Qed.

(** *** Replacement texts without dollar signs *)

(** A replacement text without a dollar sign is taken literally. *)
Lemma getSubstitution_plain (n : nat) (m : mresult) (input t u : jsstring) :
  existsb (char_eqb 36) t = false ->
  getSubstitution n m input (t ++ u) = t ++ getSubstitution n m input u.
Proof.
  induction t as [|c t IH]; [reflexivity |].
  cbn [existsb]. intros [Hc Ht]%orb_false_iff.
  cbn [app getSubstitution].
  replace (char_eqb c 36) with false
    by (symmetry; rewrite <- Hc; apply N.eqb_sym).
  cbn [negb]. rewrite IH by exact Ht. reflexivity.
Qed.

(** The same from the start of the replacement text. *)
Lemma getSubstitution_plain_all (n : nat) (m : mresult) (input t : jsstring) :
  existsb (char_eqb 36) t = false -> getSubstitution n m input t = t.
Proof.
  intros H. rewrite <- (app_nil_r t) at 1.
  rewrite getSubstitution_plain by exact H. apply app_nil_r.
Qed.

(** *** The first closing fence *)

(** A lazy star over any code unit stops at the first position where its
    continuation succeeds. *)
Lemma starLoop_lazy_any_first (fl : flags) k (r : mstate) :
  forall a b sn cs,
    (forall a1 a2, a = a1 ++ a2 -> a2 <> [] ->
                   k (MState (rev a1 ++ sn) (a2 ++ b) cs) = None) ->
    k (MState (rev a ++ sn) b cs) = Some r ->
    starLoop (rmatch fl (Class (fun _ => true))) false k (length (a ++ b))
      (MState sn (a ++ b) cs)
    = Some r.
Proof.
  induction a as [|x a IH]; intros b sn cs Hnone Hk.
  - cbn [app rev] in *. destruct b as [|y b]; [exact Hk |].
    change (length (y :: b)) with (S (length b)).
    rewrite starLoop_lazy, Hk. reflexivity.
  - change (length ((x :: a) ++ b)) with (S (length (a ++ b))).
    change ((x :: a) ++ b) with (x :: (a ++ b)).
    rewrite starLoop_lazy, rmatch_any. cbn [rest].
    pose proof (Hnone [] (x :: a) eq_refl ltac:(discriminate)) as H0.
    cbn [rev app] in H0. rewrite H0. cbn [orElse].
    match goal with
    | |- context [?u <? ?v] =>
        replace (u <? v) with true by (symmetry; apply Nat.ltb_lt; cbn; lia)
    end.
    apply IH.
    + intros a1 a2 -> Ha2. specialize (Hnone (x :: a1) a2 eq_refl Ha2).
      cbn [rev] in Hnone. rewrite <- app_assoc in Hnone. exact Hnone.
    + cbn [rev] in Hk. rewrite <- app_assoc in Hk. exact Hk.
Qed.

(** A star runs its loop with the length of the rest as fuel. *)
Lemma rmatch_star (fl : flags) (g : bool) (r : regex) k (st : mstate) :
  rmatch fl (Star g r) k st = starLoop (rmatch fl r) g k (length (rest st)) st.
Proof. reflexivity. Qed.

(** A group around a literal text, compared with regard to case. *)
Lemma rmatch_group_lits (fl : flags) (i : nat) (b : jsstring) (st : mstate) :
  ignoreCase fl = false ->
  rmatch fl (Group i (lits b)) Some st
  = if startsWith b (rest st)
    then Some (MState (rev (take (length b) (rest st)) ++ seen st)
                 (drop (length b) (rest st))
                 ((i, take (length (rest st)
                            - length (drop (length b) (rest st))) (rest st))
                    :: caps st))
    else None.
Proof.
  intros Hi. cbn [rmatch]. rewrite rmatch_lits by exact Hi.
  destruct (startsWith b (rest st)); reflexivity.
Qed.

(** The fence pattern on a text whose first [b] after the opening line is
    at a known place. *)
Lemma exec_fence_first (a b hdr body : jsstring) (x : char) :
  (forall h1 h2, hdr = h1 ++ h2 -> h2 <> [] ->
                 startsWith b (h2 ++ b ++ body) = false) ->
  exec noFlags
    (Seq Bol
       (Seq (Group 1 (Seq (lits a)
                        (Seq (Lit x) (Star false (Class (fun _ => true))))))
          (Group 2 (lits b))))
    ((a ++ [x]) ++ hdr ++ b ++ body)
  = Some (MResult 0 (((a ++ [x]) ++ hdr) ++ b)
            [(2, b); (1, (a ++ [x]) ++ hdr)]).
Proof.
  intros Hfirst. unfold exec. rewrite execFrom_unfold.
  set (c := (a ++ [x]) ++ hdr ++ b ++ body).
  cbn [rmatch atBol seen].
  match goal with
  | |- context [rmatch noFlags (lits a) ?k ?st] =>
      change (rmatch noFlags (lits a) k st)
        with (rmatch noFlags (lits a)
                (rmatch noFlags (Lit x)
                   (rmatch noFlags (Star false (Class (fun _ => true)))
                      (fun st' =>
                         rmatch noFlags (Group 2 (lits b)) Some
                           (MState (seen st') (rest st')
                              ((1, take (length c - length (rest st')) c)
                                 :: caps st'))))) st)
  end.
  rewrite rmatch_lits_snoc, rmatch_lits by reflexivity.
  cbn [rest seen caps]. subst c.
  rewrite startsWith_app, take_app_length, drop_app_length.
  rewrite rmatch_star. cbn [rest].
  erewrite starLoop_lazy_any_first; cycle 1.
  - intros h1 h2 -> Hh2. cbn beta. rewrite rmatch_group_lits by reflexivity.
    cbn [rest]. rewrite <- app_assoc.
    rewrite (Hfirst h1 h2 eq_refl Hh2). reflexivity.
  - cbn beta. rewrite rmatch_group_lits by reflexivity.
    cbn [rest seen caps]. rewrite startsWith_app.
    rewrite take_app_length, drop_app_length. reflexivity.
  - cbn [rest caps length]. f_equal. f_equal.
    + rewrite !app_assoc. apply take_app_length'.
      rewrite !length_app. lia.
    + f_equal; f_equal.
      * replace (length (b ++ body) - length body) with (length b)
          by (rewrite length_app; lia).
        apply take_app_length.
      * rewrite !app_assoc, <- (app_assoc _ b body). f_equal.
        apply take_app_length'. rewrite !length_app. lia.
Qed.

(** A prefix no longer than [u] is a prefix of [u ++ v] when it is one of
    [u]. *)
Lemma startsWith_short (p u v : jsstring) :
  length p <= length u -> startsWith p (u ++ v) = startsWith p u.
Proof.
  revert u. induction p as [|c p IH]; intros [|y u] Hlen;
    cbn [length] in Hlen; try reflexivity; try lia.
  cbn [app startsWith]. rewrite IH by lia. reflexivity.
Qed.

(** The fence is the first [---] after the opening line when no [---]
    starts inside the header. *)
Lemma first_fence (hdr body : jsstring) :
  includes (str "---") (hdr ++ str "--") = false ->
  forall h1 h2, hdr = h1 ++ h2 -> h2 <> [] ->
                startsWith (str "---") (h2 ++ str "---" ++ body) = false.
Proof.
  intros H h1 h2 -> Hh2.
  rewrite includes_false in H.
  specialize (H h1 (h2 ++ str "--")). rewrite <- app_assoc in H.
  specialize (H eq_refl).
  change (str "---" ++ body) with (str "--" ++ str "-" ++ body).
  rewrite app_assoc, startsWith_short; [exact H |].
  rewrite length_app. change (length (str "---")) with 3.
  change (length (str "--")) with 2.
  destruct h2; [congruence |]. cbn [length]. lia.
Qed.

(** An insertion of [updateTaskMeta] puts its line in front of the first
    closing fence. *)
Lemma insertHeader_first (key : string) (v hdr body : jsstring) :
  (key = "completedAt" \/ key = "summary")%string ->
  existsb (char_eqb 36) v = false ->
  includes (str "---") (hdr ++ str "--") = false ->
  insertHeader key v (FENCE ++ hdr ++ str "---" ++ body)
  = FENCE ++ hdr ++ headerLine key v ++ str "---" ++ body.
Proof.
  intros Hkey Hv Hhdr. unfold insertHeader, replace.
  pose proof (exec_fence_first (str "---") (str "---") hdr body 10%N
                (first_fence hdr body Hhdr)) as Hm.
  change (exec noFlags frontmatterPattern (FENCE ++ hdr ++ str "---" ++ body)
          = Some (MResult 0 ((FENCE ++ hdr) ++ str "---")
                    [(2, str "---"); (1, FENCE ++ hdr)])) in Hm.
  rewrite Hm. cbn [index matched]. rewrite take_0. cbn [app Nat.add].
  replace (drop _ _) with body
    by (rewrite !app_assoc, drop_app_length; reflexivity).
  assert (Hsub : getSubstitution 2
            (MResult 0 ((FENCE ++ hdr) ++ str "---")
               [(2, str "---"); (1, FENCE ++ hdr)])
            (FENCE ++ hdr ++ str "---" ++ body) (headerTemplate key v)
          = (FENCE ++ hdr) ++ headerLine key v ++ str "---").
  { unfold headerLine.
    destruct Hkey as [-> | ->];
      [rewrite headerTemplate_completedAt | rewrite headerTemplate_summary];
      rewrite getSubstitution_plain by exact Hv; rewrite <- !app_assoc;
      reflexivity. }
  rewrite Hsub, <- !app_assoc. reflexivity.
Qed.

(** *** The first status line *)

(** The status line followed by the end of a line. *)
Lemma rmatch_line (l : jsstring) (st : mstate) :
  rmatch flag_m (Seq Bol (Seq (lits l) Eol)) Some st
  = if atBol flag_m st then
      if startsWith l (rest st) then
        if atEol flag_m (MState (rev (take (length l) (rest st)) ++ seen st)
                           (drop (length l) (rest st)) (caps st))
        then Some (MState (rev (take (length l) (rest st)) ++ seen st)
                     (drop (length l) (rest st)) (caps st))
        else None
      else None
    else None.
Proof.
  cbn [rmatch]. destruct (atBol flag_m st); [| reflexivity].
  rewrite rmatch_lits by reflexivity. reflexivity.
Qed.

(** A whole line [l] is found where it first starts. *)
Lemma execFrom_line_first (l post : jsstring) :
  atLineEnd post ->
  forall pre before,
    (forall a b, pre = a ++ b -> b <> [] ->
                 startsWith l (b ++ l ++ post) = false) ->
    atLineEnd (rev pre ++ before) ->
    execFrom flag_m (Seq Bol (Seq (lits l) Eol)) before (pre ++ l ++ post)
    = Some (MResult (length before + length pre) l []).
Proof.
  intros Hpost. induction pre as [|x pre IH]; intros before Hnone Hbol.
  - cbn [app rev length] in *. rewrite execFrom_unfold, rmatch_line.
    cbn [rest seen caps].
    assert (Hb : atBol flag_m (MState before (l ++ post) []) = true).
    { unfold atBol. cbn [seen]. destruct before; [reflexivity | exact Hbol]. }
    rewrite Hb, startsWith_app, take_app_length, drop_app_length.
    assert (He : forall sn, atEol flag_m (MState sn post []) = true).
    { intros sn. unfold atEol. cbn [rest].
      destruct post; [reflexivity | exact Hpost]. }
    rewrite He. cbn [rest caps]. rewrite Nat.add_0_r. f_equal. f_equal.
    replace (length (l ++ post) - length post) with (length l)
      by (rewrite length_app; lia).
    apply take_app_length.
  - change ((x :: pre) ++ l ++ post) with (x :: (pre ++ l ++ post)).
    rewrite execFrom_unfold, rmatch_line. cbn [rest].
    pose proof (Hnone [] (x :: pre) eq_refl ltac:(discriminate)) as H0.
    cbn [app] in H0. rewrite H0.
    replace (if atBol flag_m _ then None else None) with (@None mstate)
      by (destruct (atBol flag_m _); reflexivity).
    rewrite IH.
    + cbn [length]. f_equal. f_equal. lia.
    + intros a b -> Hb. exact (Hnone (x :: a) b eq_refl Hb).
    + cbn [rev] in Hbol. rewrite <- app_assoc in Hbol. exact Hbol.
Qed.

(** A text after which a line starts is empty or ends with a line
    terminator. *)
Lemma atLineStart_snoc (s : jsstring) :
  atLineStart s -> s = [] \/ exists q t, s = q ++ [t] /\ isLineTerminator t = true.
Proof.
  unfold atLineStart. destruct s as [|x s _] using rev_ind; [auto |].
  rewrite rev_app_distr. cbn. eauto.
Qed.

(** [flipStatus] on a text whose first status line is known. *)
Lemma flipStatus_first (pre post : jsstring) :
  pre <> [] -> atLineStart pre -> atLineEnd post ->
  includes IN_PROGRESS_LINE pre = false ->
  flipStatus (pre ++ IN_PROGRESS_LINE ++ post) = pre ++ DONE_LINE ++ post.
Proof.
  intros Hne Hpre Hpost Hinc.
  destruct (atLineStart_snoc pre Hpre) as [-> | (q & t & -> & Ht)];
    [congruence |].
  assert (Hsep : existsb (char_eqb t) IN_PROGRESS_LINE = false)
    by (apply no_terminator; [reflexivity | exact Ht]).
  unfold flipStatus, replace, exec.
  change statusPattern with (Seq Bol (Seq (lits IN_PROGRESS_LINE) Eol)).
  rewrite (execFrom_line_first IN_PROGRESS_LINE post Hpost (q ++ [t]) []).
  - cbn [index matched length Nat.add]. rewrite take_app_length.
    rewrite drop_app_add, drop_app_length.
    rewrite getSubstitution_plain_all by reflexivity. reflexivity.
  - intros a b E Hb.
    destruct b as [|y b _] using rev_ind; [congruence |].
    rewrite app_assoc in E. apply app_inj_tail in E as [-> ->].
    rewrite <- app_assoc. cbn [app]. rewrite startsWith_sep by exact Hsep.
    rewrite includes_false in Hinc.
    specialize (Hinc a (b ++ [y]) ltac:(rewrite app_assoc; reflexivity)).
    rewrite startsWith_sep in Hinc by exact Hsep. exact Hinc.
  - rewrite app_nil_r. exact Hpre.
Qed.

(** A text absent from [a ++ b] is absent from [a] and from [b]. *)
Lemma includes_app_false (n a b : jsstring) :
  includes n (a ++ b) = false -> includes n a = false /\ includes n b = false.
Proof.
  intros H. split.
  - destruct (includes n a) eqn:E; [| reflexivity].
    rewrite (includes_app_l n a b E) in H. discriminate.
  - destruct (includes n b) eqn:E; [| reflexivity].
    rewrite (includes_prefix n a b E) in H. discriminate.
Qed.

(** Replacing a code unit brings in no [k] when the replacement has none. *)
Lemma replaceAllChar_plain (c k : char) (by_ s : jsstring) :
  existsb (char_eqb k) by_ = false ->
  existsb (char_eqb k) s = false ->
  existsb (char_eqb k) (replaceAllChar c by_ s) = false.
Proof.
  intros Hby. unfold replaceAllChar.
  induction s as [|x s IH]; [reflexivity |].
  cbn [existsb]. intros [Hx Hs]%orb_false_iff.
  change (existsb (char_eqb k)
            ((if char_eqb x c then by_ else [x])
               ++ concat (map (fun x => if char_eqb x c then by_ else [x]) s))
          = false).
  rewrite existsb_app. apply orb_false_iff. split; [| apply IH, Hs].
  destruct (char_eqb x c); [exact Hby |]. cbn [existsb]. rewrite Hx. reflexivity.
Qed.

(** A header line with a value that has no [n] in it brings no [n] into
    the text, when [n] has neither the first letter of the key, nor a quote,
    nor a line feed. *)
Lemma includes_headerLine (n a b v : jsstring) (k : char) (key : jsstring) :
  existsb (char_eqb k) n = false ->
  existsb (char_eqb 34) n = false ->
  existsb (char_eqb 10) n = false ->
  n <> [] ->
  includes n (key ++ str ": ") = false ->
  includes n v = false ->
  includes n (a ++ b) = false ->
  includes n (a ++ (k :: key ++ str ": " ++ quote ++ v ++ quote ++ nl) ++ b)
  = false.
Proof.
  intros Hk Hq Hnl Hne Hkey Hv Hab.
  apply includes_app_false in Hab as [Ha Hb].
  assert (Hnil : includes n [] = false) by (destruct n; [congruence | reflexivity]).
  cbn [app]. rewrite includes_sep by exact Hk.
  rewrite Ha. cbn [orb]. rewrite <- !app_assoc.
  unfold quote, nl. cbn [app].
  rewrite (app_assoc key), includes_sep by exact Hq. rewrite Hkey. cbn [orb].
  rewrite includes_sep by exact Hq. rewrite Hv. cbn [orb].
  rewrite (includes_sep_head n _ 10 Hnl), Hnil, Hb. reflexivity.
Qed.

(** The three replacements of [updateTaskMeta] on a thread document at the
    start of a task. *)
Lemma patchThread_first (structured : StructuredResponse)
  (ts h1 h2 body said : jsstring) :
  orStr (completed structured) (summary structured) = Some said ->
  truthy said = true ->
  existsb (char_eqb 36) (take 200 said) = false ->
  isoShape ts = true ->
  atLineStart h1 ->
  includes IN_PROGRESS_LINE h1 = false ->
  includes (str "---") (h1 ++ IN_PROGRESS_LINE ++ nl ++ h2 ++ str "--") = false ->
  includes (str "completedAt:") (threadBefore h1 h2 body) = false ->
  includes (str "summary:") (threadBefore h1 h2 body) = false ->
  patchThread structured ts (threadBefore h1 h2 body)
  = threadAfter h1 h2 body ts (take 200 said).
Proof.
  intros Hsaid Htruthy Hdollar Hts Hh1 Hline Hfence HcAt Hsum.
  apply isoShape_plain in Hts as (Hts1 & Hts2 & Hts3).
  unfold patchThread. rewrite Hsaid. cbn [truthyOpt]. rewrite Htruthy.
  cbv zeta.
  (* the status line *)
  assert (Hflip : flipStatus (threadBefore h1 h2 body)
                  = FENCE ++ (h1 ++ DONE_LINE ++ nl ++ h2) ++ str "---" ++ body).
  { unfold threadBefore.
    rewrite (app_assoc FENCE h1).
    rewrite flipStatus_first.
    - rewrite <- !app_assoc. reflexivity.
    - unfold FENCE. destruct h1; discriminate.
    - unfold atLineStart in *. rewrite rev_app_distr.
      destruct (rev h1) eqn:E; [reflexivity | exact Hh1].
    - reflexivity.
    - unfold FENCE, nl. rewrite <- app_assoc. cbn [app].
      rewrite includes_sep by reflexivity. rewrite Hline. reflexivity. }
  rewrite <- (includes_completedAt_flipStatus (threadBefore h1 h2 body)) in HcAt.
  rewrite <- (includes_summary_flipStatus (threadBefore h1 h2 body)) in Hsum.
  rewrite Hflip in *. rewrite HcAt. cbn [negb].
  (* the fence after the replaced line *)
  assert (Hfence' : includes (str "---")
                      ((h1 ++ DONE_LINE ++ nl ++ h2) ++ str "--") = false).
  { rewrite <- !app_assoc.
    rewrite <- (includes_between (str "---") h1 IN_PROGRESS_LINE DONE_LINE
                  (nl ++ h2 ++ str "--"));
      [exact Hfence | apply no_terminator | exact Hh1 | |]; reflexivity. }
  rewrite insertHeader_first by (auto || exact Hts1).
  (* the summary *)
  assert (Hs : truthy (take 200 (default [] (orStr (Some said) (Some []))))
               = true).
  { destruct said; [discriminate | reflexivity]. }
  assert (Ho : default [] (orStr (Some said) (Some [])) = said).
  { destruct said; [discriminate | reflexivity]. }
  rewrite Ho in *. rewrite Hs. cbn [andb].
  set (hdr := h1 ++ DONE_LINE ++ nl ++ h2) in *.
  assert (Hsum' : includes (str "summary:")
            (FENCE ++ hdr ++ headerLine "completedAt" ts ++ str "---" ++ body)
            = false).
  { rewrite (app_assoc FENCE hdr).
    change (headerLine "completedAt" ts)
      with (99%N :: str "ompletedAt" ++ str ": " ++ quote ++ ts ++ quote ++ nl).
    apply includes_headerLine; try reflexivity; try discriminate;
      [exact Hts3 |].
    rewrite <- app_assoc. exact Hsum. }
  rewrite Hsum'. cbn [negb].
  rewrite (app_assoc hdr), insertHeader_first.
  - unfold threadAfter. subst hdr. rewrite <- !app_assoc. reflexivity.
  - auto.
  - apply replaceAllChar_plain; [reflexivity | exact Hdollar].
  - rewrite <- app_assoc.
    change (headerLine "completedAt" ts)
      with (99%N :: str "ompletedAt" ++ str ": " ++ quote ++ ts ++ quote ++ nl).
    apply includes_headerLine; try reflexivity; try discriminate;
      [exact Hts2 | exact Hfence'].
Qed.

(** *** Global replacements of runs of a class *)

(** A greedy star over a class, followed by nothing, takes the longest
    blk. *)
Lemma star_class_longest (fl : flags) (P : char -> bool) :
  forall rs sn cs,
    exists blk post,
      rs = blk ++ post /\
      Forall (fun c => P c = true) blk /\
      match post with c :: _ => P c = false | [] => True end /\
      starLoop (rmatch fl (Class P)) true Some (length rs) (MState sn rs cs)
      = Some (MState (rev blk ++ sn) post cs).
Proof.
  induction rs as [|x rs IH]; intros sn cs.
  - exists [], []. repeat split; auto.
  - change (length (x :: rs)) with (S (length rs)).
    rewrite starLoop_greedy, rmatch_class. destruct (P x) eqn:Hx.
    + cbn [rest].
      match goal with
      | |- context [?u <? ?v] =>
          replace (u <? v) with true by (symmetry; apply Nat.ltb_lt; cbn; lia)
      end.
      destruct (IH (x :: sn) cs) as (blk & post & -> & Hblk & Hpost & ->).
      exists (x :: blk), post. cbn [orElse rev app]. rewrite <- app_assoc.
      repeat split; auto.
    + exists [], (x :: rs). cbn [orElse]. repeat split; auto.
Qed.

(** Where [exec] finds the first blk of a class. *)
Lemma execFrom_plus_class (P : char -> bool) :
  forall after before,
    match execFrom noFlags (plus (Class P)) before after with
    | Some m =>
        exists pre blk post,
          after = pre ++ blk ++ post /\
          Forall (fun c => P c = false) pre /\
          blk <> [] /\
          index m = length before + length pre /\
          matched m = blk
    | None => Forall (fun c => P c = false) after
    end.
Proof.
  induction after as [|x after IH]; intros before.
  - rewrite execFrom_unfold. cbn. constructor.
  - rewrite execFrom_unfold. unfold plus at 1.
    change (rmatch noFlags (Seq (Class P) (Star true (Class P))) Some
              (MState before (x :: after) []))
      with (rmatch noFlags (Class P)
              (rmatch noFlags (Star true (Class P)) Some)
              (MState before (x :: after) [])).
    rewrite rmatch_class. destruct (P x) eqn:Hx.
    + rewrite rmatch_star. cbn [rest].
      destruct (star_class_longest noFlags P after (x :: before) [])
        as (blk & post & E & Hblk & Hpost & Hstar).
      unfold char in *. rewrite Hstar. subst after.
      exists [], (x :: blk), post. cbn [app length rest index matched].
      split; [reflexivity |]. split; [constructor |].
      split; [discriminate |]. split; [lia |].
      replace (S (length (blk ++ post)) - length post) with (S (length blk))
        by (rewrite length_app; lia).
      cbn [take]. rewrite take_app_length. reflexivity.
    + specialize (IH (x :: before)).
      unfold plus in IH.
      destruct (execFrom noFlags _ (x :: before) after) as [m|].
      * destruct IH as (pre & blk & post & -> & Hpre & Hblk & Hi & Hm).
        exists (x :: pre), blk, post. cbn [app length] in *.
        split; [reflexivity |]. split; [constructor; assumption |].
        split; [assumption |]. split; [lia | assumption].
      * constructor; assumption.
Qed.

(** Where [exec] finds the first code unit of a class. *)
Lemma execFrom_class (P : char -> bool) :
  forall after before,
    match execFrom noFlags (Class P) before after with
    | Some m =>
        exists pre x post,
          after = pre ++ x :: post /\
          Forall (fun c => P c = false) pre /\
          index m = length before + length pre /\
          matched m = [x]
    | None => Forall (fun c => P c = false) after
    end.
Proof.
  induction after as [|x after IH]; intros before.
  - rewrite execFrom_unfold. cbn. constructor.
  - rewrite execFrom_unfold, rmatch_class. destruct (P x) eqn:Hx.
    + exists [], x, after. cbn [app length rest index matched].
      split; [reflexivity |]. split; [constructor |]. split; [lia |].
      replace (S (length after) - length after) with 1 by lia. reflexivity.
    + specialize (IH (x :: before)).
      destruct (execFrom noFlags _ (x :: before) after) as [m|].
      * destruct IH as (pre & y & post & -> & Hpre & Hi & Hm).
        exists (x :: pre), y, post. cbn [app length] in *.
        split; [reflexivity |]. split; [constructor; assumption |].
        split; [lia | assumption].
      * constructor; assumption.
Qed.

(** The two shapes of pattern in the cleaning of [generateFilename]. *)
Lemma findsClass_plus (P : char -> bool) : findsClass (plus (Class P)) P.
Proof. exact (execFrom_plus_class P). Qed.

Lemma findsClass_class (P : char -> bool) : findsClass (Class P) P.
Proof.
  intros after before. pose proof (execFrom_class P after before) as H.
  destruct (execFrom _ _ _ _) as [m|]; [| exact H].
  destruct H as (pre & x & post & -> & Hpre & Hi & Hm).
  exists pre, [x], post. repeat split; auto.
Qed.

(** A global replacement of the units of a class leaves the other units
    and the replacement text. *)
Lemma replaceAllFrom_Forall (r : regex) (P : char -> bool)
  (tmpl input : jsstring) (Q : char -> Prop) :
  findsClass r P ->
  existsb (char_eqb 36) tmpl = false -> Forall Q tmpl ->
  forall fuel before after,
    length after < fuel ->
    Forall (fun c => P c = false -> Q c) after ->
    Forall Q (replaceAllFrom fuel noFlags r 0 tmpl input before after).
Proof.
  intros Hr Htmpl HQ. induction fuel as [|fuel IH]; intros before after Hlen Hafter;
    [lia |].
  cbn [replaceAllFrom]. specialize (Hr after before).
  destruct (execFrom noFlags r before after) as [m|].
  - destruct Hr as (pre & blk & post & -> & Hpre & Hblk & Hi & Hm).
    rewrite Hi, Hm, getSubstitution_plain_all by exact Htmpl.
    replace (length before + length pre - length before) with (length pre)
      by lia.
    replace (length blk =? 0) with false
      by (symmetry; apply Nat.eqb_neq; destruct blk; [congruence | cbn [length]; lia]).
    rewrite take_app_length.
    replace (drop (length pre + length blk) (pre ++ blk ++ post)) with post
      by (rewrite app_assoc, <- length_app, drop_app_length; reflexivity).
    rewrite !Forall_app in Hafter. destruct Hafter as (H1 & _ & H3).
    rewrite !Forall_app. split; [| split; [exact HQ |]].
    + rewrite Forall_forall in *. intros c Hc. apply H1; auto.
    + apply IH; [| exact H3]. rewrite !length_app in Hlen.
      unfold char in *. destruct blk; [congruence | cbn [length] in Hlen; lia].
  - rewrite Forall_forall in *. intros c Hc. apply Hafter; auto.
Qed.

(** The same for [replaceAll]. *)
Lemma replaceAll_Forall (r : regex) (P : char -> bool)
  (tmpl s : jsstring) (Q : char -> Prop) :
  findsClass r P ->
  existsb (char_eqb 36) tmpl = false -> Forall Q tmpl ->
  Forall (fun c => P c = false -> Q c) s ->
  Forall Q (replaceAll noFlags r 0 tmpl s).
Proof.
  intros. unfold replaceAll. eapply replaceAllFrom_Forall; eauto.
Qed.

(** The cleaning of [generateFilename]. *)
Lemma cleanDesc_safe (description : jsstring) :
  let cleanDesc :=
    take 60
      (replaceAll noFlags (plus ws) 0 (str "-")
         (replaceAll noFlags
            (Class (fun c => negb (in_range 97 122 c || isDigit c
                                   || isWhiteSpace c || char_eqb c 45)))
            0 [] (toLowerCase description))) in
  length cleanDesc <= 60 /\ Forall (fun c => slugChar c = true) cleanDesc.
Proof.
  cbv zeta. split; [rewrite length_take; lia |].
  apply Forall_take.
  eapply (replaceAll_Forall _ isWhiteSpace); [apply findsClass_plus | reflexivity | |].
  { repeat constructor. }
  eapply Forall_impl.
  - eapply (replaceAll_Forall _
              (fun c => negb (in_range 97 122 c || isDigit c
                              || isWhiteSpace c || char_eqb c 45)) []
              _ (fun c => (in_range 97 122 c || isDigit c
                           || isWhiteSpace c || char_eqb c 45) = true));
      [apply findsClass_class | reflexivity | constructor |].
    apply Forall_forall. intros c _ Hc. apply negb_false_iff in Hc. exact Hc.
  - cbv beta. intros c Hc Hws. unfold slugChar. rewrite Hws in Hc.
    destruct (in_range 97 122 c), (isDigit c), (char_eqb c 45);
      cbn in *; congruence.
Qed.

End ResponseTexts.
(** ** Runs without exceptions *)

Section OkRules.

Context {A B : Type}.

(** Sequencing and [try] for a computation that does not throw. *)
Lemma wp_bind_ok (m : M A) (k : A -> M B) Q w :
  wp m (fun o w' => match o with
                    | Ok a => wp (k a) Q w'
                    | Throw _ => False
                    end) w ->
  wp (bind m k) Q w.
Proof.
  intros H. apply wp_bind. eapply wp_mono; [| exact H].
  intros [a|e] w' H'; [exact H' | destruct H'].
Qed.

Lemma wp_try_ok (body : M A) (handler : exn -> M A) Q w :
  wp body (fun o w' => match o with
                       | Ok a => Q (Ok a) w'
                       | Throw _ => False
                       end) w ->
  wp (try_catch body handler) Q w.
Proof.
  intros H. apply wp_try_catch. eapply wp_mono; [| exact H].
  intros [a|e] w' H'; [exact H' | destruct H'].
Qed.

End OkRules.

(** [readCurrentWork] never throws and changes nothing: it returns the
    parsed file, or [null]. *)
Lemma wp_readCurrentWork Q (w : world) :
  Q (Ok match current_work w with
        | CWParsed doc => Some doc
        | _ => None
        end) w ->
  wp Capture.readCurrentWork Q w.
Proof.
  intros HQ. unfold Capture.readCurrentWork. wp_go.
  destruct (current_work w); wp_go; apply HQ.
Qed.

(** One step of a handler on a path without exceptions. *)
Ltac wp_ok_step :=
  lazymatch goal with
  | |- wp (bind _ _) _ _ => apply wp_bind_ok
  | |- wp (try_catch _ _) _ _ => apply wp_try_ok
  | |- wp Capture.readCurrentWork _ _ => apply wp_readCurrentWork
  | |- _ => wp_step
  end.

Ltac wp_ok := repeat (wp_ok_step; cbv beta iota).

(** ** The capture handler, further paths *)

Section MoreCapture.

Import Capture.

Variable join : list jsstring -> jsstring.
Variable WORK_DIR : jsstring.
Variable LEARNING_DIR : jsstring.
Variable getLearningCategory : jsstring -> option jsstring -> jsstring.
Variable isLearningCapture :
  jsstring -> option jsstring -> option jsstring -> bool.
Variable toISOString : N -> jsstring.
Variable pstTimestamp : N -> jsstring.
Variable yearMonth : N -> jsstring.
Variable numberToString : Q -> jsstring.

Local Abbreviation updateISC sessionDir currentTask :=
  (updateTaskISC join WORK_DIR toISOString (JStr sessionDir) (JStr currentTask)).
Local Abbreviation updateMeta sessionDir currentTask :=
  (updateTaskMeta join WORK_DIR toISOString (JStr sessionDir)
     (JStr currentTask)).
Local Abbreviation taskPath sessionDir currentTask :=
  (join [WORK_DIR; sessionDir; str "tasks"; currentTask]).
Local Abbreviation iscPath sessionDir currentTask :=
  (join [taskPath sessionDir currentTask; str "ISC.json"]).
Local Abbreviation threadPath sessionDir currentTask :=
  (join [taskPath sessionDir currentTask; str "THREAD.md"]).
Local Abbreviation capture :=
  (handleResponseCapture join WORK_DIR LEARNING_DIR getLearningCategory
     isLearningCapture toISOString pstTimestamp yearMonth numberToString).

(** [updateTaskISC] returns normally and leaves the markdown files, the
    clock, the directories and the current work alone. *)
Lemma wp_updateTaskISC (sessionDir currentTask text : jsstring) Q (w : world) :
  (forall w', md_files w' = md_files w -> time w' = time w ->
              dirs w' = dirs w -> current_work w' = current_work w ->
              Q (Ok tt) w') ->
  wp (updateISC sessionDir currentTask text) Q w.
Proof.
  intros HQ. unfold updateTaskISC, pathJoin. cbn [strings]. wp_go.
  destruct (negb _); [wp_go; apply HQ; reflexivity |].
  wp_go. destruct (isc_files w !! _) as [[raw|doc]|]; wp_go;
    try (apply HQ; reflexivity).
  unfold getISOTimestamp. wp_go.
  destruct doc; destruct (extractEffortLevel text);
    destruct (extractISCSatisfaction text);
    destruct (includes COMPLETION_MARKER text);
    unfold assign; wp_go; apply HQ; reflexivity.
Qed.

(** The session directory and the task are both strings, or [path.join]
    throws. *)
Lemma pathJoin_cases (sessionDir currentTask : json) :
  (exists s t, sessionDir = JStr s /\ currentTask = JStr t) \/
  strings [JStr WORK_DIR; sessionDir; JStr (str "tasks"); currentTask] = None.
Proof.
  destruct sessionDir; try (right; reflexivity).
  destruct currentTask; try (right; reflexivity).
  left. eauto.
Qed.

(** On whatever the current work holds, [updateTaskISC] leaves the
    markdown files, the clock, the directories and the current work alone;
    it throws when one of the two is no string, and then it has done
    nothing. *)
Lemma wp_updateTaskISC_any (sessionDir currentTask : json) (text : jsstring)
  Q (w : world) :
  (forall o w', md_files w' = md_files w -> time w' = time w ->
                dirs w' = dirs w -> current_work w' = current_work w ->
                (o = Ok tt \/ w' = w) ->
                Q o w') ->
  wp (updateTaskISC join WORK_DIR toISOString sessionDir currentTask text) Q w.
Proof.
  intros HQ.
  destruct (pathJoin_cases sessionDir currentTask)
    as [(s & t & -> & ->) | Hs].
  - apply wp_updateTaskISC. intros w' H1 H2 H3 H4. apply HQ; auto.
  - unfold updateTaskISC, pathJoin. rewrite Hs. wp_go. apply HQ; auto.
Qed.

(** [updateTaskMeta] returns normally and leaves the clock, the directories
    and every markdown file but the thread document alone. *)
Lemma wp_updateTaskMeta (sessionDir currentTask : jsstring)
  (structured : StructuredResponse) Q (w : world) :
  (forall w', time w' = time w -> dirs w' = dirs w ->
              (forall p, p <> threadPath sessionDir currentTask ->
                         md_files w' !! p = md_files w !! p) ->
              Q (Ok tt) w') ->
  wp (updateMeta sessionDir currentTask structured) Q w.
Proof.
  intros HQ. unfold updateTaskMeta, pathJoin. cbn [strings]. wp_go.
  destruct (negb _); [wp_go; apply HQ; reflexivity |].
  wp_go. destruct (md_files w !! _) as [c|]; wp_go;
    try (apply HQ; reflexivity).
  unfold getISOTimestamp. wp_go. apply HQ; try reflexivity.
  intros p Hp. cbn. apply lookup_insert_ne. congruence.
Qed.

(** X8: the file name [generateFilename] builds is the date and the time of
    day of the PST timestamp, the type and a cleaned description; whatever
    the description was, the cleaned description has at most 60 code units,
    each a lower-case letter, a digit or a hyphen. *)
Theorem generated_filename_is_safe (description : jsstring) (type : string)
  (w : world) :
  exists slug,
    generateFilename pstTimestamp description type w
    = (Ok (take 10 (pstTimestamp (time w)) ++ str "-"
             ++ replaceAllChar 58 [] (take 8 (drop 11 (pstTimestamp (time w))))
             ++ str "_" ++ str type ++ str "_" ++ slug ++ str ".md"), w) /\
    length slug <= 60 /\
    Forall (fun c => slugChar c = true) slug.
Proof.
  eexists. split; [reflexivity |]. apply cleanDesc_safe.
Qed.

(** X9: a response text with no decimal digit and without the completion
    marker leaves the satisfaction and the status of an ISC document that
    parses to an object as the rewrite leaves all that it does not set: the
    same values, with [null] for a number that was infinite.  A status
    that is a string is the same string, and on a document without infinite
    numbers both are exactly as they were. *)
Theorem status_needs_digit_or_marker
  (sessionDir currentTask text : jsstring) (w : world)
  (props : list (jsstring * json)) :
  Forall (fun c => isDigit c = false) text ->
  includes COMPLETION_MARKER text = false ->
  isc_files w !! iscPath sessionDir currentTask = Some (Parsed (JObj props)) ->
  exists props',
    isc_files (snd (updateISC sessionDir currentTask text w))
      !! iscPath sessionDir currentTask = Some (Parsed (JObj props')) /\
    getProp (str "satisfaction") props'
      = stringified <$> getProp (str "satisfaction") props /\
    getProp (str "status") props'
      = stringified <$> getProp (str "status") props /\
    (forall s, getProp (str "status") props = Some (JStr s) ->
               getProp (str "status") props' = Some (JStr s)) /\
    (stringified (JObj props) = JObj props ->
     getProp (str "satisfaction") props' = getProp (str "satisfaction") props /\
     getProp (str "status") props' = getProp (str "status") props).
Proof.
  intros Hdigits Hmarker Hdoc.
  pose proof (updateTaskISC_cases join WORK_DIR toISOString
                sessionDir currentTask text w) as (_ & _ & _ & H).
  cbv zeta in H. rewrite Hdoc in H. destruct H as [Hisc _].
  eexists.
  split; [rewrite Hisc; apply lookup_insert_eq |].
  rewrite !getProp_stringified, patchProps_satisfaction, patchProps_status,
    Hmarker.
  rewrite (no_digit_no_satisfaction text Hdigits).
  split; [reflexivity |]. split; [reflexivity |]. split.
  - intros s ->. reflexivity.
  - intros Hfin.
    pose proof (prop_stringified (str "satisfaction") (JObj props)) as H1.
    pose proof (prop_stringified (str "status") (JObj props)) as H2.
    rewrite Hfin in H1, H2. cbn [prop] in H1, H2. auto.
Qed.

(** X10: for a text without section markers that the learning detector does
    not take, [handleResponseCapture] returns normally, and no markdown file
    and no directory is created or modified: neither the thread document
    nor a learning record is written, also when there is a current task. *)
Theorem unrecognised_response_leaves_markdown_alone
  (text sessionId : jsstring) (w : world) :
  63743%N ∉ text -> 8218%N ∉ text ->
  isLearningCapture text None None = false ->
  fst (capture text sessionId w) = Ok tt /\
  md_files (snd (capture text sessionId w)) = md_files w /\
  dirs (snd (capture text sessionId w)) = dirs w.
Proof.
  intros H1 H2 Hlearn.
  change (wp (capture text sessionId)
            (fun o w' => o = Ok tt /\ md_files w' = md_files w /\
                         dirs w' = dirs w) w).
  unfold handleResponseCapture.
  assert (Hparse : parseStructuredResponse text = EMPTY_RESPONSE).
  { unfold parseStructuredResponse, field, EMPTY_RESPONSE.
    unfold lineSection, blockSection, voicePattern.
    unfold MARK_SUMMARY, MARK_ANALYSIS, MARK_ACTIONS, MARK_RESULTS,
      MARK_STATUS, MARK_NEXT, MARK_VOICE.
    cbn [seqs].
    rewrite !exec_needs_lead by (assumption || reflexivity).
    reflexivity. }
  rewrite Hparse.
  unfold captureWorkSummary, readCurrentWork, EMPTY_RESPONSE.
  cbn [summary completed analysis orStr truthyOpt]. rewrite Hlearn.
  wp_go.
  cbn [current_work with_log].
  destruct (current_work w) as [| |doc]; wp_go.
  1, 2: cbn; auto.
  cbn [mbind option_bind].
  destruct (prop (str "session_dir") doc) as [sessionDir|]; wp_go.
  2: cbn; auto.
  destruct (prop (str "current_task") doc) as [currentTask|]; wp_go.
  2: cbn; auto.
  destruct (truthyValue (Some sessionDir) && truthyValue (Some currentTask));
    wp_go.
  2: cbn; auto.
  apply wp_updateTaskISC_any. intros o w' Hmd Ht Hd Hcw _. cbv beta iota.
  destruct o as [[]|e]; wp_go; cbn; rewrite Hmd, Hd; auto.
Qed.

(** X11: when there is no usable current work (the file is missing, does
    not parse, or lacks the session directory or the current task) and the
    learning detector does not take the response, [handleResponseCapture]
    leaves the ISC documents, the markdown files, the directories and the
    journal of writes as they were. *)
Theorem response_without_task_or_learning_changes_nothing
  (text sessionId : jsstring) (w : world) :
  usableWork (current_work w) = None ->
  isLearningCapture text (summary (parseStructuredResponse text))
    (analysis (parseStructuredResponse text)) = false ->
  fst (capture text sessionId w) = Ok tt /\
  isc_files (snd (capture text sessionId w)) = isc_files w /\
  md_files (snd (capture text sessionId w)) = md_files w /\
  dirs (snd (capture text sessionId w)) = dirs w /\
  journal (snd (capture text sessionId w)) = journal w.
Proof.
  intros Hwork Hlearn.
  change (wp (capture text sessionId)
            (fun o w' => o = Ok tt /\ isc_files w' = isc_files w /\
                         md_files w' = md_files w /\ dirs w' = dirs w /\
                         journal w' = journal w) w).
  unfold handleResponseCapture, captureWorkSummary, readCurrentWork.
  rewrite Hlearn. wp_go.
  cbn [current_work with_log].
  destruct (current_work w) as [| |doc]; wp_go.
  1, 2: cbn; auto 10.
  cbn [usableWork] in Hwork. cbn [mbind option_bind].
  destruct (prop (str "session_dir") doc) as [sessionDir|]; wp_go.
  2: cbn; auto 10.
  destruct (prop (str "current_task") doc) as [currentTask|]; wp_go.
  2: cbn; auto 10.
  destruct (truthyValue (Some sessionDir) && truthyValue (Some currentTask));
    [discriminate |].
  wp_go. cbn. auto 10.
Qed.

(** X12: when the learning detector takes the response, a learning record
    is written, whether there is current work or not, provided that the
    session directory and the current task of the current work are strings
    where it has both: the last write of the run is a markdown file in the
    directory of the learning category and the month, which exists
    afterwards, and the name of the file is the PST date and time, LEARNING
    and a cleaned description of at most 60 lower-case letters, digits and
    hyphens. *)
Theorem learning_record_has_a_safe_name
  (text sessionId : jsstring) (w : world) :
  typedWork (current_work w) ->
  isLearningCapture text (summary (parseStructuredResponse text))
    (analysis (parseStructuredResponse text)) = true ->
  let dir :=
    join [LEARNING_DIR; getLearningCategory text None; yearMonth (time w)] in
  let pst := pstTimestamp (time w) in
  exists slug content,
    let file :=
      join [dir; take 10 pst ++ str "-"
                   ++ replaceAllChar 58 [] (take 8 (drop 11 pst))
                   ++ str "_LEARNING_" ++ slug ++ str ".md"] in
    length slug <= 60 /\
    Forall (fun c => slugChar c = true) slug /\
    md_files (snd (capture text sessionId w)) !! file = Some content /\
    last (journal (snd (capture text sessionId w))) = Some (Wrote file) /\
    dir ∈ dirs (snd (capture text sessionId w)).
Proof.
  intros Htyped Hlearn dir pst.
  set (post := fun (_ : outcome unit) (w' : world) =>
    exists slug content,
      let file :=
        join [dir; take 10 pst ++ str "-"
                     ++ replaceAllChar 58 [] (take 8 (drop 11 pst))
                     ++ str "_LEARNING_" ++ slug ++ str ".md"] in
      length slug <= 60 /\
      Forall (fun c => slugChar c = true) slug /\
      md_files w' !! file = Some content /\
      last (journal w') = Some (Wrote file) /\
      dir ∈ dirs w').
  change (wp (capture text sessionId) post w).
  assert (Htail : forall (w1 : world) description,
    time w1 = time w ->
    wp (do yearMonth0 <- getYearMonth yearMonth;
        do filename <- generateFilename pstTimestamp description "LEARNING";
        let category := getLearningCategory text None in
        let targetDir := join [LEARNING_DIR; category; yearMonth0] in
        do present <- existsDir targetDir;
        run (if negb present then mkdirSync targetDir else ret tt);
        let filePath := join [targetDir; filename] in
        do timestamp <- getPSTTimestamp pstTimestamp;
        do content <- generateLearningContent pstTimestamp
                        (parseStructuredResponse text) text timestamp;
        run writeMd filePath content;
        fileLog ([8218; 250; 214]%N ++ str " Captured learning to: "
                   ++ filePath) Info)
      (fun o w' =>
         match o with
         | Ok _ =>
             wp (fileLog (str "[Capture] Response capture complete") Info)
               (fun o1 w'1 =>
                  match o1 with
                  | Ok a1 => post (Ok a1) w'1
                  | Throw _ => False
                  end) w'
         | Throw _ => False
         end) w1).
  { intros w1 description Ht.
    unfold getYearMonth, generateFilename, generateLearningContent,
      getPSTDate, getPSTTimestamp. wp_ok. rewrite Ht.
    fold dir. fold pst.
    match goal with
    | |- wp (if negb (bool_decide ?P) then _ else _) _ _ =>
        destruct (bool_decide_reflect P) as [Hin | Hnin]; cbn [negb]
    end; wp_ok.
    all: cbn [time with_log with_time with_dirs with_journal with_md_files].
    all: rewrite ?Ht; fold pst.
    all: exists (take 60
                   (replaceAll noFlags (plus ws) 0 (str "-")
                      (replaceAll noFlags
                         (Class (fun c => negb (in_range 97 122 c || isDigit c
                                                || isWhiteSpace c
                                                || char_eqb c 45)))
                         0 [] (toLowerCase description)))).
    all: eexists; cbv zeta.
    all: split; [apply cleanDesc_safe |].
    all: split; [apply cleanDesc_safe |].
    all: cbn [md_files journal dirs with_log with_time with_dirs with_journal
              with_md_files].
    all: rewrite last_snoc.
    all: split; [apply lookup_insert_eq |].
    all: split; [reflexivity |].
    - exact Hin.
    - apply elem_of_union_l, elem_of_singleton. reflexivity. }
  unfold handleResponseCapture, captureWorkSummary.
  rewrite Hlearn. wp_ok. cbn [current_work with_log].
  unfold typedWork, usableWork in Htyped.
  destruct (current_work w) as [| |doc]; cbn [mbind option_bind]; wp_ok.
  1, 2: apply Htail; reflexivity.
  destruct (prop (str "session_dir") doc) as [sessionDir|]; wp_ok.
  2: apply Htail; reflexivity.
  destruct (prop (str "current_task") doc) as [currentTask|]; wp_ok.
  2: apply Htail; reflexivity.
  destruct (truthyValue (Some sessionDir) && truthyValue (Some currentTask));
    wp_ok.
  2: apply Htail; reflexivity.
  destruct sessionDir as [| | | sessionDir | |]; try destruct Htyped.
  destruct currentTask as [| | | currentTask | |]; try destruct Htyped.
  apply wp_updateTaskISC. intros w1 _ Ht1 _ _. cbv beta iota.
  destruct (truthyOpt _); wp_ok.
  2: apply Htail; exact Ht1.
  apply wp_updateTaskMeta. intros w2 Ht2 _ _. cbv beta iota. wp_ok.
  apply Htail. cbn [time with_log] in *. rewrite Ht2. exact Ht1.
Qed.

(** X13: on a thread document whose frontmatter has the line
    [status: "IN_PROGRESS"] and that has neither [completedAt:] nor
    [summary:], a response with a completed line or a summary, without a
    dollar sign in its first 200 code units, turns the status into DONE and
    adds completedAt and summary, in that order, at the end of the
    frontmatter; the summary is cut to 200 code units and its double quotes
    are escaped.  The rest of the document is unchanged.  The file holds
    that text as UTF-8 encodes it: a surrogate without its other half, as
    the cut can leave one, is U+FFFD there. *)
Theorem thread_header_is_completed
  (sessionDir currentTask : jsstring) (structured : StructuredResponse)
  (w : world) (h1 h2 body said : jsstring) :
  md_files w !! threadPath sessionDir currentTask
    = Some (threadBefore h1 h2 body) ->
  orStr (completed structured) (summary structured) = Some said ->
  truthy said = true ->
  existsb (char_eqb 36) (take 200 said) = false ->
  isoShape (toISOString (time w)) = true ->
  atLineStart h1 ->
  includes IN_PROGRESS_LINE h1 = false ->
  includes (str "---") (h1 ++ IN_PROGRESS_LINE ++ nl ++ h2 ++ str "--") = false ->
  includes (str "completedAt:") (threadBefore h1 h2 body) = false ->
  includes (str "summary:") (threadBefore h1 h2 body) = false ->
  md_files (snd (updateMeta sessionDir currentTask structured w))
    !! threadPath sessionDir currentTask
  = Some (toWellFormed
            (threadAfter h1 h2 body (toISOString (time w)) (take 200 said))).
Proof.
  intros Hfile Hsaid Htruthy Hdollar Hts Hh1 Hline Hfence HcAt Hsum.
  pose proof (updateTaskMeta_cases join WORK_DIR toISOString
                sessionDir currentTask structured w) as (_ & _ & _ & H).
  cbv zeta in H. rewrite Hfile in H. destruct H as [-> _].
  rewrite lookup_insert_eq. do 2 f_equal. apply patchThread_first; assumption.
Qed.

End MoreCapture.
(** ** The sentiment handler, further paths *)

Section MoreSentiment.

Import Sentiment.

Variable inference : request -> settle (outcome response).
Variable SENTIMENT_SYSTEM_PROMPT : jsstring.
Variable join : list jsstring -> jsstring.
Variable getLearningDir : jsstring.
Variable getLearningCategory : jsstring -> option jsstring -> jsstring.
Variable getLearningCategoryUntyped : json -> option json -> outcome jsstring.
Variable toISOString : N -> jsstring.
Variable yearMonth : N -> jsstring.
Variable numberToString : Q -> jsstring.
Variable stringToNumber : jsstring -> option number.

Local Abbreviation handle :=
  (handleImplicitSentiment inference SENTIMENT_SYSTEM_PROMPT join
     getLearningDir getLearningCategory getLearningCategoryUntyped
     toISOString yearMonth numberToString stringToNumber).
Local Abbreviation below := (lessThan numberToString stringToNumber).

Local Abbreviation ratingsFile :=
  (join [join [getLearningDir; str "SIGNALS"]; str "ratings.jsonl"]).

(** X14: when the message is an explicit rating or shorter than
    [MIN_PROMPT_LENGTH], the sentiment handler returns [null] without
    calling the inference collaborator: no call is recorded, the clock does
    not advance, no directory is created and nothing is persisted. *)
Theorem guards_skip_classifier
  (prompt sessionId : jsstring) (transcriptPath : option jsstring) (w : world) :
  isExplicitRating prompt = true \/ length prompt < MIN_PROMPT_LENGTH ->
  fst (handle prompt sessionId transcriptPath w) = Ok None /\
  inference_calls (snd (handle prompt sessionId transcriptPath w))
    = inference_calls w /\
  time (snd (handle prompt sessionId transcriptPath w)) = time w /\
  dirs (snd (handle prompt sessionId transcriptPath w)) = dirs w /\
  quiet w (snd (handle prompt sessionId transcriptPath w)).
Proof.
  intros Hguard.
  change (wp (handle prompt sessionId transcriptPath)
            (fun o w' => o = Ok None /\ inference_calls w' = inference_calls w /\
                         time w' = time w /\ dirs w' = dirs w /\ quiet w w') w).
  unfold handleImplicitSentiment. wp_go.
  destruct (isExplicitRating prompt); [wp_go; repeat split |].
  destruct Hguard as [? | Hlen]; [discriminate |].
  apply Nat.ltb_lt in Hlen. rewrite Hlen. wp_go. repeat split.
Qed.

(** X15: a run of the sentiment handler calls the inference collaborator at
    most once, and the call it makes is the request of [analyzeSentiment]
    for the message and some context: JSON expected, a timeout of 20000 ms,
    the fast level.  There is no retry. *)
Theorem at_most_one_inference_call
  (prompt sessionId : jsstring) (transcriptPath : option jsstring) (w : world) :
  inference_calls (snd (handle prompt sessionId transcriptPath w))
    = inference_calls w \/
  exists context,
    inference_calls (snd (handle prompt sessionId transcriptPath w))
      = inference_calls w ++ [requestFor SENTIMENT_SYSTEM_PROMPT prompt context].
Proof.
  change (wp (handle prompt sessionId transcriptPath)
            (fun _ w' =>
               inference_calls w' = inference_calls w \/
               exists context,
                 inference_calls w'
                 = inference_calls w ++ [requestFor SENTIMENT_SYSTEM_PROMPT prompt context]) w).
  unfold handleImplicitSentiment. wp_go.
  destruct (isExplicitRating prompt); [wp_go; auto |].
  destruct (length prompt <? MIN_PROMPT_LENGTH); [wp_go; auto |].
  wp_go. apply wp_context; intros c. cbv beta iota.
  unfold analyzeSentiment. wp_go. fold (requestFor SENTIMENT_SYSTEM_PROMPT prompt c).
  destruct (inference _) as [d [res|err]|]; unfold raceTimeout;
    [| destruct (d <=? ANALYSIS_TIMEOUT)%N; wp_go; simpl; eauto
     | wp_go; simpl; eauto].
  destruct (d <=? ANALYSIS_TIMEOUT)%N; [| wp_go; simpl; eauto].
  wp_go. destruct (success res); [| wp_go; simpl; eauto].
  destruct (parsed res) as [s|]; [| wp_go; simpl; eauto].
  wp_go. apply wp_settle. intros w0 _ _ _ _ _ _ Hw0. cbv beta iota. wp_go.
  destruct (below (Sent.confidence s) MIN_CONFIDENCE) as [[|]|x]; wp_all;
    try solve [cbn [inference_calls with_log]; rewrite Hw0; simpl; eauto].
  all: unfold getISOTimestamp; wp_go.
  all: apply wp_writeImplicitRating.
  all: intros o w1 _ _ _ _ _ Hw1 _ _.
  all: cbn [inference_calls with_log] in Hw1; rewrite Hw0 in Hw1.
  all: destruct o as [[]|x]; wp_all;
    try solve [cbn [inference_calls with_log]; rewrite Hw1; simpl; eauto].
  all: apply wp_captureLowRatingLearning; intros o w2 _ _ _ Hw2.
  all: destruct o as [[]|x]; wp_all;
    cbn [inference_calls with_log]; rewrite Hw2, Hw1; simpl; eauto.
Qed.

(** X16: when the sentiment handler returns a verdict, exactly one entry
    was appended to ratings.jsonl in the SIGNALS directory: the entry with
    the rating and the confidence of the verdict, the session id of the
    call and the source [implicit], as [JSON.stringify] prints it.  The
    rating of the verdict is not [null], and its confidence is not below
    [MIN_CONFIDENCE] as the handler compares them: a confidence that is a
    number is at least [MIN_CONFIDENCE]. *)
Theorem verdict_is_persisted
  (prompt sessionId : jsstring) (transcriptPath : option jsstring) (w : world)
  (v : verdict) :
  fst (handle prompt sessionId transcriptPath w) = Ok (Some v) ->
  exists e,
    ratings_files (snd (handle prompt sessionId transcriptPath w))
      = <[ratingsFile := default [] (ratings_files w !! ratingsFile)
                           ++ [Entry.stringified e]]>
          (ratings_files w) /\
    Entry.rating e = v_rating v /\
    Entry.confidence e = v_confidence v /\
    Entry.session_id e = sessionId /\
    Entry.source e = str "implicit" /\
    v_rating v <> Some JNull /\
    below (v_confidence v) MIN_CONFIDENCE = Ok false /\
    (forall c, v_confidence v = Some (JNum (Finite c)) ->
               (MIN_CONFIDENCE <= c)%Q).
Proof.
  set (post := fun (o : outcome (option verdict)) (w' : world) =>
    forall v, o = Ok (Some v) ->
    exists e,
      ratings_files w'
        = <[ratingsFile := default [] (ratings_files w !! ratingsFile)
                             ++ [Entry.stringified e]]>
            (ratings_files w) /\
      Entry.rating e = v_rating v /\
      Entry.confidence e = v_confidence v /\
      Entry.session_id e = sessionId /\
      Entry.source e = str "implicit" /\
      v_rating v <> Some JNull /\
      below (v_confidence v) MIN_CONFIDENCE = Ok false /\
      (forall c, v_confidence v = Some (JNum (Finite c)) ->
                 (MIN_CONFIDENCE <= c)%Q)).
  assert (H : wp (handle prompt sessionId transcriptPath) post w);
    [| exact (H v)].
  assert (Hnone : forall w', post (Ok None) w') by (intros w' v' [=]).
  unfold handleImplicitSentiment. wp_go.
  destruct (isExplicitRating prompt); [wp_go; apply Hnone |].
  destruct (length prompt <? MIN_PROMPT_LENGTH); [wp_go; apply Hnone |].
  wp_go. apply wp_context; intros c. cbv beta iota.
  unfold analyzeSentiment. wp_go.
  destruct (inference _) as [d [res|err]|]; unfold raceTimeout;
    [| destruct (d <=? ANALYSIS_TIMEOUT)%N; wp_go; apply Hnone
     | wp_go; apply Hnone].
  destruct (d <=? ANALYSIS_TIMEOUT)%N; [| wp_go; apply Hnone].
  wp_go. destruct (success res); [| wp_go; apply Hnone].
  destruct (parsed res) as [s|]; [| wp_go; apply Hnone].
  wp_go. apply wp_settle. intros w0 Hw0 _ _ _ _ _ _. cbv beta iota. wp_go.
  assert (Hsettled : settledRating (Sent.rating s) <> Some JNull).
  { unfold settledRating. destruct (Sent.rating s) as [[]|]; discriminate. }
  destruct (below (Sent.confidence s) MIN_CONFIDENCE) as [[|]|x] eqn:Hc;
    wp_all; try apply Hnone.
  all: unfold getISOTimestamp; wp_go.
  all: apply wp_writeImplicitRating.
  all: intros o w1 Hw1 _ _ _ _ _ _ _.
  all: cbn [ratings_files with_log] in Hw1; rewrite Hw0 in Hw1.
  all: destruct o as [[]|x]; wp_all; try apply Hnone.
  all: try (apply wp_captureLowRatingLearning; intros o w2 Hw2 _ _ _;
            destruct o as [[]|x]; wp_all; try apply Hnone).
  all: intros v' [= <-]; eexists; cbn [v_rating v_confidence].
  all: (split;
        [cbn [ratings_files with_log]; try rewrite Hw2; exact Hw1 |]).
  all: cbn [Entry.rating Entry.confidence Entry.session_id Entry.source].
  all: repeat (split; [first [reflexivity | assumption] |]).
  all: intros q Hq; rewrite Hq, below_number in Hc.
  all: injection Hc as Hc.
  all: apply Qnot_lt_le; rewrite <- Qltb_lt, Hc; discriminate.
Qed.

(** X17: the ratings logs are append-only for the sentiment handler: after
    a run each log is the log before it with at most one entry added at the
    end, and only ratings.jsonl of the SIGNALS directory can gain one. *)
Theorem ratings_log_is_append_only
  (prompt sessionId : jsstring) (transcriptPath : option jsstring) (w : world)
  (path : jsstring) :
  exists tail,
    default [] (ratings_files (snd (handle prompt sessionId transcriptPath w))
                  !! path)
    = default [] (ratings_files w !! path) ++ tail /\
    length tail <= 1 /\
    (path <> ratingsFile -> tail = []).
Proof.
  set (post := fun (_ : outcome (option verdict)) (w' : world) =>
    exists tail,
      default [] (ratings_files w' !! path)
      = default [] (ratings_files w !! path) ++ tail /\
      length tail <= 1 /\ (path <> ratingsFile -> tail = [])).
  change (wp (handle prompt sessionId transcriptPath) post w).
  assert (H0 : forall o w', ratings_files w' = ratings_files w -> post o w').
  { intros o w' Hw'. exists []. rewrite Hw', app_nil_r. auto. }
  assert (H1 : forall o w' (e : ImplicitRatingEntry),
    ratings_files w'
      = <[ratingsFile := default [] (ratings_files w !! ratingsFile) ++ [e]]>
          (ratings_files w) -> post o w').
  { intros o w' e Hw'. unfold post. rewrite Hw'.
    destruct (decide (ratingsFile = path)) as [<- | Hne].
    - exists [e]. rewrite lookup_insert_eq. simpl. split; [reflexivity |].
      split; [lia | congruence].
    - exists []. rewrite lookup_insert_ne, app_nil_r by exact Hne. auto. }
  unfold handleImplicitSentiment. wp_go.
  destruct (isExplicitRating prompt); [wp_go; apply H0; reflexivity |].
  destruct (length prompt <? MIN_PROMPT_LENGTH);
    [wp_go; apply H0; reflexivity |].
  wp_go. apply wp_context; intros c. cbv beta iota.
  unfold analyzeSentiment. wp_go.
  destruct (inference _) as [d [res|err]|]; unfold raceTimeout;
    [| destruct (d <=? ANALYSIS_TIMEOUT)%N; wp_go; apply H0; reflexivity
     | wp_go; apply H0; reflexivity].
  destruct (d <=? ANALYSIS_TIMEOUT)%N; [| wp_go; apply H0; reflexivity].
  wp_go. destruct (success res); [| wp_go; apply H0; reflexivity].
  destruct (parsed res) as [s|]; [| wp_go; apply H0; reflexivity].
  wp_go. apply wp_settle. intros w0 Hw0 _ _ _ _ _ _. cbv beta iota. wp_go.
  destruct (below (Sent.confidence s) MIN_CONFIDENCE) as [[|]|x];
    wp_all; try (apply H0; exact Hw0).
  all: unfold getISOTimestamp; wp_go.
  all: apply wp_writeImplicitRating.
  all: intros o w1 Hw1 _ _ _ _ _ _ _.
  all: cbn [ratings_files with_log] in Hw1; rewrite Hw0 in Hw1.
  all: destruct o as [[]|x]; wp_all; try (eapply H1; exact Hw1).
  all: apply wp_captureLowRatingLearning; intros o w2 Hw2 _ _ _.
  all: destruct o as [[]|x]; wp_all; eapply H1;
    cbn [ratings_files with_log]; rewrite Hw2; exact Hw1.
Qed.



(** X19: when the classifier only gives ratings of 6 or more, the sentiment
    handler writes no markdown file, with or without a transcript path. *)
Theorem high_rating_writes_no_learning
  (prompt sessionId : jsstring) (transcriptPath : option jsstring) (w : world) :
  (forall req d res s,
      inference req = SettlesAfter d (Ok res) -> parsed res = Some s ->
      exists r, Sent.rating s = Some (JNum (Finite r)) /\ (6 <= r)%Q) ->
  md_files (snd (handle prompt sessionId transcriptPath w)) = md_files w /\
  (forall p, Wrote p ∉ journal w ->
             Wrote p ∉ journal (snd (handle prompt sessionId transcriptPath w))).
Proof.
  intros Hhigh.
  set (post := fun (_ : outcome (option verdict)) (w' : world) =>
    md_files w' = md_files w /\
    (forall p, Wrote p ∉ journal w -> Wrote p ∉ journal w')).
  change (wp (handle prompt sessionId transcriptPath) post w).
  assert (H0 : forall o w', md_files w' = md_files w ->
                            journal w' = journal w -> post o w').
  { intros o w' Hm Hj. split; [exact Hm |]. rewrite Hj. auto. }
  unfold handleImplicitSentiment. wp_go.
  destruct (isExplicitRating prompt); [wp_go; apply H0; reflexivity |].
  destruct (length prompt <? MIN_PROMPT_LENGTH);
    [wp_go; apply H0; reflexivity |].
  wp_go. apply wp_context; intros c. cbv beta iota.
  unfold analyzeSentiment. wp_go.
  destruct (inference _) as [d [res|err]|] eqn:Hinf; unfold raceTimeout;
    [| destruct (d <=? ANALYSIS_TIMEOUT)%N; wp_go; apply H0; reflexivity
     | wp_go; apply H0; reflexivity].
  destruct (d <=? ANALYSIS_TIMEOUT)%N; [| wp_go; apply H0; reflexivity].
  wp_go. destruct (success res); [| wp_go; apply H0; reflexivity].
  destruct (parsed res) as [s|] eqn:Hs; [| wp_go; apply H0; reflexivity].
  destruct (Hhigh _ _ _ _ Hinf Hs) as (r & Hr & Hge).
  assert (Hl : Qltb r 6 = false).
  { apply not_true_iff_false. rewrite Qltb_lt. apply Qle_not_lt, Hge. }
  wp_go. rewrite Hr. cbn [isNull]. wp_go.
  destruct (below (Sent.confidence s) MIN_CONFIDENCE) as [[|]|x]; wp_go.
  1: destruct (toStringValue numberToString (Sent.confidence s)); wp_go.
  1, 2, 4: apply H0; reflexivity.
  cbn [toStringValue toString]. wp_go.
  destruct (toStringValue numberToString (Sent.summary s)); wp_go.
  2: apply H0; reflexivity.
  unfold getISOTimestamp; wp_go.
  apply wp_writeImplicitRating.
  intros o w1 _ Hmd1 _ _ _ _ Hj1 _.
  assert (H1 : forall o' w', md_files w' = md_files w1 ->
                 journal w' = journal w1 -> post o' w')
    by (intros o' w' Hm Hj; split;
        [rewrite Hm; exact Hmd1 | rewrite Hj; exact Hj1]).
  destruct o as [[]|x]; wp_go.
  2: apply H1; reflexivity.
  rewrite below_number, Hl. wp_go. cbn [andb].
  destruct transcriptPath; wp_go; apply H1; reflexivity.
Qed.

(** X20: the context [getRecentContext] builds depends on the last three
    turns only: when the tail of a transcript has at least three turns, the
    lines before the tail do not change the context. *)
Theorem context_is_last_three_turns
  (p : jsstring) (old recent : transcript) (w w0 : world) :
  truthy p = true ->
  transcripts w !! p = Some (old ++ recent) ->
  transcripts w0 !! p = Some recent ->
  3 <= length (concat (map contextTurn recent)) ->
  fst (getRecentContext p w) = fst (getRecentContext p w0).
Proof.
  intros Hp Hw Hw0 Hlen.
  unfold getRecentContext, try_catch, bind, existsTranscript, readTranscript,
    get, ret.
  rewrite Hp, Hw, Hw0, !bool_decide_eq_true_2 by eauto. cbn [negb orb fst snd].
  rewrite Hw, Hw0, map_app, concat_app.
  set (a := concat (map contextTurn old)) in *.
  set (b := concat (map contextTurn recent)) in *.
  replace (drop (length (a ++ b) - 3) (a ++ b)) with (drop (length b - 3) b).
  { destruct (drop _ b); reflexivity. }
  rewrite length_app, drop_app.
  replace (length a + length b - 3 - length a) with (length b - 3) by lia.
  rewrite (drop_ge a) by lia. reflexivity.
Qed.

(** X21: when no answer of the inference collaborator is a success with a
    parsed result (it reports failure, gives no parsed result, throws, or
    does not settle in time), the sentiment handler returns [null], creates
    no directory and persists nothing. *)
Theorem failed_inference_persists_nothing
  (prompt sessionId : jsstring) (transcriptPath : option jsstring) (w : world) :
  (forall req d res,
      inference req = SettlesAfter d (Ok res) ->
      success res = false \/ parsed res = None) ->
  fst (handle prompt sessionId transcriptPath w) = Ok None /\
  dirs (snd (handle prompt sessionId transcriptPath w)) = dirs w /\
  quiet w (snd (handle prompt sessionId transcriptPath w)).
Proof.
  intros Hfail.
  change (wp (handle prompt sessionId transcriptPath)
            (fun o w' => o = Ok None /\ dirs w' = dirs w /\ quiet w w') w).
  unfold handleImplicitSentiment. wp_go.
  destruct (isExplicitRating prompt); [wp_go; repeat split |].
  destruct (length prompt <? MIN_PROMPT_LENGTH); [wp_go; repeat split |].
  wp_go. apply wp_context; intros c. cbv beta iota.
  unfold analyzeSentiment. wp_go.
  destruct (inference _) as [d [res|e]|] eqn:Hinf; unfold raceTimeout.
  - destruct (d <=? ANALYSIS_TIMEOUT)%N; [| wp_go; repeat split].
    wp_go. destruct (Hfail _ _ _ Hinf) as [Hs | Hp]; rewrite ?Hs, ?Hp.
    + wp_go. repeat split.
    + destruct (success res); wp_go; repeat split.
  - destruct (d <=? ANALYSIS_TIMEOUT)%N; wp_go; repeat split.
  - wp_go; repeat split.
Qed.

(** X22: for a timestamp in ISO format, [getFilenameTimestamp] is the date,
    a hyphen and the six digits of the time of day: 17 code units, digits
    and hyphens only, so without a colon. *)
Theorem filename_timestamp_format (w : world) :
  isoShape (toISOString (time w)) = true ->
  let now := toISOString (time w) in
  let stamp :=
    take 10 now ++ str "-" ++ take 2 (drop 11 now) ++ take 2 (drop 14 now)
      ++ take 2 (drop 17 now) in
  getFilenameTimestamp toISOString w = (Ok stamp, w) /\
  length stamp = 17 /\
  Forall (fun c => isDigit c = true \/ c = 45%N) stamp.
Proof.
  intros Hiso now stamp. subst stamp now.
  unfold getFilenameTimestamp, getISOTimestamp, bind, get, ret.
  apply isoShape_inv in Hiso
    as (y1&y2&y3&y4&m1&m2&d1&d2&h1&h2&n1&n2&s1&s2&f1&f2&f3 & -> & Hd).
  iso_digits Hd. cbn [take drop app].
  assert (Hc : forall c, isDigit c = true -> char_eqb c 58 = false).
  { intros c Hc. rewrite N.eqb_sym. apply digit_neq; [reflexivity | exact Hc]. }
  unfold replaceAllChar. cbn [map concat app].
  repeat match goal with
         | H : isDigit ?c = true |- context [char_eqb ?c 58] =>
             rewrite (Hc c H)
         end.
  change (char_eqb 58 58) with true.
  cbn [app]. split; [reflexivity |]. split; [reflexivity |].
  change (str "-") with [45%N]. cbn [app].
  repeat (apply Forall_cons; split; [auto |]). constructor.
Qed.

End MoreSentiment.
(** ** The properties on sample texts and runs *)

Lemma effort_level_sample :
  Capture.extractEffortLevel (str "effort level thorough")
    = Some (str "THOROUGH") /\
  str "THOROUGH" ∈ EFFORT_LEVELS.
Proof.
  assert (H : Capture.extractEffortLevel (str "effort level thorough")
              = Some (str "THOROUGH")) by (vm_compute; reflexivity).
  split; [exact H |].
  exact (effort_level_is_canonical _ _ H).
Defined.

Lemma satisfaction_sample :
  Capture.extractISCSatisfaction SampleTask.bothPhrasings
    = Some Example.fiveOfFive /\
  exists a b,
    digitRun a /\ includes a SampleTask.bothPhrasings = true /\
    digitRun b /\ includes b SampleTask.bothPhrasings = true /\
    Capture.prop (str "satisfied") Example.fiveOfFive
      = Some (JNum (parseInt a)) /\
    Capture.prop (str "total") Example.fiveOfFive = Some (JNum (parseInt b)) /\
    Capture.prop (str "partial") Example.fiveOfFive = Some (num 0) /\
    Capture.prop (str "failed") Example.fiveOfFive = Some (num 0) /\
    (readExactly a ->
     Capture.prop (str "satisfied") Example.fiveOfFive
       = Some (num (digitsValue a))) /\
    (readExactly b ->
     Capture.prop (str "total") Example.fiveOfFive
       = Some (num (digitsValue b))).
Proof.
  assert (H : Capture.extractISCSatisfaction SampleTask.bothPhrasings
              = Some Example.fiveOfFive) by (vm_compute; reflexivity).
  split; [exact H |].
  exact (satisfaction_is_read_from_digit_runs _ _ H).
Defined.

Lemma bare_rating_sample :
  str "7" ∈ RATINGS /\
  Forall (fun c => isWhiteSpace c = true) (str " ") /\
  Forall (fun c => isWhiteSpace c = true) nl /\
  Sentiment.isExplicitRating (str " " ++ str "7" ++ nl) = true.
Proof.
  assert (H1 : str "7" ∈ RATINGS)
    by (apply (bool_decide_unpack _); vm_compute; exact I).
  assert (H2 : Forall (fun c => isWhiteSpace c = true) (str " "))
    by (repeat constructor).
  assert (H3 : Forall (fun c => isWhiteSpace c = true) nl)
    by (repeat constructor).
  repeat (split; [assumption |]).
  exact (bare_ratings_are_explicit _ _ _ H1 H2 H3).
Defined.

Lemma explicit_rating_sample :
  Sentiment.isExplicitRating (str "8 great job") = true /\
  exists d tl, trim (str "8 great job") = d :: tl /\ in_range 49 57 d = true.
Proof.
  assert (H : Sentiment.isExplicitRating (str "8 great job") = true)
    by (vm_compute; reflexivity).
  split; [exact H |].
  exact (explicit_rating_starts_with_digit _ H).
Defined.

(** A year is taken for a rating. *)
Lemma year_is_explicit_rating :
  in_range 49 57 50 = true /\
  Forall (fun c => isDigit c = true) (str "024") /\
  Sentiment.isExplicitRating (str "2024") = true.
Proof.
  assert (H1 : in_range 49 57 50 = true) by reflexivity.
  assert (H2 : Forall (fun c => isDigit c = true) (str "024"))
    by (repeat constructor).
  repeat (split; [assumption |]).
  exact (numbers_are_explicit_ratings 50%N (str "024") H1 H2).
Defined.

Lemma unmarked_text_sample :
  (63743%N ∉ Example.plain) /\ (8218%N ∉ Example.plain) /\
  Capture.parseStructuredResponse Example.plain = EMPTY_RESPONSE.
Proof.
  assert (H1 : 63743%N ∉ Example.plain)
    by (apply (bool_decide_unpack _); vm_compute; exact I).
  assert (H2 : 8218%N ∉ Example.plain)
    by (apply (bool_decide_unpack _); vm_compute; exact I).
  repeat (split; [assumption |]).
  exact (unmarked_text_parses_to_nothing _ H1 H2).
Defined.

Lemma line_field_sample :
  Capture.summary (Capture.parseStructuredResponse Example.marked)
    = Some (str "Fixed the login page") /\
  Forall (fun c => isLineTerminator c = false) (str "Fixed the login page") /\
  trim (str "Fixed the login page") = str "Fixed the login page".
Proof.
  assert (H : Capture.summary (Capture.parseStructuredResponse Example.marked)
              = Some (str "Fixed the login page"))
    by (vm_compute; reflexivity).
  split; [exact H |].
  exact (line_fields_are_trimmed_lines _ _ (or_introl H)).
Defined.

Lemma no_signal_keeps_status :
  Forall (fun c => isDigit c = false) SampleTask.noSignal /\
  includes Capture.COMPLETION_MARKER SampleTask.noSignal = false /\
  isc_files SampleTask.world0 !! SampleTask.iscFile
    = Some (Parsed (JObj SampleTask.doc0)) /\
  exists props',
    isc_files (snd (SampleTask.updateISC SampleTask.noSignal
                      SampleTask.world0)) !! SampleTask.iscFile
      = Some (Parsed (JObj props')) /\
    getProp (str "satisfaction") props'
      = stringified <$> getProp (str "satisfaction") SampleTask.doc0 /\
    getProp (str "status") props'
      = stringified <$> getProp (str "status") SampleTask.doc0 /\
    (forall s, getProp (str "status") SampleTask.doc0 = Some (JStr s) ->
               getProp (str "status") props' = Some (JStr s)) /\
    (stringified (JObj SampleTask.doc0) = JObj SampleTask.doc0 ->
     getProp (str "satisfaction") props'
       = getProp (str "satisfaction") SampleTask.doc0 /\
     getProp (str "status") props' = getProp (str "status") SampleTask.doc0).
Proof.
  assert (H1 : Forall (fun c => isDigit c = false) SampleTask.noSignal)
    by (repeat constructor).
  assert (H2 : includes Capture.COMPLETION_MARKER SampleTask.noSignal = false)
    by (vm_compute; reflexivity).
  assert (H3 : isc_files SampleTask.world0 !! SampleTask.iscFile
               = Some (Parsed (JObj SampleTask.doc0)))
    by (vm_compute; reflexivity).
  repeat (split; [assumption |]).
  exact (status_needs_digit_or_marker Sample.join (str "/work")
           Sample.toISOString (str "s") (str "t") SampleTask.noSignal
           SampleTask.world0 SampleTask.doc0 H1 H2 H3).
Defined.

Lemma plain_response_sample :
  (63743%N ∉ Example.plain) /\ (8218%N ∉ Example.plain) /\
  Sample.isLearningCapture Example.plain None None = false /\
  fst (Example.captureWith Sample.isLearningCapture Example.plain (str "s1")
         Example.working) = Ok tt /\
  md_files (snd (Example.captureWith Sample.isLearningCapture Example.plain
                   (str "s1") Example.working))
    = md_files Example.working /\
  dirs (snd (Example.captureWith Sample.isLearningCapture Example.plain
               (str "s1") Example.working))
    = dirs Example.working.
Proof.
  assert (H1 : 63743%N ∉ Example.plain)
    by (apply (bool_decide_unpack _); vm_compute; exact I).
  assert (H2 : 8218%N ∉ Example.plain)
    by (apply (bool_decide_unpack _); vm_compute; exact I).
  assert (H3 : Sample.isLearningCapture Example.plain None None = false)
    by reflexivity.
  repeat (split; [assumption |]).
  exact (unrecognised_response_leaves_markdown_alone Sample.join (str "/work")
           (str "/mem/LEARNING") Sample.getLearningCategory
           Sample.isLearningCapture Sample.toISOString Sample.pstTimestamp
           Sample.yearMonth Sample.numberToString Example.plain (str "s1")
           Example.working H1 H2 H3).
Defined.

Lemma no_current_work_sample :
  usableWork (current_work Example.withThread) = None /\
  Sample.isLearningCapture Example.marked
    (Capture.summary (Capture.parseStructuredResponse Example.marked))
    (Capture.analysis (Capture.parseStructuredResponse Example.marked))
    = false /\
  fst (Example.captureWith Sample.isLearningCapture Example.marked (str "s1")
         Example.withThread) = Ok tt /\
  isc_files (snd (Example.captureWith Sample.isLearningCapture Example.marked
                    (str "s1") Example.withThread))
    = isc_files Example.withThread /\
  md_files (snd (Example.captureWith Sample.isLearningCapture Example.marked
                   (str "s1") Example.withThread))
    = md_files Example.withThread /\
  dirs (snd (Example.captureWith Sample.isLearningCapture Example.marked
               (str "s1") Example.withThread))
    = dirs Example.withThread /\
  journal (snd (Example.captureWith Sample.isLearningCapture Example.marked
                  (str "s1") Example.withThread))
    = journal Example.withThread.
Proof.
  assert (H1 : usableWork (current_work Example.withThread) = None)
    by reflexivity.
  assert (H2 : Sample.isLearningCapture Example.marked
    (Capture.summary (Capture.parseStructuredResponse Example.marked))
    (Capture.analysis (Capture.parseStructuredResponse Example.marked))
    = false) by reflexivity.
  repeat (split; [assumption |]).
  exact (response_without_task_or_learning_changes_nothing Sample.join
           (str "/work") (str "/mem/LEARNING") Sample.getLearningCategory
           Sample.isLearningCapture Sample.toISOString Sample.pstTimestamp
           Sample.yearMonth Sample.numberToString Example.marked (str "s1")
           Example.withThread H1 H2).
Defined.

Lemma learning_record_sample :
  typedWork (current_work Example.working) /\
  Example.always Example.marked
    (Capture.summary (Capture.parseStructuredResponse Example.marked))
    (Capture.analysis (Capture.parseStructuredResponse Example.marked))
    = true /\
  exists slug content,
    length slug <= 60 /\
    Forall (fun c => slugChar c = true) slug /\
    md_files (snd (Example.captureWith Example.always Example.marked (str "s1")
                     Example.working))
      !! Sample.join [str "/mem/LEARNING/ALGORITHM/2026-02";
                      str "2026-02-02-063000_LEARNING_" ++ slug ++ str ".md"]
      = Some content /\
    last (journal (snd (Example.captureWith Example.always Example.marked
                          (str "s1") Example.working)))
      = Some (Wrote (Sample.join
                       [str "/mem/LEARNING/ALGORITHM/2026-02";
                        str "2026-02-02-063000_LEARNING_" ++ slug
                          ++ str ".md"])) /\
    str "/mem/LEARNING/ALGORITHM/2026-02"
      ∈ dirs (snd (Example.captureWith Example.always Example.marked (str "s1")
                     Example.working)).
Proof.
  assert (H0 : typedWork (current_work Example.working)) by exact I.
  split; [exact H0 |].
  assert (H : Example.always Example.marked
    (Capture.summary (Capture.parseStructuredResponse Example.marked))
    (Capture.analysis (Capture.parseStructuredResponse Example.marked))
    = true) by reflexivity.
  split; [exact H |].
  exact (learning_record_has_a_safe_name Sample.join (str "/work")
           (str "/mem/LEARNING") Sample.getLearningCategory Example.always
           Sample.toISOString Sample.pstTimestamp Sample.yearMonth
           Sample.numberToString Example.marked (str "s1") Example.working H0
           H).
Defined.

(** With a number for the session directory the learning detector is not
    reached: no learning record is written, and the run has written
    nothing at all. *)
Lemma untyped_session_dir_skips_learning :
  usableWork (current_work Example.misdirected)
    = Some (num 7, JStr (str "t")) /\
  Example.always Example.marked
    (Capture.summary (Capture.parseStructuredResponse Example.marked))
    (Capture.analysis (Capture.parseStructuredResponse Example.marked))
    = true /\
  fst (Example.captureWith Example.always Example.marked (str "s1")
         Example.misdirected) = Ok tt /\
  md_files (snd (Example.captureWith Example.always Example.marked (str "s1")
                   Example.misdirected))
    = md_files Example.misdirected /\
  journal (snd (Example.captureWith Example.always Example.marked (str "s1")
                  Example.misdirected)) = [].
Proof. repeat split; vm_compute; reflexivity. Qed.

Lemma thread_completion_sample :
  md_files Example.withThread !! Example.threadFile
    = Some (threadBefore Example.h1 Example.h2 Example.body) /\
  Capture.orStr (Capture.completed Example.finished)
    (Capture.summary Example.finished) = Some Example.said /\
  truthy Example.said = true /\
  existsb (char_eqb 36) (take 200 Example.said) = false /\
  isoShape (Sample.toISOString (time Example.withThread)) = true /\
  atLineStart Example.h1 /\
  includes IN_PROGRESS_LINE Example.h1 = false /\
  includes (str "---")
    (Example.h1 ++ IN_PROGRESS_LINE ++ nl ++ Example.h2 ++ str "--") = false /\
  includes (str "completedAt:")
    (threadBefore Example.h1 Example.h2 Example.body) = false /\
  includes (str "summary:")
    (threadBefore Example.h1 Example.h2 Example.body) = false /\
  md_files
    (snd (Example.updateMeta Example.finished Example.withThread))
    !! Example.threadFile
    = Some (toWellFormed
              (threadAfter Example.h1 Example.h2 Example.body
                 (str "2026-02-02T14:30:00.000Z") Example.said)).
Proof.
  assert (H1 : md_files Example.withThread !! Example.threadFile
    = Some (threadBefore Example.h1 Example.h2 Example.body))
    by (vm_compute; reflexivity).
  assert (H2 : Capture.orStr (Capture.completed Example.finished)
    (Capture.summary Example.finished) = Some Example.said) by reflexivity.
  assert (H3 : truthy Example.said = true) by reflexivity.
  assert (H4 : existsb (char_eqb 36) (take 200 Example.said) = false)
    by (vm_compute; reflexivity).
  assert (H5 : isoShape (Sample.toISOString (time Example.withThread)) = true)
    by (vm_compute; reflexivity).
  assert (H6 : atLineStart Example.h1) by (vm_compute; reflexivity).
  assert (H7 : includes IN_PROGRESS_LINE Example.h1 = false)
    by (vm_compute; reflexivity).
  assert (H8 : includes (str "---")
    (Example.h1 ++ IN_PROGRESS_LINE ++ nl ++ Example.h2 ++ str "--") = false)
    by (vm_compute; reflexivity).
  assert (H9 : includes (str "completedAt:")
    (threadBefore Example.h1 Example.h2 Example.body) = false)
    by (vm_compute; reflexivity).
  assert (H10 : includes (str "summary:")
    (threadBefore Example.h1 Example.h2 Example.body) = false)
    by (vm_compute; reflexivity).
  repeat (split; [assumption |]).
  exact (thread_header_is_completed Sample.join (str "/work")
           Sample.toISOString (str "s") (str "t") Example.finished
           Example.withThread Example.h1 Example.h2 Example.body Example.said
           H1 H2 H3 H4 H5 H6 H7 H8 H9 H10).
Defined.

(** A summary of 201 code units whose last two are a surrogate pair: the
    cut keeps the first half of the pair, and the file holds U+FFFD in its
    place. *)
Lemma cut_pair_is_replaced :
  let said := repeat 97%N 199 ++ [55357%N; 56832%N] in
  md_files
    (snd (Example.updateMeta
            (Capture.Structured None None None None None None (Some said) None)
            Example.withThread))
    !! Example.threadFile
  = Some (threadAfter Example.h1 Example.h2 Example.body
            (str "2026-02-02T14:30:00.000Z") (repeat 97%N 199 ++ [65533%N])).
Proof. vm_compute. reflexivity. Qed.

Lemma guard_sample :
  (Sentiment.isExplicitRating (str "8 great job") = true \/
   length (str "8 great job") < Sentiment.MIN_PROMPT_LENGTH) /\
  fst (Sample.handle Sample.hangs (str "8 great job") (str "s1") None
         Sample.emptyWorld) = Ok None /\
  inference_calls
    (snd (Sample.handle Sample.hangs (str "8 great job") (str "s1") None
            Sample.emptyWorld)) = [] /\
  time (snd (Sample.handle Sample.hangs (str "8 great job") (str "s1") None
               Sample.emptyWorld)) = 0%N /\
  dirs (snd (Sample.handle Sample.hangs (str "8 great job") (str "s1") None
               Sample.emptyWorld)) = ∅ /\
  quiet Sample.emptyWorld
    (snd (Sample.handle Sample.hangs (str "8 great job") (str "s1") None
            Sample.emptyWorld)).
Proof.
  assert (H : Sentiment.isExplicitRating (str "8 great job") = true \/
              length (str "8 great job") < Sentiment.MIN_PROMPT_LENGTH)
    by (left; vm_compute; reflexivity).
  split; [exact H |].
  exact (guards_skip_classifier Sample.hangs Sample.systemPrompt_ Sample.join
           (str "/mem/LEARNING") Sample.getLearningCategory Sample.getLearningCategoryUntyped
           Sample.toISOString Sample.yearMonth Sample.numberToString
           Sample.stringToNumber (str "8 great job")
           (str "s1") None Sample.emptyWorld H).
Defined.

Lemma verdict_sample :
  fst (Sample.handle (Sample.answers 100 (Sample.sentiment (Some 2%Q) 0.9%Q))
         (str "this is broken again") (str "s1") None Sample.emptyWorld)
    = Ok (Some (Sentiment.Verdict (Some (JNum (Finite 2%Q)))
                  (Some (JStr (str "negative")))
                  (Some (JNum (Finite 0.9%Q))))) /\
  exists e,
    ratings_files
      (snd (Sample.handle
              (Sample.answers 100 (Sample.sentiment (Some 2%Q) 0.9%Q))
              (str "this is broken again") (str "s1") None Sample.emptyWorld))
      = <[Sample.ratingsFile := [] ++ [Entry.stringified e]]> ∅ /\
    Entry.rating e = Some (JNum (Finite 2%Q)) /\
    Entry.confidence e = Some (JNum (Finite 0.9%Q)) /\
    Entry.session_id e = str "s1" /\
    Entry.source e = str "implicit" /\
    Some (JNum (Finite 2%Q)) <> Some JNull /\
    Sentiment.lessThan Sample.numberToString Sample.stringToNumber
      (Some (JNum (Finite 0.9%Q))) Sentiment.MIN_CONFIDENCE = Ok false /\
    (forall c, Some (JNum (Finite 0.9%Q)) = Some (JNum (Finite c)) ->
               (Sentiment.MIN_CONFIDENCE <= c)%Q).
Proof.
  assert (H : fst (Sample.handle
                     (Sample.answers 100 (Sample.sentiment (Some 2%Q) 0.9%Q))
                     (str "this is broken again") (str "s1") None
                     Sample.emptyWorld)
              = Ok (Some (Sentiment.Verdict (Some (JNum (Finite 2%Q)))
                            (Some (JStr (str "negative")))
                            (Some (JNum (Finite 0.9%Q))))))
    by (vm_compute; reflexivity).
  split; [exact H |].
  exact (verdict_is_persisted
           (Sample.answers 100 (Sample.sentiment (Some 2%Q) 0.9%Q))
           Sample.systemPrompt_ Sample.join (str "/mem/LEARNING")
           Sample.getLearningCategory Sample.getLearningCategoryUntyped
           Sample.toISOString Sample.yearMonth Sample.numberToString
           Sample.stringToNumber (str "this is broken again") (str "s1") None
           Sample.emptyWorld _ H).
Defined.

(** The verdict for an answer without a confidence: nothing compares with
    the threshold, and the entry is written without one. *)
Lemma verdict_without_confidence :
  let answer :=
    Sent.Make (Some (JNum (Finite 8%Q))) (Some (JStr (str "positive"))) None
      (Some (JStr (str "Pleased"))) None in
  fst (Sample.handle (Sample.answers 100 answer)
         (str "this is broken again") (str "s1") None Sample.emptyWorld)
    = Ok (Some (Sentiment.Verdict (Some (JNum (Finite 8%Q)))
                  (Some (JStr (str "positive"))) None)) /\
  Sentiment.lessThan Sample.numberToString Sample.stringToNumber None
    Sentiment.MIN_CONFIDENCE = Ok false.
Proof. split; vm_compute; reflexivity. Qed.


Lemma high_rating_sample :
  (forall req d res s,
      Sample.answers 100 (Sample.sentiment (Some 8%Q) 0.9%Q) req
        = Sentiment.SettlesAfter d (Ok res) ->
      Sentiment.parsed res = Some s ->
      exists r, Sent.rating s = Some (JNum (Finite r)) /\ (6 <= r)%Q) /\
  md_files
    (snd (Sample.handle (Sample.answers 100 (Sample.sentiment (Some 8%Q) 0.9%Q))
            (str "that works nicely") (str "s1") (Some Example.transcriptPath)
            (Example.withTranscript Example.recent))) = ∅ /\
  (forall p,
      Wrote p ∉ [] ->
      Wrote p
        ∉ journal
            (snd (Sample.handle
                    (Sample.answers 100 (Sample.sentiment (Some 8%Q) 0.9%Q))
                    (str "that works nicely") (str "s1")
                    (Some Example.transcriptPath)
                    (Example.withTranscript Example.recent)))).
Proof.
  assert (H : forall req d res s,
      Sample.answers 100 (Sample.sentiment (Some 8%Q) 0.9%Q) req
        = Sentiment.SettlesAfter d (Ok res) ->
      Sentiment.parsed res = Some s ->
      exists r, Sent.rating s = Some (JNum (Finite r)) /\ (6 <= r)%Q).
  { intros req d res s Hreq Hs. unfold Sample.answers in Hreq.
    injection Hreq as _ <-. injection Hs as <-.
    exists 8%Q. split; [reflexivity | discriminate]. }
  split; [exact H |].
  exact (high_rating_writes_no_learning
           (Sample.answers 100 (Sample.sentiment (Some 8%Q) 0.9%Q))
           Sample.systemPrompt_ Sample.join (str "/mem/LEARNING")
           Sample.getLearningCategory Sample.getLearningCategoryUntyped
           Sample.toISOString Sample.yearMonth Sample.numberToString
           Sample.stringToNumber (str "that works nicely") (str "s1")
           (Some Example.transcriptPath)
           (Example.withTranscript Example.recent) H).
Defined.

Lemma context_sample :
  truthy Example.transcriptPath = true /\
  transcripts (Example.withTranscript (Example.older ++ Example.recent))
    !! Example.transcriptPath = Some (Example.older ++ Example.recent) /\
  transcripts (Example.withTranscript Example.recent)
    !! Example.transcriptPath = Some Example.recent /\
  3 <= length (concat (map Sentiment.contextTurn Example.recent)) /\
  fst (Sentiment.getRecentContext Example.transcriptPath
         (Example.withTranscript (Example.older ++ Example.recent)))
    = fst (Sentiment.getRecentContext Example.transcriptPath
             (Example.withTranscript Example.recent)).
Proof.
  assert (H1 : truthy Example.transcriptPath = true) by reflexivity.
  assert (H2 : transcripts
                 (Example.withTranscript (Example.older ++ Example.recent))
                 !! Example.transcriptPath
               = Some (Example.older ++ Example.recent))
    by (vm_compute; reflexivity).
  assert (H3 : transcripts (Example.withTranscript Example.recent)
                 !! Example.transcriptPath = Some Example.recent)
    by (vm_compute; reflexivity).
  assert (H4 : 3 <= length (concat (map Sentiment.contextTurn Example.recent)))
    by (vm_compute; lia).
  repeat (split; [assumption |]).
  exact (context_is_last_three_turns Example.transcriptPath Example.older
           Example.recent _ _ H1 H2 H3 H4).
Defined.

Lemma failed_inference_sample :
  (forall req d res,
      Example.fails req = Sentiment.SettlesAfter d (Ok res) ->
      Sentiment.success res = false \/ Sentiment.parsed res = None) /\
  fst (Sample.handle Example.fails (str "this is broken again") (str "s1")
         (Some Example.transcriptPath)
         (Example.withTranscript Example.recent)) = Ok None /\
  dirs (snd (Sample.handle Example.fails (str "this is broken again")
               (str "s1") (Some Example.transcriptPath)
               (Example.withTranscript Example.recent))) = ∅ /\
  quiet (Example.withTranscript Example.recent)
    (snd (Sample.handle Example.fails (str "this is broken again") (str "s1")
            (Some Example.transcriptPath)
            (Example.withTranscript Example.recent))).
Proof.
  assert (H : forall req d res,
      Example.fails req = Sentiment.SettlesAfter d (Ok res) ->
      Sentiment.success res = false \/ Sentiment.parsed res = None).
  { intros req d res Hreq. unfold Example.fails in Hreq.
    injection Hreq as _ <-. left. reflexivity. }
  split; [exact H |].
  exact (failed_inference_persists_nothing Example.fails Sample.systemPrompt_
           Sample.join (str "/mem/LEARNING") Sample.getLearningCategory Sample.getLearningCategoryUntyped
           Sample.toISOString Sample.yearMonth Sample.numberToString
           Sample.stringToNumber
           (str "this is broken again") (str "s1")
           (Some Example.transcriptPath)
           (Example.withTranscript Example.recent) H).
Defined.

Lemma filename_timestamp_sample :
  isoShape (Sample.toISOString (time Sample.emptyWorld)) = true /\
  Sentiment.getFilenameTimestamp Sample.toISOString Sample.emptyWorld
    = (Ok (str "2026-02-02-143000"), Sample.emptyWorld) /\
  length (str "2026-02-02-143000") = 17 /\
  Forall (fun c => isDigit c = true \/ c = 45%N) (str "2026-02-02-143000").
Proof.
  assert (H : isoShape (Sample.toISOString (time Sample.emptyWorld)) = true)
    by (vm_compute; reflexivity).
  split; [exact H |].
  exact (filename_timestamp_format Sample.toISOString Sample.emptyWorld H).
Defined.
